(** * zwiftpower-profile-data: the alias-history pipeline

    A shallow embedding of [find_profile_changes.py], [anonymise.py] and
    the row parser of [parse_profiles.py]: height backfill, delta
    detection between adjacent aliases, the suspicion filter, the report
    formatter, the anonymiser and the scraping of an alias row, followed
    by the properties the specification states about them.

    Conventions of the embedding.
    - A JSON object used as a record with open field names (an alias, the
      [deltas] mapping) is a [gmap string value]; a [value] is one of the
      JSON scalars the scraper emits: null, an integer, a float, a string.
      A profile and a report, whose fields are fixed, are records.
    - Python exceptions are the [Err] branch of [result]; a generator is
      the list of items it yields followed by the exception that ends it,
      if any ([gen]).
    - Python [int] is [Z].  Python [float] is idealised as an exact
      rational [Q]: subtraction, division and comparison are the exact
      ones, without binary64 rounding and without [OverflowError].
      Comparison is exact in Python too; a difference or a quotient is
      not, so the statements about differences are made for integer
      fields, and the statements about the rounded points for points
      below [2 ^ 53] in absolute value, where the binary64 quotient
      rounds to the same integer as the exact one.
    - Python [str] is [string]: a character is a byte, which is right for
      ASCII text.  White space, digits, case and slices are the ASCII
      ones; the statements about text that need not be ASCII say so
      ([ascii_text]). *)

From Stdlib Require Import ZArith QArith Qabs Qround String Ascii List.
From Stdlib Require Import Sorting.Sorted Sorting.Permutation.
From stdpp Require Import base option list gmap strings fin_maps pretty.

Close Scope Q_scope.
Local Open Scope Z_scope.

(** ** Values, exceptions and results *)

Inductive value : Type :=
  | VNone
  | VInt (z : Z)
  | VFloat (q : Q)
  | VStr (s : string).

(** The exceptions the pipeline can raise.  [NotModelled] is not a Python
    exception: it marks an operation the embedding does not cover (the
    text of a float, a zero-padded format applied to a string). *)
Inductive exn : Type :=
  | KeyError (k : value)
  | TypeError
  | ValueError
  | AttributeError
  | NotModelled.

Inductive result (A : Type) : Type :=
  | Ok (a : A)
  | Err (e : exn).
Arguments Ok {A} a.
Arguments Err {A} e.

Definition bind {A B} (r : result A) (f : A → result B) : result B :=
  match r with
  | Ok a => f a
  | Err e => Err e
  end.

Notation "'let*' x := r 'in' k" := (bind r (λ x, k))
  (at level 10, x name, r at level 100, k at level 200,
   format "'[v' 'let*'  x  :=  r  'in' '/' k ']'").

#[export] Instance result_ret : MRet result := λ A a, Ok a.
#[export] Instance result_bind : MBind result := λ A B f r, bind r f.

Definition is_Ok {A} (r : result A) : Prop := ∃ a, r = Ok a.
Definition is_Err {A} (r : result A) : Prop := ∃ e, r = Err e.

(** A generator, observed to its end: the items yielded, in order, and the
    exception that stopped it ([None] when it ran to completion). *)
Record gen (A : Type) : Type := Gen { yielded : list A; raised : option exn }.
Arguments Gen {A} yielded raised.
Arguments yielded {A} g.
Arguments raised {A} g.

Definition gen_done {A} : gen A := Gen [] None.
Definition gen_raise {A} (e : exn) : gen A := Gen [] (Some e).
Definition gen_yield {A} (a : A) (g : gen A) : gen A :=
  Gen (a :: yielded g) (raised g).

(** [g1] followed by [g2]: what comes out when [g2] is run after [g1]
    has ended, unless [g1] ended with an exception. *)
Definition gen_then {A} (g1 g2 : gen A) : gen A :=
  match raised g1 with
  | Some _ => g1
  | None => Gen (yielded g1 ++ yielded g2) (raised g2)
  end.

(** [list(g)] *)
Definition py_list {A} (g : gen A) : result (list A) :=
  match raised g with
  | None => Ok (yielded g)
  | Some e => Err e
  end.

(** ** The Python operators the pipeline applies to field values *)

Module Py.

Definition is_num (v : value) : Prop :=
  match v with
  | VInt _ | VFloat _ => True
  | _ => False
  end.

Definition to_Q (v : value) : option Q :=
  match v with
  | VInt z => Some (inject_Z z)
  | VFloat q => Some q
  | _ => None
  end.

(** [a - b].  Between integers this is Python's subtraction.  With a
    float operand the difference is the exact one: Python rounds it to
    binary64, after rounding an integer operand, and raises
    [OverflowError] for an integer too large for a float. *)
Definition sub (a b : value) : result value :=
  match a, b with
  | VInt x, VInt y => Ok (VInt (x - y))
  | VInt x, VFloat y => Ok (VFloat (inject_Z x - y)%Q)
  | VFloat x, VInt y => Ok (VFloat (x - inject_Z y)%Q)
  | VFloat x, VFloat y => Ok (VFloat (x - y)%Q)
  | _, _ => Err TypeError
  end.

(** [a / b], true division, for a non-zero integer literal [b]: the exact
    quotient, where Python gives the binary64 number nearest to it and
    raises [OverflowError] for an integer too large for a float. *)
Definition truediv_int (a : value) (b : Z) : result Q :=
  match to_Q a with
  | Some q => Ok (q / inject_Z b)%Q
  | None => Err TypeError
  end.

(** [v == 0] and [v != 0]; neither raises *)
Definition eq0 (v : value) : bool :=
  match v with
  | VInt z => z =? 0
  | VFloat q => Qeq_bool q 0
  | _ => false
  end.
Definition ne0 (v : value) : bool := negb (eq0 v).

(** [abs(v)] *)
Definition abs (v : value) : result value :=
  match v with
  | VInt z => Ok (VInt (Z.abs z))
  | VFloat q => Ok (VFloat (Qabs q))
  | _ => Err TypeError
  end.

(** [a == b] on values; never raises *)
Definition eqb (a b : value) : bool :=
  match a, b with
  | VNone, VNone => true
  | VStr s, VStr t => String.eqb s t
  | _, _ =>
      match to_Q a, to_Q b with
      | Some x, Some y => Qeq_bool x y
      | _, _ => false
      end
  end.

(** [a < b] *)
Definition ltb (a b : value) : result bool :=
  match a, b with
  | VStr s, VStr t => Ok (String.ltb s t)
  | _, _ =>
      match to_Q a, to_Q b with
      | Some x, Some y => Ok (negb (Qle_bool y x))
      | _, _ => Err TypeError
      end
  end.

(** [a >= b] *)
Definition geb (a b : value) : result bool :=
  match a, b with
  | VStr s, VStr t => Ok (String.leb t s)
  | _, _ =>
      match to_Q a, to_Q b with
      | Some x, Some y => Ok (Qle_bool y x)
      | _, _ => Err TypeError
      end
  end.

(** [d[k]] *)
Definition getitem (d : gmap string value) (k : string) : result value :=
  match d !! k with
  | Some v => Ok v
  | None => Err (KeyError (VStr k))
  end.

(** [bool(d)] for a dict *)
Definition truthy (d : gmap string value) : bool :=
  negb (Nat.eqb (size d) 0).

End Py.

(** ** Delta detection: [get_deltas] *)

Record delta : Type := Delta {
  from : gmap string value;
  to : gmap string value;
  deltas : gmap string value
}.

(** The dict comprehension
    [{f: last[f] - alias[f] for f in fields if last[f] - alias[f] != 0}],
    one field after the other, into the dict built so far. *)
Fixpoint field_deltas (acc last alias : gmap string value)
    (fields : list string) : result (gmap string value) :=
  match fields with
  | [] => Ok acc
  | f :: fields' =>
      let* x := Py.getitem last f in
      let* y := Py.getitem alias f in
      let* d := Py.sub x y in
      if Py.ne0 d
      then field_deltas (<[f := d]> acc) last alias fields'
      else field_deltas acc last alias fields'
  end.

(** The loop of [get_deltas], with its variable [last]. *)
Fixpoint get_deltas_from (last : option (gmap string value))
    (aliases : list (gmap string value)) (fields : list string) : gen delta :=
  match aliases with
  | [] => gen_done
  | alias :: aliases' =>
      match last with
      | None => get_deltas_from (Some alias) aliases' fields
      | Some l =>
          match field_deltas ∅ l alias fields with
          | Err e => gen_raise e
          | Ok ds =>
              if Py.truthy ds
              then gen_yield {| from := alias; to := l; deltas := ds |}
                     (get_deltas_from (Some alias) aliases' fields)
              else get_deltas_from (Some alias) aliases' fields
          end
      end
  end.

Definition get_deltas (aliases : list (gmap string value))
    (fields : list string) : gen delta :=
  get_deltas_from None aliases fields.

(** ** The suspicion filter: [filter_deltas] *)

(** [retain.get(k, lambda x: True)] *)
Definition retain_get (retain : gmap string (value → result bool))
    (k : string) : value → result bool :=
  match retain !! k with
  | Some p => p
  | None => λ _, Ok true
  end.

(** The dict comprehension over [d['deltas'].items()].  Each predicate is
    called once per item; the first one that raises ends the whole call.
    The items come in the order of [map_to_list], which need not be the
    insertion order of the dict: when the predicates of two items raise,
    the exception reported may be that of the other item. *)
Fixpoint filter_items (retain : gmap string (value → result bool))
    (items : list (string * value)) : result (list (string * value)) :=
  match items with
  | [] => Ok []
  | (k, v) :: items' =>
      let* b := retain_get retain k v in
      let* kept := filter_items retain items' in
      Ok (if b then (k, v) :: kept else kept)
  end.

Fixpoint filter_deltas_list (retain : gmap string (value → result bool))
    (ds : list delta) : result (list delta) :=
  match ds with
  | [] => Ok []
  | d :: ds' =>
      let* kept := filter_items retain (map_to_list (deltas d)) in
      let d' := {| from := from d; to := to d; deltas := list_to_map kept |} in
      let* rest := filter_deltas_list retain ds' in
      Ok (if Py.truthy (deltas d') then d' :: rest else rest)
  end.

(** [filter_deltas(deltas, retain=retain)]: the list comprehension drains
    the generator [deltas]; an exception of the generator comes after the
    items it yielded before. *)
Definition filter_deltas (ds : gen delta)
    (retain : gmap string (value → result bool)) : result (list delta) :=
  let* out := filter_deltas_list retain (yielded ds) in
  match raised ds with
  | None => Ok out
  | Some e => Err e
  end.

(** [lambda x: abs(x) >= 5] *)
Definition height_policy (x : value) : result bool :=
  let* a := Py.abs x in Py.geb a (VInt 5).

Definition get_suspicious_deltas (aliases : list (gmap string value))
    : result (list delta) :=
  filter_deltas (get_deltas aliases ["height"])
                {[ "height" := height_policy ]}.

(** ** Height backfill: [backfill_heights] *)

(** [itertools.takewhile] and [itertools.dropwhile], drained. *)
Fixpoint takewhile {A} (p : A → result bool) (xs : list A) : result (list A) :=
  match xs with
  | [] => Ok []
  | x :: xs' =>
      let* b := p x in
      if b then (let* r := takewhile p xs' in Ok (x :: r)) else Ok []
  end.

Fixpoint dropwhile {A} (p : A → result bool) (xs : list A) : result (list A) :=
  match xs with
  | [] => Ok []
  | x :: xs' =>
      let* b := p x in
      if b then dropwhile p xs' else Ok (x :: xs')
  end.

(** [lambda a: a['height'] == 0] *)
Definition height_is_zero (a : gmap string value) : result bool :=
  let* h := Py.getitem a "height" in Ok (Py.eq0 h).

(** [next(a['height'] for a in xs if a['height'] != 0)]; [Ok None] stands
    for [StopIteration], which the caller catches. *)
Fixpoint next_nonzero_height (xs : list (gmap string value))
    : result (option value) :=
  match xs with
  | [] => Ok None
  | a :: xs' =>
      let* h := Py.getitem a "height" in
      if Py.ne0 h then Ok (Some h) else next_nonzero_height xs'
  end.

Definition backfill_heights (aliases : list (gmap string value))
    : result (list (gmap string value)) :=
  let* first := next_nonzero_height (reverse aliases) in
  match first with
  | None => Ok aliases
  | Some first_height =>
      let* zeros := takewhile height_is_zero (reverse aliases) in
      let backfilled :=
        reverse ((λ a, <["height" := first_height]> a) <$> zeros) in
      let* rest := dropwhile height_is_zero (reverse aliases) in
      let default' := reverse rest in
      Ok (default' ++ backfilled)
  end.

(** ** Month normalisation: [numeric_month], [numeric_months] *)

Definition month_names : list string :=
  ["jan"; "feb"; "mar"; "apr"; "may"; "jun";
   "jul"; "aug"; "sep"; "oct"; "nov"; "dec"].

(** [{month: n for n, month in enumerate(..., 1)}] *)
Definition months : gmap string Z :=
  list_to_map (imap (λ i month, (month, Z.of_nat i + 1)) month_names).

(** [months[month]]: a key that is not a string is not in the table. *)
Definition numeric_month (month : value) : result value :=
  match month with
  | VStr s =>
      match months !! s with
      | Some n => Ok (VInt n)
      | None => Err (KeyError month)
      end
  | _ => Err (KeyError month)
  end.

Definition numeric_months (aliases : list (gmap string value))
    : result (list (gmap string value)) :=
  mapM (λ alias,
          let* m := Py.getitem alias "month" in
          let* n := numeric_month m in
          Ok (<["month" := n]> alias)) aliases.

(** ** Strings: the [str] methods, slices and conversions in use *)

Module Str.

Definition is_lower (c : ascii) : bool :=
  let n := nat_of_ascii c in (97 <=? n)%nat && (n <=? 122)%nat.
Definition is_upper (c : ascii) : bool :=
  let n := nat_of_ascii c in (65 <=? n)%nat && (n <=? 90)%nat.
Definition upper (c : ascii) : ascii :=
  if is_lower c then ascii_of_nat (nat_of_ascii c - 32) else c.
Definition lower (c : ascii) : ascii :=
  if is_upper c then ascii_of_nat (nat_of_ascii c + 32) else c.

Fixpoint map (f : ascii → ascii) (s : string) : string :=
  match s with
  | EmptyString => EmptyString
  | String c s' => String (f c) (map f s')
  end.

(** [s.capitalize()], for ASCII text *)
Definition capitalize (s : string) : string :=
  match s with
  | EmptyString => EmptyString
  | String c s' => String (upper c) (map lower s')
  end.

(** [s[i:j]] for [0 <= i <= j]: characters are bytes, as in ASCII text *)
Definition slice (i j : nat) (s : string) : string := substring i (j - i) s.

(** The ASCII white space of [str]: what [s.strip()] removes. *)
Definition is_space (c : ascii) : bool :=
  let n := nat_of_ascii c in
  ((9 <=? n)%nat && (n <=? 13)%nat) || ((28 <=? n)%nat && (n <=? 32)%nat).

(** The ASCII characters [int()] skips at both ends of its argument: the
    separators 28 to 31 are not among them. *)
Definition is_int_space (c : ascii) : bool :=
  let n := nat_of_ascii c in
  ((9 <=? n)%nat && (n <=? 13)%nat) || (n =? 32)%nat.

Definition digit (c : ascii) : option Z :=
  let n := nat_of_ascii c in
  if (48 <=? n)%nat && (n <=? 57)%nat then Some (Z.of_nat (n - 48)) else None.

Fixpoint lstrip (cs : list ascii) : list ascii :=
  match cs with
  | c :: cs' => if is_space c then lstrip cs' else cs
  | [] => []
  end.
Definition strip (cs : list ascii) : list ascii :=
  reverse (lstrip (reverse (lstrip cs))).

Fixpoint int_lstrip (cs : list ascii) : list ascii :=
  match cs with
  | c :: cs' => if is_int_space c then int_lstrip cs' else cs
  | [] => []
  end.
Definition int_strip (cs : list ascii) : list ascii :=
  reverse (int_lstrip (reverse (int_lstrip cs))).

(** Decimal digits, where one underscore may separate two digits.
    [after_digit] tells whether the previous character was a digit. *)
Fixpoint digits (acc : Z) (after_digit : bool) (cs : list ascii) : option Z :=
  match cs with
  | [] => if after_digit then Some acc else None
  | c :: cs' =>
      match digit c with
      | Some d => digits (10 * acc + d) true cs'
      | None =>
          if Ascii.eqb c "_" && after_digit then digits acc false cs'
          else None
      end
  end.

(** [int(s)] for a string [s] *)
Definition to_int (s : string) : result Z :=
  let cs := int_strip (list_ascii_of_string s) in
  let parsed :=
    match cs with
    | c :: cs' =>
        if Ascii.eqb c "+" then digits 0 false cs'
        else if Ascii.eqb c "-" then Z.opp <$> digits 0 false cs'
        else digits 0 false cs
    | [] => None
    end in
  match parsed with
  | Some z => Ok z
  | None => Err ValueError
  end.

(** [f"{v}"] *)
Definition format_plain (v : value) : result string :=
  match v with
  | VInt z => Ok (pretty z)
  | VStr s => Ok s
  | VNone => Ok "None"
  | VFloat _ => Err NotModelled
  end.

(** [f"{v:02}"]: sign-aware zero padding to width two *)
Definition format_02 (v : value) : result string :=
  match v with
  | VInt z => Ok (if (0 <=? z) && (z <? 10) then "0" +:+ pretty z else pretty z)
  | VNone => Err TypeError
  | VFloat _ | VStr _ => Err NotModelled
  end.

(** [v.capitalize()] *)
Definition capitalize_value (v : value) : result string :=
  match v with
  | VStr s => Ok (capitalize s)
  | _ => Err AttributeError
  end.

End Str.

(** ** The report: [format_date], [describe_suspicious_delta],
       [describe_suspicious_profile] *)

Record change : Type := Change {
  date : string;
  height_change : value
}.

Record report : Type := Report {
  zwiftid : value;
  zwiftpower_points : value;
  suspicious_profile_changes : list change
}.

Record profile : Type := Profile {
  profile_zwiftid : value;
  profile_zwiftpower_points : value;
  aliases : list (gmap string value)
}.

Definition format_date (o : gmap string value) : result string :=
  let* month := Py.getitem o "month" in
  let* m := Str.capitalize_value month in
  let* day := Py.getitem o "day" in
  let* d := Str.format_plain day in
  let* hour := Py.getitem o "hour" in
  let* hh := Str.format_02 hour in
  let* minute := Py.getitem o "minute" in
  let* mm := Str.format_02 minute in
  Ok (m +:+ " " +:+ d +:+ " " +:+ hh +:+ ":" +:+ mm).

Definition describe_suspicious_delta (d : delta) : result change :=
  let* s := format_date (to d) in
  let* h := Py.getitem (deltas d) "height" in
  Ok {| date := s; height_change := h |}.

Definition describe_suspicious_profile (p : profile) : result (option report) :=
  let* backfilled := backfill_heights (aliases p) in
  let* suspicious_deltas := get_suspicious_deltas backfilled in
  match suspicious_deltas with
  | [] => Ok None
  | _ =>
      let* changes := mapM describe_suspicious_delta suspicious_deltas in
      Ok (Some {| zwiftid := profile_zwiftid p;
                  zwiftpower_points := profile_zwiftpower_points p;
                  suspicious_profile_changes := changes |})
  end.

(** ** Sorting the reports: [sorted(descs, key=...)] in [main] *)

(** [lambda d: (d['zwiftpower_points'], d['zwiftid'])] *)
Definition sort_key (d : report) : value * value :=
  (zwiftpower_points d, zwiftid d).

(** [a < b] on pairs: [<] of the first components that are not [==]. *)
Definition key_lt (a b : value * value) : result bool :=
  if negb (Py.eqb a.1 b.1) then Py.ltb a.1 b.1
  else if negb (Py.eqb a.2 b.2) then Py.ltb a.2 b.2
  else Ok false.

(** One step of the stable insertion: [x] goes in front of the first
    element it is smaller than. *)
Fixpoint insort (x : report) (l : list report) : result (list report) :=
  match l with
  | [] => Ok [x]
  | y :: l' =>
      let* b := key_lt (sort_key x) (sort_key y) in
      if b then Ok (x :: y :: l')
      else let* r := insort x l' in Ok (y :: r)
  end.

(** [sorted]: the elements are inserted from left to right into the
    sorted prefix, with [<] as the only comparison.  Where [<] orders the
    keys totally this is the list [sorted] returns. *)
Definition sorted (descs : list report) : result (list report) :=
  foldl (λ acc x, let* l := acc in insort x l) (Ok []) descs.

(** The reports [main] hands to the renderer. *)
Fixpoint descriptions (profiles : list profile) : gen report :=
  match profiles with
  | [] => gen_done
  | p :: profiles' =>
      match describe_suspicious_profile p with
      | Err e => gen_raise e
      | Ok None => descriptions profiles'
      | Ok (Some d) => gen_yield d (descriptions profiles')
      end
  end.

Definition main_descs (sort : bool) (profiles : list profile) : gen report :=
  let descs := descriptions profiles in
  if sort then
    match (let* l := py_list descs in sorted l) with
    | Ok l => Gen l None
    | Err e => gen_raise e
    end
  else descs.

(** ** The anonymiser: the record built in the loop of [anonymise.py] *)

(** [round(q)]: the nearest integer, a tie going to the even one. *)
Definition round_half_even (q : Q) : Z :=
  let n := Qnum q in
  let d := Z.pos (Qden q) in
  let f := n / d in
  match 2 * (n mod d) ?= d with
  | Lt => f
  | Gt => f + 1
  | Eq => if Z.even f then f else f + 1
  end.

Definition anonymise_change (pc : change) : result change :=
  let* hour := Str.to_int (Str.slice 7 9 (date pc)) in
  Ok {| date := Str.slice 0 7 (date pc) +:+ (if hour <? 12 then "am" else "pm");
        height_change := height_change pc |}.

Definition anonymise (desc : report) : result report :=
  let* q := Py.truediv_int (zwiftpower_points desc) 50 in
  let* changes := mapM anonymise_change (suspicious_profile_changes desc) in
  Ok {| zwiftid := VNone;
        zwiftpower_points := VInt (round_half_even q * 50);
        suspicious_profile_changes := changes |}.

(** ** The rows of the CSV output: [output_csv] *)

(** What [output_csv] hands to the CSV writer for one change: the change
    itself with the points and the profile URL of its report. *)
Record csv_row : Type := CsvRow {
  csv_profile_url : string;
  csv_zwiftpower_points : value;
  csv_date : string;
  csv_height_change : value
}.

(** [f'https://www.zwiftpower.com/profile.php?z={desc["zwiftid"]}'] *)
Definition profile_url (zid : value) : result string :=
  let* z := Str.format_plain zid in
  Ok ("https://www.zwiftpower.com/profile.php?z=" +:+ z).

Definition csv_row_of (desc : report) (c : change) : result csv_row :=
  let* url := profile_url (zwiftid desc) in
  Ok {| csv_profile_url := url;
        csv_zwiftpower_points := zwiftpower_points desc;
        csv_date := date c;
        csv_height_change := height_change c |}.

(** [for change in desc['suspicious_profile_changes']] *)
Fixpoint csv_rows_of (desc : report) (changes : list change) : gen csv_row :=
  match changes with
  | [] => gen_done
  | c :: changes' =>
      match csv_row_of desc c with
      | Err e => gen_raise e
      | Ok row => gen_yield row (csv_rows_of desc changes')
      end
  end.

(** [for desc in descs for change in ...], over the reports yielded *)
Fixpoint csv_rows_list (descs : list report) : gen csv_row :=
  match descs with
  | [] => gen_done
  | desc :: descs' =>
      gen_then (csv_rows_of desc (suspicious_profile_changes desc))
               (csv_rows_list descs')
  end.

(** The rows written by [output_csv(descs, fileobj)], after the header. *)
Definition output_csv_rows (descs : gen report) : gen csv_row :=
  gen_then (csv_rows_list (yielded descs)) (Gen [] (raised descs)).

(** ** Reading the profiles: [stream_profiles] *)

(** [l.strip()]: the ASCII white space is removed at both ends; the
    white space beyond ASCII, which Python removes too, is not. *)
Definition str_strip (s : string) : string :=
  string_of_list_ascii (Str.strip (list_ascii_of_string s)).

Section stream_profiles.
(** [json.loads], which this embedding does not look into. *)
Context {A : Type} (json_loads : string → result A).

(** Blank lines are skipped; whatever [json.loads] raises is replaced by
    [ValueError]. *)
Fixpoint stream_profiles (fileobj : list string) : gen A :=
  match fileobj with
  | [] => gen_done
  | l :: fileobj' =>
      let line := str_strip l in
      if String.eqb line "" then stream_profiles fileobj'
      else
        match json_loads line with
        | Ok v => gen_yield v (stream_profiles fileobj')
        | Err _ => gen_raise ValueError
        end
  end.

End stream_profiles.

(** ** Scraping an alias row: [require_match], [parse_alias_row]

    The row is given by the text of its cells.  The four regular
    expressions are matched by the functions below; [\d] is an ASCII
    digit (in Python it is any Unicode decimal digit, which [int]
    accepts too), and [$] is the end of the string or the place before a
    final newline. *)

Module Re.

Definition is_digit (c : ascii) : bool :=
  let n := nat_of_ascii c in (48 <=? n)%nat && (n <=? 57)%nat.

(** [[a-z]] and [[A-Za-z]] *)
Definition is_az (c : ascii) : bool := Str.is_lower c.
Definition is_alpha (c : ascii) : bool := Str.is_lower c || Str.is_upper c.

(** [$] *)
Definition at_end (cs : list ascii) : bool :=
  match cs with
  | [] => true
  | [c] => Ascii.eqb c "010"
  | _ => false
  end.

(** The longest prefix of characters in a class, and what follows it. *)
Fixpoint span (p : ascii → bool) (cs : list ascii) : list ascii * list ascii :=
  match cs with
  | c :: cs' =>
      if p c then let '(a, b) := span p cs' in (c :: a, b) else ([], cs)
  | [] => ([], [])
  end.

(** [[a-z]{2}$] *)
Definition suffix_end (cs : list ascii) : bool :=
  match cs with
  | l1 :: l2 :: tl => is_az l1 && is_az l2 && at_end tl
  | _ => false
  end.

(** [^([A-Za-z]{3}) ([\d]{1,2})[a-z]{2}$]: groups 1 and 2.  Two digits
    are tried first, then one. *)
Definition match_date (s : string) : option (string * string) :=
  match list_ascii_of_string s with
  | c0 :: c1 :: c2 :: sp :: d1 :: rest =>
      if is_alpha c0 && is_alpha c1 && is_alpha c2 && Ascii.eqb sp " "
         && is_digit d1
      then
        let month := string_of_list_ascii [c0; c1; c2] in
        match rest with
        | d2 :: rest' =>
            if is_digit d2 && suffix_end rest'
            then Some (month, string_of_list_ascii [d1; d2])
            else if suffix_end rest
            then Some (month, string_of_list_ascii [d1])
            else None
        | [] => None
        end
      else None
  | _ => None
  end.

(** [^([\d]{2}):([\d]{2})$]: groups 1 and 2 *)
Definition match_time (s : string) : option (string * string) :=
  match list_ascii_of_string s with
  | h1 :: h2 :: co :: m1 :: m2 :: tl =>
      if is_digit h1 && is_digit h2 && Ascii.eqb co ":"
         && is_digit m1 && is_digit m2 && at_end tl
      then Some (string_of_list_ascii [h1; h2], string_of_list_ascii [m1; m2])
      else None
  | _ => None
  end.

(** The class [[\d(\.\d+)?]]: a digit or one of [( . + ) ?]. *)
Definition is_weight_char (c : ascii) : bool :=
  is_digit c || Ascii.eqb c "(" || Ascii.eqb c "." || Ascii.eqb c "+"
  || Ascii.eqb c ")" || Ascii.eqb c "?".

(** [^(<class>+)<unit>$] for a two-letter unit no character of the class
    is the first letter of: group 1 *)
Definition match_with_unit (p : ascii → bool) (u1 u2 : ascii) (s : string)
    : option string :=
  let '(w, rest) := span p (list_ascii_of_string s) in
  match w, rest with
  | _ :: _, a :: b :: tl =>
      if Ascii.eqb a u1 && Ascii.eqb b u2 && at_end tl
      then Some (string_of_list_ascii w)
      else None
  | _, _ => None
  end.

(** [^([\d(\.\d+)?]+)kg$] *)
Definition match_weight (s : string) : option string :=
  match_with_unit is_weight_char "k" "g" s.

(** [^([\d]+)cm$] *)
Definition match_height (s : string) : option string :=
  match_with_unit is_digit "c" "m" s.

End Re.

(** [require_match(regex, string)], given the outcome of the match *)
Definition require_match {A} (m : option A) : result A :=
  match m with
  | Some x => Ok x
  | None => Err ValueError
  end.

(** The value of a string of ASCII digits. *)
Definition digits_value (cs : list ascii) : Z :=
  foldl (λ acc c, 10 * acc + default 0 (Str.digit c)) 0 cs.

(** The characters a float literal can hold that this embedding of
    [float] leaves aside: white space, the underscore, an exponent, the
    letters of "inf", "infinity" and "nan", and bytes that are not
    ASCII. *)
Definition float_char_aside (c : ascii) : bool :=
  Str.is_space c || (128 <=? nat_of_ascii c)%nat ||
  existsb (Ascii.eqb c)
    (list_ascii_of_string "_eEiInNfFtTyYaA").

(** [float(s)] for a string [s]: an optional sign, then digits with an
    optional point, or a point and digits.  The result is the decimal
    value itself, where Python gives the binary64 number nearest to
    it. *)
Definition str_to_float (s : string) : result Q :=
  let cs := list_ascii_of_string s in
  if existsb float_char_aside cs then Err NotModelled
  else
    let '(neg, body) :=
      match cs with
      | c :: cs' =>
          if Ascii.eqb c "+" then (false, cs')
          else if Ascii.eqb c "-" then (true, cs')
          else (false, cs)
      | [] => (false, cs)
      end in
    let '(ip, rest) := Re.span Re.is_digit body in
    let value (fp : list ascii) : Q :=
      let q := (digits_value (ip ++ fp) # Pos.pow 10 (Pos.of_nat (length fp)))%Q in
      let q := match fp with [] => inject_Z (digits_value ip) | _ => q end in
      if neg then (- q)%Q else q in
    match rest with
    | [] => match ip with [] => Err ValueError | _ => Ok (value []) end
    | c :: fp =>
        if Ascii.eqb c "." && forallb Re.is_digit fp
           && negb (match ip, fp with [], [] => true | _, _ => false end)
        then Ok (value fp)
        else Err ValueError
    end.

(** [parse_alias_row(row)], from the text of the cells of the row.  The
    cells hold ASCII text; the bound the interpreter puts on the number of
    digits [int] accepts is left aside. *)
Definition parse_alias_row (cells : list string)
    : result (gmap string value) :=
  match str_strip <$> cells with
  | [date; time; name; weight; height] =>
      let* date_match := require_match (Re.match_date date) in
      let* time_match := require_match (Re.match_time time) in
      let* weight_match := require_match (Re.match_weight weight) in
      let* height_match := require_match (Re.match_height height) in
      let month := Str.map Str.lower date_match.1 in
      let* day := Str.to_int date_match.2 in
      let* hour := Str.to_int time_match.1 in
      let* minute := Str.to_int time_match.2 in
      let* weight := str_to_float weight_match in
      let* height := Str.to_int height_match in
      Ok {[ "month" := VStr month; "day" := VInt day; "hour" := VInt hour;
            "minute" := VInt minute; "name" := VStr name;
            "weight" := VFloat weight; "height" := VInt height ]}
  | _ => Err ValueError
  end.

(** [get_aliases(profile_html)], from the cell texts of the rows selected:
    the list comprehension stops at the first row that raises. *)
Definition get_aliases (alias_rows : list (list string))
    : result (list (gmap string value)) :=
  mapM parse_alias_row alias_rows.

(** ** Scraping the files: [parse_profile], [parse_profiles] *)

Section parse_profiles.
(** What the [try] block of [parse_profile] computes from a file: the
    identifier, the points and the aliases, or the exception raised. *)
Context {P : Type} (scrape : P → result (value * value * list (gmap string value))).

Definition parse_profile (path : P) : result profile :=
  match scrape path with
  | Ok (id, zp_points, aliases) =>
      Ok {| profile_zwiftid := id; profile_zwiftpower_points := zp_points;
            aliases := aliases |}
  | Err _ => Err ValueError
  end.

(** A [ValueError] is reported on the error stream and the next file is
    taken. *)
Fixpoint parse_profiles (paths : list P) : gen profile :=
  match paths with
  | [] => gen_done
  | path :: paths' =>
      match parse_profile path with
      | Ok p => gen_yield p (parse_profiles paths')
      | Err ValueError => parse_profiles paths'
      | Err e => gen_raise e
      end
  end.

End parse_profiles.

(** * Vocabulary of the specification

    The notions the statements below are phrased in.  None of them is
    used by the embedding above. *)

(** ** Delta detection *)

(** The adjacent pairs of a most-recent-first sequence, in sequence
    order: each is (newer, older). *)
Definition adjacent_pairs (l : list (gmap string value))
    : list (gmap string value * gmap string value) :=
  zip l (tail l).

(** [m] holds, for the tracked fields, exactly the non-zero differences
    [minuend[f] - subtrahend[f]]. *)
Definition nonzero_differences (fields : list string)
    (minuend subtrahend m : gmap string value) : Prop :=
  ∀ f v, m !! f = Some v ↔
    f ∈ fields ∧ ∃ x y, minuend !! f = Some x ∧ subtrahend !! f = Some y ∧
                        Py.sub x y = Ok v ∧ Py.ne0 v = true.

(** What a pair contributes once its difference mapping is known: a
    Delta from the older to the newer record, or nothing when the
    mapping is empty. *)
Definition delta_of_pair
    (pm : (gmap string value * gmap string value) * gmap string value)
    : option delta :=
  let '((newer, older), m) := pm in
  if decide (m = ∅) then None
  else Some {| from := older; to := newer; deltas := m |}.

(** Every alias carries every tracked field, with a number in it. *)
Definition tracked_numeric (fields : list string)
    (l : list (gmap string value)) : Prop :=
  Forall (λ a, ∀ f, f ∈ fields → ∃ v, a !! f = Some v ∧ Py.is_num v) l.

(** Every alias carries every tracked field, with an integer in it. *)
Definition tracked_integer (fields : list string)
    (l : list (gmap string value)) : Prop :=
  Forall (λ a, ∀ f, f ∈ fields → ∃ z, a !! f = Some (VInt z)) l.

(** No alias holds a float in a tracked field: what is there is an
    integer, a string or null, or the field is missing. *)
Definition float_free (fields : list string)
    (l : list (gmap string value)) : Prop :=
  Forall (λ a, ∀ f q, f ∈ fields → a !! f ≠ Some (VFloat q)) l.

(** [m] holds, for the tracked fields, exactly the non-zero differences
    of the integers [minuend[f]] and [subtrahend[f]]. *)
Definition integer_differences (fields : list string)
    (minuend subtrahend m : gmap string value) : Prop :=
  ∀ f v, m !! f = Some v ↔
    f ∈ fields ∧ ∃ x y : Z, minuend !! f = Some (VInt x) ∧
                            subtrahend !! f = Some (VInt y) ∧
                            v = VInt (x - y) ∧ x - y ≠ 0.

(** The non-zero difference of one field, if any. *)
Definition field_difference (last alias : gmap string value) (f : string)
    : option value :=
  match last !! f, alias !! f with
  | Some x, Some y =>
      match Py.sub x y with
      | Ok d => if Py.ne0 d then Some d else None
      | Err _ => None
      end
  | _, _ => None
  end.

(** ** Height backfill *)

(** The alias has a [height] field. *)
Definition has_height (a : gmap string value) : Prop :=
  is_Some (a !! "height").

(** The alias has a [height] field that equals zero. *)
Definition height_zero (a : gmap string value) : Prop :=
  ∃ h, a !! "height" = Some h ∧ Py.eq0 h = true.

(** The alias with its height replaced by [h], nothing else touched. *)
Definition with_height (h : value) (a : gmap string value)
    : gmap string value :=
  <["height" := h]> a.

(** ** The suspicion filter *)

(** A mapping from field name to boolean predicate, as the [retain]
    argument of [filter_deltas]: the predicates never raise. *)
Definition as_retain (preds : gmap string (value → bool))
    : gmap string (value → result bool) :=
  (λ p v, Ok (p v)) <$> preds.

(** The item is kept: its field has no predicate, or the predicate holds
    of its value. *)
Definition retained (preds : gmap string (value → bool))
    (kv : string * value) : bool :=
  match preds !! kv.1 with
  | Some p => p kv.2
  | None => true
  end.

(** The Delta with its mapping cut down to the retained items. *)
Definition restrict_delta (preds : gmap string (value → bool)) (d : delta)
    : delta :=
  {| from := from d; to := to d;
     deltas := filter (λ kv, retained preds kv = true) (deltas d) |}.

(** ** The end-to-end scenario *)

Definition alias_at (month : string) (day hour minute height : Z)
    : gmap string value :=
  {[ "month" := VStr month; "day" := VInt day; "hour" := VInt hour;
     "minute" := VInt minute; "height" := VInt height ]}.

Definition scenario_aliases : list (gmap string value) :=
  [alias_at "jan" 15 0 28 187; alias_at "jan" 10 2 28 120;
   alias_at "jan" 10 0 28 120; alias_at "jan" 1 0 28 187].

(** ** Month normalisation *)

(** The alias has one of the twelve lowercase month tokens. *)
Definition known_month (a : gmap string value) : Prop :=
  ∃ s, a !! "month" = Some (VStr s) ∧ s ∈ month_names.

(** [b] is [a] with its month token replaced by the token's position,
    counted from one, in [month_names]. *)
Definition month_numbered (a b : gmap string value) : Prop :=
  ∃ s n, a !! "month" = Some (VStr s) ∧ 1 ≤ n ≤ 12 ∧
         month_names !! Z.to_nat (n - 1) = Some s ∧
         b = <["month" := VInt n]> a.

(** ** The anonymiser *)

(** The character of a decimal digit. *)
Definition digit_char (d : Z) : ascii := ascii_of_nat (48 + Z.to_nat d).

(** The two-character, zero-padded decimal text of [0 <= h <= 99]. *)
Definition two_digits (h : Z) : string :=
  String (digit_char (h / 10)) (String (digit_char (h mod 10)) EmptyString).

(** A text of ASCII characters: there a character of [string] is a
    character of the Python [str], and white space, digits and case are
    the ASCII ones. *)
Definition ascii_text (s : string) : Prop :=
  forallb (λ c, (nat_of_ascii c <? 128)%nat) (list_ascii_of_string s) = true.

(** ["am"] strictly before noon, ["pm"] from noon on. *)
Definition half_day (h : Z) : string := if h <? 12 then "am" else "pm".

(** A date whose characters 7 and 8 are the two digits of the hour [h]:
    [pre] is what comes before, seven characters long, as "Feb 18 " in
    "Feb 18 09:05". *)
Definition hour_at_7 (s pre : string) (h : Z) : Prop :=
  String.length pre = 7%nat ∧ 0 ≤ h ≤ 99 ∧
  ∃ rest, s = pre +:+ two_digits h +:+ rest.

(** The change [pc'] is [pc] with its date cut down to the half day. *)
Definition bucketed (pc pc' : change) : Prop :=
  height_change pc' = height_change pc ∧
  ∃ pre h, hour_at_7 (date pc) pre h ∧ date pc' = pre +:+ half_day h.


(** ** Sorting the reports *)

(** The report has a number for points and an integer for identifier. *)
Definition numeric_key (d : report) : Prop :=
  Py.is_num (zwiftpower_points d) ∧ ∃ z, zwiftid d = VInt z.

Definition points_of (d : report) : Q :=
  match Py.to_Q (zwiftpower_points d) with
  | Some q => q
  | None => 0%Q
  end.

Definition id_of (d : report) : Z :=
  match zwiftid d with
  | VInt z => z
  | _ => 0
  end.

(** The order of the pairs (points, zwiftid), strict and not. *)
Definition key_before (a b : report) : Prop :=
  (points_of a < points_of b)%Q ∨
  ((points_of a == points_of b)%Q ∧ id_of a < id_of b).

Definition key_not_after (a b : report) : Prop :=
  (points_of a < points_of b)%Q ∨
  ((points_of a == points_of b)%Q ∧ id_of a ≤ id_of b).

(** The integer under [f] in a mapping, 0 when there is none. *)
Definition int_at (f : string) (m : gmap string value) : Z :=
  match m !! f with
  | Some (VInt z) => z
  | _ => 0
  end.

(** The sum of the differences of field [f] over a list of Deltas. *)
Definition total_change (f : string) (ds : list delta) : Z :=
  foldr (λ d s, int_at f (deltas d) + s) 0 ds.

(** ** The CSV rows *)

(** The text of the profile URL, empty where [profile_url] raises. *)
Definition url_text (zid : value) : string :=
  match profile_url zid with
  | Ok u => u
  | Err _ => ""
  end.

(** The rows of one report: one per change, in order. *)
Definition rows_of_report (desc : report) : list csv_row :=
  (λ c, {| csv_profile_url := url_text (zwiftid desc);
           csv_zwiftpower_points := zwiftpower_points desc;
           csv_date := date c;
           csv_height_change := height_change c |})
    <$> suspicious_profile_changes desc.

(** ** Reading the profiles *)

(** The line holds something besides white space. *)
Definition not_blank (l : string) : Prop := str_strip l ≠ "".

(** ** Scraped aliases *)

(** An alias as [parse_alias_row] builds it: the seven fields, a month of
    three lowercase letters, and numbers that are not negative; day,
    hour and minute have at most two digits. *)
Definition scraped_alias (o : gmap string value) : Prop :=
  ∃ (m0 m1 m2 : ascii) (day hour minute height : Z) (name : string)
    (weight : Q),
    o = {[ "month" := VStr (String m0 (String m1 (String m2 EmptyString)));
           "day" := VInt day; "hour" := VInt hour; "minute" := VInt minute;
           "name" := VStr name; "weight" := VFloat weight;
           "height" := VInt height ]} ∧
    Re.is_az m0 = true ∧ Re.is_az m1 = true ∧ Re.is_az m2 = true ∧
    0 ≤ day ≤ 99 ∧ 0 ≤ hour ≤ 99 ∧ 0 ≤ minute ≤ 99 ∧ 0 ≤ height ∧
    (0 <= weight)%Q.

(** An alias with what the report reads: a month token, and integers for
    day, hour, minute and height. *)
Definition dated_alias (o : gmap string value) : Prop :=
  ∃ (month : string) (day hour minute height : Z),
    o !! "month" = Some (VStr month) ∧ o !! "day" = Some (VInt day) ∧
    o !! "hour" = Some (VInt hour) ∧ o !! "minute" = Some (VInt minute) ∧
    o !! "height" = Some (VInt height).

(** An alias reduced to its height. *)
Definition height_only (h : Z) : gmap string value := {[ "height" := VInt h ]}.

(** * Properties *)

(** ** The result monad *)

Lemma bind_Ok {A B} (r : result A) (f : A → result B) (a : A) :
  r = Ok a → bind r f = f a.
Proof. by intros ->. Qed.

Lemma bind_Ok_inv {A B} (r : result A) (f : A → result B) (b : B) :
  bind r f = Ok b → ∃ a, r = Ok a ∧ f a = Ok b.
Proof. destruct r as [a|e]; simpl; [eauto | discriminate]. Qed.

Lemma mapM_cons {A B} (f : A → result B) (x : A) (l : list A) :
  mapM f (x :: l) = let* y := f x in let* k := mapM f l in Ok (y :: k).
Proof. reflexivity. Qed.

Lemma getitem_Some (d : gmap string value) k v :
  d !! k = Some v → Py.getitem d k = Ok v.
Proof. unfold Py.getitem. by intros ->. Qed.

Lemma sub_num x y :
  Py.is_num x → Py.is_num y → ∃ d, Py.sub x y = Ok d ∧ Py.is_num d.
Proof. destruct x, y; simpl; intros Hx Hy; try done; eauto. Qed.

Lemma truthy_empty_iff (m : gmap string value) : Py.truthy m = false ↔ m = ∅.
Proof.
  unfold Py.truthy. rewrite negb_false_iff, Nat.eqb_eq.
  apply map_size_empty_iff.
Qed.

Lemma truthy_nonempty_iff (m : gmap string value) : Py.truthy m = true ↔ m ≠ ∅.
Proof.
  rewrite <- truthy_empty_iff. destruct (Py.truthy m); naive_solver.
Qed.

(** ** Delta detection *)

Section deltas.
Implicit Types (a last alias newer older m acc : gmap string value).
Implicit Types (fields : list string).

Lemma field_deltas_lookup fields : ∀ acc last alias,
  (∀ f, f ∈ fields → ∃ x y, last !! f = Some x ∧ alias !! f = Some y ∧
                            Py.is_num x ∧ Py.is_num y) →
  ∃ m, field_deltas acc last alias fields = Ok m ∧
       ∀ f, m !! f =
            if decide (f ∈ fields)
            then from_option Some (acc !! f) (field_difference last alias f)
            else acc !! f.
Proof.
  induction fields as [|f0 fs IH]; intros acc last alias Hnum.
  - exists acc. split; [done|]. intros f. case_decide as Hin; [|done].
    by apply elem_of_nil in Hin.
  - destruct (Hnum f0) as (x & y & Hx & Hy & Nx & Ny); [left|].
    destruct (sub_num x y Nx Ny) as (d & Hd & _).
    assert (Hfs : ∀ f, f ∈ fs → ∃ x y, last !! f = Some x ∧
              alias !! f = Some y ∧ Py.is_num x ∧ Py.is_num y)
      by (intros f Hf; apply Hnum; by right).
    simpl. rewrite (getitem_Some _ _ _ Hx), (getitem_Some _ _ _ Hy). simpl.
    rewrite Hd. simpl.
    assert (Hfd : field_difference last alias f0 =
                  if Py.ne0 d then Some d else None)
      by (unfold field_difference; by rewrite Hx, Hy, Hd).
    destruct (Py.ne0 d) eqn:Hne.
    + destruct (IH (<[f0:=d]> acc) last alias Hfs) as (m & Hm & Hl).
      exists m. split; [done|]. intros f. rewrite Hl.
      destruct (decide (f = f0)) as [->|Hf].
      * rewrite Hfd, lookup_insert_eq. simpl.
        rewrite (decide_True (P := f0 ∈ f0 :: fs)) by left.
        by case_decide.
      * rewrite lookup_insert_ne by done.
        destruct (decide (f ∈ fs)) as [Hin|Hin],
                 (decide (f ∈ f0 :: fs)) as [Hin'|Hin']; try done.
        -- destruct Hin'. by right.
        -- apply elem_of_cons in Hin' as [?|?]; done.
    + destruct (IH acc last alias Hfs) as (m & Hm & Hl).
      exists m. split; [done|]. intros f. rewrite Hl.
      destruct (decide (f = f0)) as [->|Hf].
      * rewrite Hfd. simpl.
        rewrite (decide_True (P := f0 ∈ f0 :: fs)) by left.
        by case_decide.
      * destruct (decide (f ∈ fs)) as [Hin|Hin],
                 (decide (f ∈ f0 :: fs)) as [Hin'|Hin']; try done.
        -- destruct Hin'. by right.
        -- apply elem_of_cons in Hin' as [?|?]; done.
Qed.

Lemma field_deltas_differences fields last alias :
  (∀ f, f ∈ fields → ∃ x y, last !! f = Some x ∧ alias !! f = Some y ∧
                            Py.is_num x ∧ Py.is_num y) →
  ∃ m, field_deltas ∅ last alias fields = Ok m ∧
       nonzero_differences fields last alias m.
Proof.
  intros Hnum.
  destruct (field_deltas_lookup fields ∅ last alias Hnum) as (m & Hm & Hl).
  exists m. split; [done|]. intros f v. rewrite Hl, lookup_empty.
  unfold field_difference. case_decide as Hin.
  - destruct (Hnum f Hin) as (x & y & Hx & Hy & Nx & Ny).
    destruct (sub_num x y Nx Ny) as (d & Hd & _).
    rewrite Hx, Hy, Hd. destruct (Py.ne0 d) eqn:Hne; simpl.
    + split.
      * intros [= <-]. split; [done|]. by exists x, y.
      * intros (_ & x' & y' & [= <-] & [= <-] & Hs & _). congruence.
    + split; [done|].
      intros (_ & x' & y' & [= <-] & [= <-] & Hs & Hn). congruence.
  - split; [done|]. by intros [? _].
Qed.

Lemma get_deltas_from_pairs fields : ∀ l last,
  tracked_numeric fields (last :: l) →
  ∃ ms,
    Forall2 (λ p m, nonzero_differences fields p.1 p.2 m)
            (adjacent_pairs (last :: l)) ms ∧
    get_deltas_from (Some last) l fields =
      Gen (omap delta_of_pair (zip (adjacent_pairs (last :: l)) ms)) None.
Proof.
  induction l as [|alias l IH]; intros last Hnum.
  - exists []. by split; [constructor|].
  - apply Forall_cons in Hnum as [Hlast Hnum].
    pose proof Hnum as Hnum'. apply Forall_cons in Hnum' as [Halias _].
    destruct (field_deltas_differences fields last alias) as (m & Hm & Hd).
    { intros f Hf. destruct (Hlast f Hf) as (x & ? & ?).
      destruct (Halias f Hf) as (y & ? & ?). by exists x, y. }
    destruct (IH alias Hnum) as (ms & Hms & Hgen).
    exists (m :: ms). split; [by constructor|].
    simpl. rewrite Hm, Hgen. unfold adjacent_pairs. simpl.
    destruct (Py.truthy m) eqn:Ht.
    + apply truthy_nonempty_iff in Ht. by rewrite decide_False.
    + apply truthy_empty_iff in Ht. by rewrite decide_True.
Qed.

Lemma get_deltas_from_length fields :
  ∀ l (prev : option (gmap string value)),
  (length (yielded (get_deltas_from prev l fields)) ≤
     length l - match prev with Some _ => 0 | None => 1 end)%nat.
Proof.
  induction l as [|alias l IH]; intros prev; [simpl; lia|].
  pose proof (IH (Some alias)) as IH'. simpl in IH'.
  destruct prev as [last|]; simpl.
  - destruct (field_deltas ∅ last alias fields); [|simpl; lia].
    destruct (Py.truthy _); simpl; lia.
  - lia.
Qed.

End deltas.


(** Between aliases without floats in the tracked fields, the mapping of
    the non-zero differences is the mapping of the non-zero integer
    differences. *)
Lemma nonzero_integer_differences (fields : list string)
    (a b m : gmap string value) :
  (∀ f q, f ∈ fields → a !! f ≠ Some (VFloat q)) →
  (∀ f q, f ∈ fields → b !! f ≠ Some (VFloat q)) →
  nonzero_differences fields a b m → integer_differences fields a b m.
Proof.
  intros Ha Hb Hm f v. rewrite (Hm f v). split.
  - intros (Hf & x & y & Hx & Hy & Hsub & Hne). split; [done|].
    destruct x as [|x|qx|sx]; try discriminate Hsub;
      [|exfalso; by apply (Ha f qx)].
    destruct y as [|y|qy|sy]; try discriminate Hsub;
      [|exfalso; by apply (Hb f qy)].
    cbn [Py.sub] in Hsub. injection Hsub as <-.
    exists x, y. split; [done|]. split; [done|]. split; [done|].
    unfold Py.ne0, Py.eq0 in Hne. apply negb_true_iff, Z.eqb_neq in Hne. done.
  - intros (Hf & x & y & Hx & Hy & -> & Hne). split; [done|].
    exists (VInt x), (VInt y). split; [done|]. split; [done|].
    split; [done|]. unfold Py.ne0, Py.eq0.
    by apply negb_true_iff, Z.eqb_neq.
Qed.

Lemma tracked_integer_numeric (fields : list string)
    (l : list (gmap string value)) :
  tracked_integer fields l → tracked_numeric fields l.
Proof.
  intros Hl. eapply Forall_impl; [exact Hl|].
  intros a Ha f Hf. destruct (Ha f Hf) as [z Hz]. by exists (VInt z).
Qed.

Lemma tracked_integer_float_free (fields : list string)
    (l : list (gmap string value)) :
  tracked_integer fields l → float_free fields l.
Proof.
  intros Hl. eapply Forall_impl; [exact Hl|].
  intros a Ha f q Hf Hq. destruct (Ha f Hf) as [z Hz]. congruence.
Qed.

Lemma adjacent_pairs_Forall (P : gmap string value → Prop)
    (l : list (gmap string value)) :
  Forall P l → Forall (λ p, P p.1 ∧ P p.2) (adjacent_pairs l).
Proof.
  unfold adjacent_pairs. induction 1 as [|a l Ha Hl IH]; [constructor|].
  destruct Hl as [|b l Hb Hl]; [constructor|].
  cbn [tail zip zip_with]. constructor; [by split | exact IH].
Qed.

Lemma Forall2_impl_Forall_l {A B} (P : A → Prop) (R R' : A → B → Prop)
    (l : list A) (k : list B) :
  Forall P l → Forall2 R l k → (∀ x y, P x → R x y → R' x y) →
  Forall2 R' l k.
Proof.
  intros HP HR Himpl. induction HR as [|x y l k Hxy _ IH]; [constructor|].
  apply Forall_cons in HP as [Hx HP]. constructor; [by apply Himpl | by apply IH].
Qed.

(** C1, as amended: on a sequence whose aliases carry an integer in every
    tracked field, [get_deltas] runs to completion and yields, in
    sequence order, one Delta per adjacent pair (newer, older) whose
    difference mapping is not empty; the Delta goes [from] the older
    record [to] the newer one, and its mapping holds, for the tracked
    fields, exactly the non-zero values of newer minus older. *)
Theorem get_deltas_adjacent_differences
    (aliases : list (gmap string value)) (fields : list string) :
  tracked_integer fields aliases →
  ∃ ms,
    Forall2 (λ p m, integer_differences fields p.1 p.2 m)
            (adjacent_pairs aliases) ms ∧
    get_deltas aliases fields =
      Gen (omap delta_of_pair (zip (adjacent_pairs aliases) ms)) None.
Proof.
  intros Hint.
  assert (Hold : ∃ ms,
            Forall2 (λ p m, nonzero_differences fields p.1 p.2 m)
                    (adjacent_pairs aliases) ms ∧
            get_deltas aliases fields =
              Gen (omap delta_of_pair (zip (adjacent_pairs aliases) ms)) None).
  { pose proof (tracked_integer_numeric _ _ Hint) as Hnum.
    destruct aliases as [|a l].
    - exists []. by split; [constructor|].
    - apply (get_deltas_from_pairs fields l a Hnum). }
  destruct Hold as (ms & Hms & Hrun). exists ms. split; [|exact Hrun].
  apply tracked_integer_float_free, adjacent_pairs_Forall in Hint.
  eapply Forall2_impl_Forall_l; [exact Hint | exact Hms |].
  intros p m [H1 H2]. by apply nonzero_integer_differences.
Qed.

Lemma get_deltas_adjacent_differences_witness :
  tracked_integer ["height"] [height_only 187; height_only 120] ∧
  ∃ ms,
    Forall2 (λ p m, integer_differences ["height"] p.1 p.2 m)
            (adjacent_pairs [height_only 187; height_only 120]) ms ∧
    get_deltas [height_only 187; height_only 120] ["height"] =
      Gen (omap delta_of_pair
             (zip (adjacent_pairs [height_only 187; height_only 120]) ms))
          None.
Proof.
  assert (H : tracked_integer ["height"] [height_only 187; height_only 120]).
  { apply Forall_cons_2; [|apply Forall_cons_2; [|apply Forall_nil_2]];
      intros f ->%list_elem_of_singleton;
      eexists; apply lookup_singleton_eq. }
  split; [exact H|].
  exact (get_deltas_adjacent_differences _ _ H).
Defined.

(** C1, as stated, fails: with the difference taken as older minus newer
    the Delta of the heights 187 (newer) and 120 (older) would carry -67,
    and [get_deltas] yields 67. *)
Lemma get_deltas_older_minus_newer_fails :
  ¬ ∃ ms,
    Forall2 (λ p m, integer_differences ["height"] p.2 p.1 m)
            (adjacent_pairs [height_only 187; height_only 120]) ms ∧
    get_deltas [height_only 187; height_only 120] ["height"] =
      Gen (omap delta_of_pair
             (zip (adjacent_pairs [height_only 187; height_only 120]) ms))
          None.
Proof.
  intros (ms & Hms & Hgen).
  unfold adjacent_pairs in *. cbn [tail zip zip_with] in Hms.
  apply Forall2_cons_inv_l in Hms as (m & ms' & Hm & Hnil & ->).
  apply Forall2_nil_inv_l in Hnil as ->. cbn [fst snd] in Hm.
  assert (Hl : m !! "height" = Some (VInt (120 - 187))).
  { apply Hm. split; [by left|].
    exists 120, 187.
    split; [apply lookup_singleton_eq|]. split; [apply lookup_singleton_eq|].
    split; [reflexivity | lia]. }
  assert (Hrun : get_deltas [height_only 187; height_only 120] ["height"] =
            Gen [Delta (height_only 120) (height_only 187) (height_only 67)]
                None) by (vm_compute; reflexivity).
  rewrite Hrun in Hgen.
  cbn [tail zip zip_with omap list_omap delta_of_pair] in Hgen.
  destruct (decide (m = ∅)) as [->|_].
  { rewrite lookup_empty in Hl. discriminate Hl. }
  assert (Hm' : height_only 67 = m) by congruence.
  rewrite <- Hm' in Hl. unfold height_only in Hl.
  rewrite lookup_singleton_eq in Hl. discriminate Hl.
Qed.

(** C9, as amended: [get_deltas] yields at most [n - 1] Deltas on a
    sequence of [n >= 1] aliases and none on the empty sequence, for any
    tracked fields and whether or not it ends with an exception. *)
Theorem get_deltas_count (aliases : list (gmap string value))
    (fields : list string) :
  Z.of_nat (length (yielded (get_deltas aliases fields)))
    ≤ Z.max 0 (Z.of_nat (length aliases) - 1).
Proof.
  pose proof (get_deltas_from_length fields aliases None) as H.
  cbv beta iota in H. unfold get_deltas. lia.
Qed.

(** C9, as stated, fails on the empty sequence: no Delta is yielded, and
    [n - 1] is [-1]. *)
Lemma get_deltas_count_empty :
  ¬ (Z.of_nat (length (yielded (get_deltas [] ["height"])))
       ≤ Z.of_nat (length (@nil (gmap string value))) - 1).
Proof. cbv [get_deltas get_deltas_from gen_done yielded length]. lia. Qed.

(** ** Height backfill *)

Section backfill.
Implicit Types (a x : gmap string value) (l zs pre rest : list (gmap string value)).

Lemma height_zero_is_zero a :
  height_zero a → height_is_zero a = Ok true.
Proof.
  intros (h & Hh & Hz). unfold height_is_zero.
  rewrite (getitem_Some _ _ _ Hh). cbn [bind]. by rewrite Hz.
Qed.

Lemma height_nonzero_is_zero a h :
  a !! "height" = Some h → Py.ne0 h = true → height_is_zero a = Ok false.
Proof.
  intros Hh Hz. unfold height_is_zero.
  rewrite (getitem_Some _ _ _ Hh). cbn [bind].
  apply negb_true_iff in Hz. by rewrite Hz.
Qed.

(** The scan for the anchor skips the zero heights ... *)
Lemma next_nonzero_height_skip zs rest :
  Forall height_zero zs →
  next_nonzero_height (zs ++ rest) = next_nonzero_height rest.
Proof.
  induction 1 as [|a zs (h & Hh & Hz) _ IH]; [done|].
  cbn [app next_nonzero_height]. rewrite (getitem_Some _ _ _ Hh). cbn [bind].
  unfold Py.ne0. by rewrite Hz.
Qed.

(** ... and stops at the first non-zero one. *)
Lemma next_nonzero_height_hit x h rest :
  x !! "height" = Some h → Py.ne0 h = true →
  next_nonzero_height (x :: rest) = Ok (Some h).
Proof.
  intros Hh Hz. cbn [next_nonzero_height].
  rewrite (getitem_Some _ _ _ Hh). cbn [bind]. by rewrite Hz.
Qed.

(** What the outcome of the scan says about the list scanned. *)
Lemma next_nonzero_height_None l :
  next_nonzero_height l = Ok None → Forall height_zero l.
Proof.
  induction l as [|a l IH]; [by constructor|].
  cbn [next_nonzero_height]. intros H.
  apply bind_Ok_inv in H as (h & Hh & H).
  unfold Py.getitem in Hh. destruct (a !! "height") as [h'|] eqn:Ha; [|done].
  injection Hh as ->. unfold Py.ne0 in H.
  destruct (Py.eq0 h) eqn:Hz; [|done]. cbn [negb] in H.
  constructor; [by exists h | by apply IH].
Qed.

Lemma next_nonzero_height_Some l h :
  next_nonzero_height l = Ok (Some h) →
  ∃ zs x rest, l = zs ++ x :: rest ∧ Forall height_zero zs ∧
               x !! "height" = Some h ∧ Py.ne0 h = true.
Proof.
  induction l as [|a l IH]; [done|].
  cbn [next_nonzero_height]. intros H.
  apply bind_Ok_inv in H as (h' & Hh & H).
  unfold Py.getitem in Hh. destruct (a !! "height") as [h''|] eqn:Ha; [|done].
  injection Hh as ->. destruct (Py.ne0 h') eqn:Hz.
  - injection H as ->. by exists [], a, l.
  - destruct (IH H) as (zs & x & rest & -> & Hzs & Hx & Hne).
    exists (a :: zs), x, rest. split; [done|]. split; [|done].
    constructor; [|done]. exists h'. split; [done|].
    by apply negb_false_iff in Hz.
Qed.

Lemma next_nonzero_height_total l :
  Forall has_height l → is_Ok (next_nonzero_height l).
Proof.
  induction 1 as [|a l [h Hh] _ IH]; [by eexists|].
  cbn [next_nonzero_height]. rewrite (getitem_Some _ _ _ Hh). cbn [bind].
  destruct (Py.ne0 h); [by eexists | done].
Qed.

Lemma takewhile_zero_run zs x h rest :
  Forall height_zero zs → x !! "height" = Some h → Py.ne0 h = true →
  takewhile height_is_zero (zs ++ x :: rest) = Ok zs.
Proof.
  intros Hzs Hh Hne. induction Hzs as [|a zs Ha _ IH].
  - cbn [app takewhile]. by rewrite (height_nonzero_is_zero _ _ Hh Hne).
  - cbn [app takewhile]. rewrite (height_zero_is_zero _ Ha). cbn [bind].
    by rewrite IH.
Qed.

Lemma dropwhile_zero_run zs x h rest :
  Forall height_zero zs → x !! "height" = Some h → Py.ne0 h = true →
  dropwhile height_is_zero (zs ++ x :: rest) = Ok (x :: rest).
Proof.
  intros Hzs Hh Hne. induction Hzs as [|a zs Ha _ IH].
  - cbn [app dropwhile]. by rewrite (height_nonzero_is_zero _ _ Hh Hne).
  - cbn [app dropwhile]. rewrite (height_zero_is_zero _ Ha). by cbn [bind].
Qed.

(** No anchor: the input comes back. *)
Lemma backfill_heights_all_zero l :
  Forall height_zero l → backfill_heights l = Ok l.
Proof.
  intros Hz. unfold backfill_heights.
  rewrite <- (app_nil_r (reverse l)), next_nonzero_height_skip
    by by apply Forall_reverse.
  done.
Qed.

(** An anchor [x] followed by a run of zero heights: the run is filled. *)
Lemma backfill_heights_run pre x h zs :
  x !! "height" = Some h → Py.ne0 h = true → Forall height_zero zs →
  backfill_heights (pre ++ x :: zs) = Ok (pre ++ x :: (with_height h <$> zs)).
Proof.
  intros Hh Hne Hzs. unfold backfill_heights.
  assert (Hrev : reverse (pre ++ x :: zs) = reverse zs ++ x :: reverse pre).
  { by rewrite reverse_app, reverse_cons, <- app_assoc. }
  apply Forall_reverse in Hzs. rewrite Hrev.
  rewrite next_nonzero_height_skip, (next_nonzero_height_hit _ _ _ Hh Hne) by done.
  cbn [bind].
  rewrite (takewhile_zero_run _ _ _ _ Hzs Hh Hne),
          (dropwhile_zero_run _ _ _ _ Hzs Hh Hne).
  cbn [bind]. f_equal.
  rewrite fmap_reverse, !reverse_involutive, reverse_cons, reverse_involutive.
  by rewrite <- app_assoc.
Qed.

(** Every sequence is of one of the two shapes, as far as backfill looks. *)
Lemma backfill_heights_shape l out :
  backfill_heights l = Ok out →
  (Forall height_zero l ∧ out = l) ∨
  ∃ pre x h zs, l = pre ++ x :: zs ∧ x !! "height" = Some h ∧
                Py.ne0 h = true ∧ Forall height_zero zs ∧
                out = pre ++ x :: (with_height h <$> zs).
Proof.
  intros Hb. pose proof Hb as Hb'. unfold backfill_heights in Hb'.
  apply bind_Ok_inv in Hb' as ([h|] & Hscan & _).
  - right. apply next_nonzero_height_Some in Hscan
      as (zs & x & rest & Hl & Hzs & Hh & Hne).
    apply (f_equal reverse) in Hl.
    rewrite reverse_involutive, reverse_app, reverse_cons, <- app_assoc in Hl.
    apply Forall_reverse in Hzs.
    exists (reverse rest), x, h, (reverse zs). repeat split; try done.
    rewrite Hl, (backfill_heights_run _ _ _ _ Hh Hne Hzs) in Hb. congruence.
  - left. apply next_nonzero_height_None, Forall_reverse in Hscan.
    rewrite reverse_involutive in Hscan. split; [done|].
    rewrite (backfill_heights_all_zero _ Hscan) in Hb. congruence.
Qed.

Lemma backfill_heights_total l :
  Forall has_height l → is_Ok (backfill_heights l).
Proof.
  intros Hl. apply Forall_reverse, next_nonzero_height_total in Hl as [r Hr].
  destruct r as [h|].
  - apply next_nonzero_height_Some in Hr as (zs & x & rest & Hl & Hzs & Hh & Hne).
    apply (f_equal reverse) in Hl.
    rewrite reverse_involutive, reverse_app, reverse_cons, <- app_assoc in Hl.
    apply Forall_reverse in Hzs. rewrite Hl.
    rewrite (backfill_heights_run _ _ _ _ Hh Hne Hzs). by eexists.
  - apply next_nonzero_height_None, Forall_reverse in Hr.
    rewrite reverse_involutive in Hr.
    rewrite (backfill_heights_all_zero _ Hr). by eexists.
Qed.

Lemma with_height_lookup h a :
  with_height h a !! "height" = Some h.
Proof. apply lookup_insert_eq. Qed.

Lemma with_height_other h a k :
  k ≠ "height" → with_height h a !! k = a !! k.
Proof. intros Hk. by apply lookup_insert_ne. Qed.

(** A second pass finds nothing left to fill. *)
Lemma backfill_heights_again l out :
  backfill_heights l = Ok out → backfill_heights out = Ok out.
Proof.
  intros [[Hz ->]|(pre & x & h & zs & -> & Hh & Hne & Hzs & ->)]
    %backfill_heights_shape.
  - by apply backfill_heights_all_zero.
  - destruct zs as [|z zs _] using rev_ind.
    + by apply (backfill_heights_run pre x h []).
    + rewrite fmap_app. cbn [fmap list_fmap].
      assert (E : pre ++ x :: (with_height h <$> zs) ++ [with_height h z] =
                  (pre ++ x :: (with_height h <$> zs)) ++ [with_height h z])
        by (by rewrite <- app_assoc).
      rewrite E.
      apply (backfill_heights_run _ (with_height h z) h []); try done.
      apply with_height_lookup.
Qed.

End backfill.

(** C3: on a sequence whose aliases all have a height, [backfill_heights]
    returns a sequence of the same length in which every alias keeps all
    its fields other than [height]; the empty sequence and a sequence
    with no non-zero height come back unchanged; otherwise the sequence
    reads [pre ++ x :: zs] with [x] the oldest alias of non-zero height
    [h] and [zs] the run of zero heights after it, and the result is
    [pre] and [x] unchanged followed by [zs] with each height set to
    [h]. *)
Theorem backfill_heights_spec (aliases : list (gmap string value)) :
  Forall has_height aliases →
  ∃ out,
    backfill_heights aliases = Ok out ∧
    length out = length aliases ∧
    Forall2 (λ a b, ∀ k, k ≠ "height" → b !! k = a !! k) aliases out ∧
    (aliases = [] → out = []) ∧
    (Forall height_zero aliases → out = aliases) ∧
    (∀ pre x h zs,
       aliases = pre ++ x :: zs →
       x !! "height" = Some h → Py.ne0 h = true → Forall height_zero zs →
       out = pre ++ x :: (with_height h <$> zs)) ∧
    (Forall height_zero aliases ∨
     ∃ pre x h zs,
       aliases = pre ++ x :: zs ∧
       x !! "height" = Some h ∧ Py.ne0 h = true ∧ Forall height_zero zs).
Proof.
  intros Hh. destruct (backfill_heights_total _ Hh) as [out Hout].
  exists out. split; [done|].
  assert (Hsame : Forall2 (λ a b : gmap string value,
                             ∀ k, k ≠ "height" → b !! k = a !! k) aliases out).
  { destruct (backfill_heights_shape _ _ Hout)
      as [[_ ->]|(pre & x & h & zs & -> & _ & _ & _ & ->)].
    - by apply Forall_Forall2_diag, Forall_true.
    - apply Forall2_app; [by apply Forall_Forall2_diag, Forall_true|].
      constructor; [done|]. apply Forall2_fmap_r, Forall_Forall2_diag.
      apply Forall_true. intros a k Hk. by apply with_height_other. }
  split; [symmetry; by eapply Forall2_length|]. split; [done|].
  split; [|split; [|split]].
  - intros ->. apply Forall2_nil_inv_l in Hsame. done.
  - intros Hz. rewrite (backfill_heights_all_zero _ Hz) in Hout. congruence.
  - intros pre x h zs -> Hx Hne Hzs.
    rewrite (backfill_heights_run _ _ _ _ Hx Hne Hzs) in Hout. congruence.
  - destruct (backfill_heights_shape _ _ Hout)
      as [[Hz _]|(pre & x & h & zs & -> & Hx & Hne & Hzs & _)]; [by left|].
    right. by exists pre, x, h, zs.
Qed.

Lemma backfill_heights_spec_witness :
  Forall has_height (height_only <$> [10; 9; 0; 10; 0; 0]) ∧
  backfill_heights (height_only <$> [10; 9; 0; 10; 0; 0]) =
    Ok (height_only <$> [10; 9; 0; 10; 10; 10]).
Proof.
  assert (H : Forall has_height (height_only <$> [10; 9; 0; 10; 0; 0])).
  { apply Forall_fmap, Forall_true. intros h. eexists.
    apply lookup_singleton_eq. }
  split; [exact H|].
  destruct (backfill_heights_spec _ H) as (out & -> & _ & _ & _ & _ & Hrun & _).
  f_equal.
  rewrite (Hrun (height_only <$> [10; 9; 0]) (height_only 10) (VInt 10)
                (height_only <$> [0; 0])).
  - cbn [fmap list_fmap app]. unfold with_height, height_only.
    by rewrite !insert_singleton_eq.
  - reflexivity.
  - apply lookup_singleton_eq.
  - reflexivity.
  - apply Forall_cons_2; [|apply Forall_cons_2; [|apply Forall_nil_2]];
      (exists (VInt 0); split; [apply lookup_singleton_eq | reflexivity]).
Defined.

(** C7: on a sequence whose aliases all have a height, a second
    application of [backfill_heights] returns what the first returned. *)
Theorem backfill_heights_idempotent (aliases : list (gmap string value)) :
  Forall has_height aliases →
  ∃ out, backfill_heights aliases = Ok out ∧ backfill_heights out = Ok out.
Proof.
  intros Hh. destruct (backfill_heights_total _ Hh) as [out Hout].
  exists out. split; [done|]. by apply (backfill_heights_again aliases).
Qed.

Lemma backfill_heights_idempotent_witness :
  Forall has_height (height_only <$> [10; 9; 0; 10; 0; 0]) ∧
  ∃ out, backfill_heights (height_only <$> [10; 9; 0; 10; 0; 0]) = Ok out ∧
         backfill_heights out = Ok out.
Proof.
  assert (H : Forall has_height (height_only <$> [10; 9; 0; 10; 0; 0])).
  { apply Forall_fmap, Forall_true. intros h. eexists.
    apply lookup_singleton_eq. }
  split; [exact H|]. exact (backfill_heights_idempotent _ H).
Defined.

(** ** The suspicion filter *)

Section filter.
Context (preds : gmap string (value → bool)).

Lemma retain_get_as_retain k v :
  retain_get (as_retain preds) k v = Ok (retained preds (k, v)).
Proof.
  unfold retain_get, as_retain, retained. rewrite lookup_fmap. cbn [fst snd].
  by destruct (preds !! k).
Qed.

Lemma filter_items_as_retain items :
  filter_items (as_retain preds) items =
    Ok (filter (λ kv, retained preds kv = true) items).
Proof.
  induction items as [|[k v] items IH]; [done|].
  cbn [filter_items]. rewrite retain_get_as_retain, IH. cbn [bind].
  rewrite filter_cons. by destruct (retained preds (k, v)).
Qed.

Lemma filter_deltas_list_as_retain ds :
  filter_deltas_list (as_retain preds) ds =
    Ok (filter (λ d, deltas d ≠ ∅) (restrict_delta preds <$> ds)).
Proof.
  induction ds as [|d ds IH]; [done|].
  cbn [filter_deltas_list]. rewrite filter_items_as_retain, IH. cbn [bind].
  rewrite <- map_filter_alt. cbn [fmap list_fmap]. rewrite filter_cons.
  fold (restrict_delta preds d). cbn [deltas].
  destruct (Py.truthy (deltas (restrict_delta preds d))) eqn:Ht.
  - apply truthy_nonempty_iff in Ht. by rewrite decide_True.
  - apply truthy_empty_iff in Ht. by rewrite decide_False by naive_solver.
Qed.

End filter.

(** C5: for a list of Deltas and predicates that return booleans,
    [filter_deltas] cuts the mapping of each Delta down to the items whose
    field has no predicate or a predicate that holds of the value, then
    drops the Deltas whose mapping is empty, keeping the others in their
    order.  Under the height policy of [get_suspicious_deltas] a height
    difference of 4 is dropped and differences of 5 and -5 are kept. *)
Theorem filter_deltas_spec :
  (∀ (preds : gmap string (value → bool)) (ds : list delta),
     filter_deltas (Gen ds None) (as_retain preds) =
       Ok (filter (λ d, deltas d ≠ ∅) (restrict_delta preds <$> ds)) ∧
     filter (λ d, deltas d ≠ ∅) (restrict_delta preds <$> ds)
       `sublist_of` (restrict_delta preds <$> ds) ∧
     ∀ d k v, deltas (restrict_delta preds d) !! k = Some v ↔
              deltas d !! k = Some v ∧
              match preds !! k with Some p => p v = true | None => True end) ∧
  get_suspicious_deltas [height_only 104; height_only 100] = Ok [] ∧
  get_suspicious_deltas [height_only 105; height_only 100] =
    Ok [Delta (height_only 100) (height_only 105) (height_only 5)] ∧
  get_suspicious_deltas [height_only 100; height_only 105] =
    Ok [Delta (height_only 105) (height_only 100) (height_only (-5))].
Proof.
  split; [|by repeat split; vm_compute].
  intros preds ds. split; [|split; [apply sublist_filter|]].
  - unfold filter_deltas. cbn [yielded raised].
    by rewrite filter_deltas_list_as_retain.
  - intros d k v. cbn [restrict_delta deltas].
    rewrite map_lookup_filter_Some. unfold retained. cbn [fst snd].
    destruct (preds !! k); split; intros [? ?]; by split.
Qed.

(** ** The end-to-end scenario *)

Lemma describe_scenario (zid points : value) :
  describe_suspicious_profile
    {| profile_zwiftid := zid; profile_zwiftpower_points := points;
       aliases := scenario_aliases |} =
  Ok (Some {| zwiftid := zid; zwiftpower_points := points;
              suspicious_profile_changes :=
                [ {| date := "Jan 15 00:28"; height_change := VInt 67 |};
                  {| date := "Jan 10 00:28"; height_change := VInt (-67) |} ] |}).
Proof. vm_compute. reflexivity. Qed.

(** C2, as amended: on the four aliases of the scenario the pipeline
    reports exactly two changes, in order: 67 dated "Jan 15 00:28" and
    -67 dated "Jan 10 00:28", the date of the newer record of the pair
    (Jan 10 00:28, Jan 1 00:28); the pair of equal heights contributes
    nothing. *)
Theorem scenario_report (zid points : value) :
  describe_suspicious_profile
    {| profile_zwiftid := zid; profile_zwiftpower_points := points;
       aliases := scenario_aliases |} =
  Ok (Some {| zwiftid := zid; zwiftpower_points := points;
              suspicious_profile_changes :=
                [ {| date := "Jan 15 00:28"; height_change := VInt 67 |};
                  {| date := "Jan 10 00:28"; height_change := VInt (-67) |} ] |}).
Proof. apply describe_scenario. Qed.

(** C2, as stated, fails: the second change is not dated
    "Jan 10 02:28". *)
Lemma scenario_report_not_as_stated :
  describe_suspicious_profile
    {| profile_zwiftid := VNone; profile_zwiftpower_points := VNone;
       aliases := scenario_aliases |} ≠
  Ok (Some {| zwiftid := VNone; zwiftpower_points := VNone;
              suspicious_profile_changes :=
                [ {| date := "Jan 15 00:28"; height_change := VInt 67 |};
                  {| date := "Jan 10 02:28"; height_change := VInt (-67) |} ] |}).
Proof. rewrite describe_scenario. intros H. discriminate H. Qed.

(** ** Month normalisation *)

Lemma months_table :
  months = list_to_map
    [("jan", 1); ("feb", 2); ("mar", 3); ("apr", 4); ("may", 5); ("jun", 6);
     ("jul", 7); ("aug", 8); ("sep", 9); ("oct", 10); ("nov", 11); ("dec", 12)].
Proof. reflexivity. Qed.

Lemma months_lookup_Some (s : string) (n : Z) :
  months !! s = Some n ↔
  1 ≤ n ≤ 12 ∧ month_names !! Z.to_nat (n - 1) = Some s.
Proof.
  rewrite months_table, <- elem_of_list_to_map
    by (apply (bool_decide_unpack _); vm_compute; exact I).
  rewrite !elem_of_cons, elem_of_nil. split.
  - intros H. repeat (destruct H as [[= -> ->]|H]; [by split; [lia|]|]).
    destruct H.
  - intros [Hn Hs].
    assert (Hc : n = 1 ∨ n = 2 ∨ n = 3 ∨ n = 4 ∨ n = 5 ∨ n = 6 ∨ n = 7 ∨
                 n = 8 ∨ n = 9 ∨ n = 10 ∨ n = 11 ∨ n = 12) by lia.
    repeat (destruct Hc as [->|Hc]; [injection Hs as <-; tauto|]).
    subst n. injection Hs as <-. tauto.
Qed.

Lemma months_lookup_None (s : string) :
  s ∉ month_names → months !! s = None.
Proof. intros Hs. rewrite months_table. by apply not_elem_of_list_to_map_1. Qed.

Lemma months_lookup_known (s : string) :
  s ∈ month_names → ∃ n, months !! s = Some n.
Proof.
  intros Hs. destruct (months !! s) as [n|] eqn:Hm; [by exists n|].
  rewrite months_table in Hm. apply not_elem_of_list_to_map_2 in Hm.
  by destruct Hm.
Qed.

Lemma numeric_months_known (l : list (gmap string value)) :
  Forall known_month l →
  ∃ out, numeric_months l = Ok out ∧ Forall2 month_numbered l out.
Proof.
  induction 1 as [|a l (s & Ha & Hs) _ (out & Hout & Hall)].
  - exists []. by split; [|constructor].
  - destruct (months_lookup_known s Hs) as [n Hn].
    exists (<["month" := VInt n]> a :: out). split.
    + unfold numeric_months in *. rewrite mapM_cons, Hout.
      rewrite (getitem_Some _ _ _ Ha). cbn [bind numeric_month].
      by rewrite Hn.
    + constructor; [|done]. apply months_lookup_Some in Hn as [? ?].
      by exists s, n.
Qed.

(** C6, as amended: [numeric_month] maps a month token to its position,
    from 1 to 12, in the table of the twelve lowercase abbreviations; the
    lookup is case-sensitive, and a value that is not one of the twelve
    tokens raises [KeyError]; [numeric_months] returns each alias with
    its month replaced by that number and every other field unchanged. *)
Theorem numeric_month_spec :
  (∀ (s : string) (n : Z),
     numeric_month (VStr s) = Ok (VInt n) ↔
     1 ≤ n ≤ 12 ∧ month_names !! Z.to_nat (n - 1) = Some s) ∧
  (∀ v : value,
     (∀ s, v = VStr s → s ∉ month_names) →
     numeric_month v = Err (KeyError v)) ∧
  (∀ l : list (gmap string value),
     Forall known_month l →
     ∃ out, numeric_months l = Ok out ∧
            Forall2 month_numbered l out ∧
            Forall2 (λ a b, ∀ k, k ≠ "month" → b !! k = a !! k) l out).
Proof.
  split; [|split].
  - intros s n. rewrite <- months_lookup_Some. cbn [numeric_month].
    destruct (months !! s) as [m|]; split; congruence.
  - intros v Hv. destruct v as [| |q|s]; try done.
    cbn [numeric_month]. by rewrite (months_lookup_None s (Hv s eq_refl)).
  - intros l Hl. destruct (numeric_months_known l Hl) as (out & Hout & Hall).
    exists out. split; [done|]. split; [done|].
    eapply Forall2_impl; [exact Hall|].
    intros a b (s & n & _ & _ & _ & ->) k Hk. by apply lookup_insert_ne.
Qed.

Lemma numeric_month_spec_witness :
  Forall known_month [alias_at "jan" 15 0 28 187] ∧
  ∃ out, numeric_months [alias_at "jan" 15 0 28 187] = Ok out ∧
         Forall2 month_numbered [alias_at "jan" 15 0 28 187] out.
Proof.
  assert (H : Forall known_month [alias_at "jan" 15 0 28 187]).
  { apply Forall_cons_2; [|apply Forall_nil_2].
    exists "jan". split; [vm_compute; reflexivity | by left]. }
  split; [exact H|].
  destruct numeric_month_spec as (_ & _ & Hl).
  destruct (Hl _ H) as (out & Hout & Hall & _). by exists out.
Defined.

(** C6, as stated, fails: the lookup is not case-insensitive, and the
    exception is a [KeyError]. *)
Lemma numeric_month_case_sensitive :
  numeric_month (VStr "jan") = Ok (VInt 1) ∧
  numeric_month (VStr "Jan") = Err (KeyError (VStr "Jan")) ∧
  numeric_month (VStr "Jan") ≠ Ok (VInt 1).
Proof. by repeat split. Qed.

(** ** The anonymiser *)

(** *** Rounding *)

Lemma round_half_even_near (q : Q) :
  (Qabs (inject_Z (round_half_even q) - q) <= 1 # 2)%Q.
Proof.
  destruct q as [n d]. unfold round_half_even. cbn [Qnum Qden].
  pose proof (Z.div_mod n (Z.pos d) ltac:(lia)) as Hdm.
  pose proof (Z.mod_pos_bound n (Z.pos d) ltac:(lia)) as Hb.
  set (f := n / Z.pos d) in *. set (r := n mod Z.pos d) in *.
  assert (Hgoal : ∀ k, 2 * Z.abs (k * Z.pos d - n) ≤ Z.pos d →
            (Qabs (inject_Z k - (n # d)) <= 1 # 2)%Q).
  { intros k Hk. unfold Qle, Qabs, Qminus, Qplus, Qopp, inject_Z.
    cbn [Qnum Qden]. rewrite Pos.mul_1_l. lia. }
  clearbody f r.
  assert (Hf : f * Z.pos d - n = - r) by lia.
  assert (Hf1 : (f + 1) * Z.pos d - n = Z.pos d - r) by lia.
  destruct (2 * r ?= Z.pos d) eqn:Hc.
  - apply Z.compare_eq in Hc.
    destruct (Z.even f); apply Hgoal; rewrite ?Hf, ?Hf1; lia.
  - rewrite Z.compare_lt_iff in Hc. apply Hgoal. rewrite Hf. lia.
  - rewrite Z.compare_gt_iff in Hc. apply Hgoal. rewrite Hf1. lia.
Qed.

(** [round_half_even] is within a half of its argument, and even when it
    is exactly a half away. *)
Lemma round_half_even_spec (n : Z) (d : positive) :
  let k := round_half_even (n # d) in
  2 * Z.abs (k * Z.pos d - n) ≤ Z.pos d ∧
  (2 * Z.abs (k * Z.pos d - n) = Z.pos d → Z.even k = true).
Proof.
  unfold round_half_even. cbn [Qnum Qden].
  pose proof (Z.div_mod n (Z.pos d) ltac:(lia)) as Hdm.
  pose proof (Z.mod_pos_bound n (Z.pos d) ltac:(lia)) as Hb.
  set (f := n / Z.pos d) in *. set (r := n mod Z.pos d) in *. clearbody f r.
  assert (Hf : f * Z.pos d - n = - r) by lia.
  assert (Hf1 : (f + 1) * Z.pos d - n = Z.pos d - r) by lia.
  destruct (2 * r ?= Z.pos d) eqn:Hc.
  - apply Z.compare_eq in Hc. destruct (Z.even f) eqn:He.
    + rewrite Hf. split; [lia | done].
    + rewrite Hf1. split; [lia|]. intros _.
      rewrite Z.add_1_r, Z.even_succ, <- Z.negb_even, He. done.
  - rewrite Z.compare_lt_iff in Hc. rewrite Hf. split; lia.
  - rewrite Z.compare_gt_iff in Hc. rewrite Hf1. split; lia.
Qed.

(** The points of the anonymised report: a multiple of 50 at distance at
    most 25 from the points [p] of the report. *)
Lemma round_to_50_near (p : Q) :
  (Qabs (inject_Z (round_half_even (p / inject_Z 50) * 50) - p) <= 25)%Q.
Proof.
  pose proof (round_half_even_near (p / inject_Z 50)) as H.
  set (k := round_half_even (p / inject_Z 50)) in *.
  assert (E : (inject_Z (k * 50) - p == 50 * (inject_Z k - p / inject_Z 50))%Q).
  { rewrite inject_Z_mult. change (inject_Z 50) with 50%Q. field. }
  rewrite E, Qabs_Qmult. change (Qabs 50) with 50%Q.
  apply Qle_trans with (50 * (1 # 2))%Q; [|discriminate].
  apply Qmult_le_l; [reflexivity | exact H].
Qed.

(** When the points are exactly 25 away from the multiple of 50 chosen,
    that multiple is an even one. *)
Lemma round_to_50_tie (p : Q) :
  (Qabs (inject_Z (round_half_even (p / inject_Z 50) * 50) - p) == 25)%Q →
  Z.even (round_half_even (p / inject_Z 50)) = true.
Proof.
  destruct p as [n d].
  change ((n # d) / inject_Z 50)%Q with ((n * 1) # (d * 50))%Q.
  destruct (round_half_even_spec (n * 1) (d * 50)) as [_ He]. cbv zeta in He.
  set (k := round_half_even _) in *. clearbody k.
  unfold Qeq, Qabs, Qminus, Qplus, Qopp, inject_Z. cbn [Qnum Qden].
  intros H. apply He. lia.
Qed.

(** *** Dates *)

(** Case analysis on an integer of a small range [0 .. n-1]: [tac] is run
    with the integer replaced by each of its values. *)
Tactic Notation "small_cases" constr(h) integer(n) tactic3(tac) :=
  let k := fresh "k" in
  let Hk := fresh "Hk" in
  let E := fresh "E" in
  assert (∃ k : nat, 0 ≤ Z.of_nat k ∧ h = Z.of_nat k) as (k & Hk & E)
    by (exists (Z.to_nat h); lia);
  subst h;
  do n (destruct k as [|k]; [clear Hk; tac|]);
  exfalso; lia.

Lemma to_int_two_digits (h : Z) :
  0 ≤ h ≤ 99 → Str.to_int (two_digits h) = Ok h.
Proof. intros Hh. small_cases h 100 (vm_compute; reflexivity). Qed.

Lemma format_02_two_digits (h : Z) :
  0 ≤ h ≤ 99 → Str.format_02 (VInt h) = Ok (two_digits h).
Proof. intros Hh. small_cases h 100 (vm_compute; reflexivity). Qed.



Lemma length_7 (s : string) :
  String.length s = 7%nat →
  ∃ c0 c1 c2 c3 c4 c5 c6,
    s = String c0 (String c1 (String c2 (String c3 (String c4
          (String c5 (String c6 EmptyString)))))).
Proof.
  intros H. do 7 (destruct s as [|? s]; [discriminate H|]).
  destruct s; [|discriminate H]. by do 7 eexists.
Qed.

Lemma length_3 (s : string) :
  String.length s = 3%nat →
  ∃ c0 c1 c2, s = String c0 (String c1 (String c2 EmptyString)).
Proof.
  intros H. do 3 (destruct s as [|? s]; [discriminate H|]).
  destruct s; [|discriminate H]. by do 3 eexists.
Qed.

(** A date with the hour at characters 7 and 8 is cut after character 6
    and gets the half day of that hour. *)
Lemma anonymise_change_bucket (pc : change) (pre : string) (h : Z) :
  hour_at_7 (date pc) pre h →
  anonymise_change pc =
    Ok {| date := pre +:+ half_day h; height_change := height_change pc |}.
Proof.
  intros (Hlen & Hh & rest & Hs). unfold anonymise_change. rewrite Hs.
  destruct (length_7 pre Hlen) as (c0 & c1 & c2 & c3 & c4 & c5 & c6 & ->).
  assert (Hhour : Str.slice 7 9
            (String c0 (String c1 (String c2 (String c3 (String c4
               (String c5 (String c6 EmptyString)))))) +:+
             two_digits h +:+ rest) = two_digits h) by (by destruct rest).
  rewrite Hhour, (to_int_two_digits h Hh). reflexivity.
Qed.


Lemma anonymise_change_Err (pc : change) (e : exn) :
  anonymise_change pc = Err e → e = ValueError.
Proof.
  unfold anonymise_change, Str.to_int.
  destruct (match Str.int_strip _ with [] => _ | _ => _ end); cbn [bind];
    congruence.
Qed.

Lemma mapM_Forall2 {A B} (f : A → result B) (R : A → B → Prop) (l : list A) :
  Forall (λ x, ∃ y, f x = Ok y ∧ R x y) l →
  ∃ out, mapM f l = Ok out ∧ Forall2 R l out.
Proof.
  induction 1 as [|x l (y & Hy & HR) _ (out & Hout & Hall)].
  - exists []. by split; [|constructor].
  - exists (y :: out). split; [|by constructor].
    by rewrite mapM_cons, Hy, Hout.
Qed.

Lemma mapM_Err {A B} (f : A → result B) (P : exn → Prop) (l : list A) (x : A) :
  (∀ y e, f y = Err e → P e) → x ∈ l → is_Err (f x) →
  ∃ e, mapM f l = Err e ∧ P e.
Proof.
  intros HP Hx [e He]. induction l as [|y l IH]; [by apply elem_of_nil in Hx|].
  rewrite mapM_cons. destruct (f y) as [b|e'] eqn:Hy.
  - apply elem_of_cons in Hx as [->|Hx]; [congruence|].
    destruct (IH Hx) as (e2 & He2 & HPe). exists e2. by rewrite He2.
  - exists e'. split; [done|]. by apply (HP y).
Qed.

Lemma anonymise_failing_change (desc : report) (pc : change) :
  pc ∈ suspicious_profile_changes desc → is_Err (anonymise_change pc) →
  is_Err (anonymise desc) ∧
  (Py.is_num (zwiftpower_points desc) → anonymise desc = Err ValueError).
Proof.
  intros Hin Herr.
  destruct (mapM_Err anonymise_change (λ e, e = ValueError) _ pc
              anonymise_change_Err Hin Herr) as (e & He & ->).
  unfold anonymise, Py.truediv_int.
  destruct (zwiftpower_points desc) as [|z|q|s]; cbn [Py.to_Q bind Py.is_num];
    rewrite ?He; cbn [bind]; (split; [by eexists | done]).
Qed.


Lemma format_plain_two_digits (d : Z) :
  0 ≤ d ≤ 99 → 10 ≤ d → Str.format_plain (VInt d) = Ok (two_digits d).
Proof.
  intros Hd. small_cases d 100
    (intros H10; first [exfalso; lia | vm_compute; reflexivity]).
Qed.

(** The date of an alias with a three-letter month, a two-digit day and
    an hour of at most two digits has the hour at characters 7 and 8. *)
Lemma format_date_hour_at_7 (o : gmap string value) (month : string)
    (day hour minute : Z) :
  o !! "month" = Some (VStr month) → String.length month = 3%nat →
  o !! "day" = Some (VInt day) → 10 ≤ day ≤ 99 →
  o !! "hour" = Some (VInt hour) → 0 ≤ hour ≤ 99 →
  o !! "minute" = Some (VInt minute) →
  ∃ s, format_date o = Ok s ∧
       hour_at_7 s (Str.capitalize month +:+ " " +:+ two_digits day +:+ " ")
                 hour.
Proof.
  intros Hm Hlen Hd Hday Hh Hhour Hmin. unfold format_date.
  destruct (length_3 month Hlen) as (c0 & c1 & c2 & ->).
  rewrite (getitem_Some _ _ _ Hm), (getitem_Some _ _ _ Hd),
          (getitem_Some _ _ _ Hh), (getitem_Some _ _ _ Hmin).
  cbn [bind Str.capitalize_value].
  rewrite (format_plain_two_digits day), (format_02_two_digits hour Hhour)
    by lia.
  cbn [bind Str.format_02]. eexists. split; [reflexivity|].
  split; [reflexivity|]. split; [done|]. eexists. reflexivity.
Qed.

(** C4, as amended: for a report whose points are a number below
    [2 ^ 53] in absolute value and whose change dates are ASCII text with
    the two digits of the hour at characters 7 and 8 (as
    "<Mon> <DD> <HH>:<MM>" with a two-digit day has), the anonymiser
    returns a report with a null identifier, with points a multiple of 50
    at distance at most 25 from the points given, the even multiple when
    the distance is exactly 25, and with each change keeping its
    height_change and getting as date its first seven characters
    followed by "am" when the hour is below 12 and by "pm" otherwise.
    The dates [format_date] gives to aliases with a three-letter ASCII
    month and a two-digit day are of that kind.  "Feb 18 09:05" becomes
    "Feb 18 am", "Feb 18 13:05" becomes "Feb 18 pm", 137 becomes 150, 112
    becomes 100, and the ties 125 and 175 become 100 and 200. *)
Theorem anonymise_spec :
  (∀ (desc : report) (p : Q),
     Py.to_Q (zwiftpower_points desc) = Some p →
     (Qabs p < inject_Z (2 ^ 53))%Q →
     Forall (λ pc, ascii_text (date pc) ∧ ∃ pre h, hour_at_7 (date pc) pre h)
            (suspicious_profile_changes desc) →
     ∃ (k : Z) (changes : list change),
       anonymise desc =
         Ok {| zwiftid := VNone; zwiftpower_points := VInt (k * 50);
               suspicious_profile_changes := changes |} ∧
       (Qabs (inject_Z (k * 50) - p) <= 25)%Q ∧
       ((Qabs (inject_Z (k * 50) - p) == 25)%Q → Z.even k = true) ∧
       Forall2 bucketed (suspicious_profile_changes desc) changes) ∧
  (∀ (o : gmap string value) (month : string) (day hour minute : Z),
     o !! "month" = Some (VStr month) → String.length month = 3%nat →
     ascii_text month →
     o !! "day" = Some (VInt day) → 10 ≤ day ≤ 99 →
     o !! "hour" = Some (VInt hour) → 0 ≤ hour ≤ 99 →
     o !! "minute" = Some (VInt minute) →
     ∃ s, format_date o = Ok s ∧
          hour_at_7 s (Str.capitalize month +:+ " " +:+ two_digits day +:+ " ")
                    hour) ∧
  anonymise
    {| zwiftid := VInt 1; zwiftpower_points := VInt 137;
       suspicious_profile_changes :=
         [ {| date := "Feb 18 09:05"; height_change := VInt 7 |};
           {| date := "Feb 18 13:05"; height_change := VInt (-7) |} ] |} =
    Ok {| zwiftid := VNone; zwiftpower_points := VInt 150;
          suspicious_profile_changes :=
            [ {| date := "Feb 18 am"; height_change := VInt 7 |};
              {| date := "Feb 18 pm"; height_change := VInt (-7) |} ] |} ∧
  anonymise
    {| zwiftid := VInt 2; zwiftpower_points := VFloat 112;
       suspicious_profile_changes := [] |} =
    Ok {| zwiftid := VNone; zwiftpower_points := VInt 100;
          suspicious_profile_changes := [] |} ∧
  anonymise
    {| zwiftid := VInt 3; zwiftpower_points := VInt 125;
       suspicious_profile_changes := [] |} =
    Ok {| zwiftid := VNone; zwiftpower_points := VInt 100;
          suspicious_profile_changes := [] |} ∧
  anonymise
    {| zwiftid := VInt 4; zwiftpower_points := VFloat 175;
       suspicious_profile_changes := [] |} =
    Ok {| zwiftid := VNone; zwiftpower_points := VInt 200;
          suspicious_profile_changes := [] |}.
Proof.
  split; [|split; [|repeat split; vm_compute; reflexivity]].
  - intros desc p Hp _ Hdates.
    destruct (mapM_Forall2 anonymise_change bucketed
                (suspicious_profile_changes desc)) as (changes & Hch & Hall).
    { eapply Forall_impl; [exact Hdates|]. intros pc (_ & pre & h & Hd).
      eexists. split; [by apply (anonymise_change_bucket pc pre h)|].
      split; [done|]. by exists pre, h. }
    exists (round_half_even (p / inject_Z 50)), changes.
    split; [|split; [apply round_to_50_near|split;
      [apply round_to_50_tie | done]]].
    unfold anonymise, Py.truediv_int. rewrite Hp. cbn [bind]. by rewrite Hch.
  - intros o month day hour minute Hm Hlen _. revert Hm Hlen.
    apply format_date_hour_at_7.
Qed.

Lemma anonymise_spec_witness :
  ∃ (k : Z) (changes : list change),
    anonymise
      {| zwiftid := VInt 1; zwiftpower_points := VInt 137;
         suspicious_profile_changes :=
           [ {| date := "Feb 18 09:05"; height_change := VInt 7 |} ] |} =
      Ok {| zwiftid := VNone; zwiftpower_points := VInt (k * 50);
            suspicious_profile_changes := changes |} ∧
    (Qabs (inject_Z (k * 50) - 137) <= 25)%Q.
Proof.
  destruct anonymise_spec as [Hgen _].
  destruct (Hgen
    {| zwiftid := VInt 1; zwiftpower_points := VInt 137;
       suspicious_profile_changes :=
         [ {| date := "Feb 18 09:05"; height_change := VInt 7 |} ] |}
    (inject_Z 137)) as (k & changes & Hrun & Hnear & _).
  - reflexivity.
  - reflexivity.
  - apply Forall_cons_2; [|apply Forall_nil_2].
    split; [reflexivity|].
    exists "Feb 18 ", 9. split; [reflexivity|]. split; [lia|].
    exists ":05". reflexivity.
  - exists k, changes. by split.
Defined.

(** C4, as stated, fails: the half day does not follow the day
    immediately, the space after the day is kept. *)
Lemma anonymise_keeps_space :
  anonymise
    {| zwiftid := VInt 1; zwiftpower_points := VInt 137;
       suspicious_profile_changes :=
         [ {| date := "Feb 18 09:05"; height_change := VInt 7 |} ] |} ≠
    Ok {| zwiftid := VNone; zwiftpower_points := VInt 150;
          suspicious_profile_changes :=
            [ {| date := "Feb 18am"; height_change := VInt 7 |} ] |}.
Proof. vm_compute. intros H. discriminate H. Qed.



(** ** Sorting the reports *)

Section sorting.
Implicit Types (a b c x y : report) (l acc out : list report).

Lemma key_before_not_after a b : key_before a b → key_not_after a b.
Proof. intros [H|[H1 H2]]; [by left | right; split; [done | lia]]. Qed.

Lemma key_not_after_total a b : ¬ key_before a b → key_not_after b a.
Proof.
  intros Hn. destruct (Q_dec (points_of a) (points_of b)) as [[Hlt|Hgt]|Heq].
  - destruct Hn. by left.
  - by left.
  - right. split; [by symmetry|].
    destruct (Z_lt_le_dec (id_of a) (id_of b)) as [Hi|Hi]; [|done].
    destruct Hn. by right.
Qed.

Lemma key_not_after_trans a b c :
  key_not_after a b → key_not_after b c → key_not_after a c.
Proof.
  intros [H1|[E1 I1]] [H2|[E2 I2]].
  - left. by apply Qlt_trans with (points_of b).
  - left. by rewrite <- E2.
  - left. by rewrite E1.
  - right. split; [by rewrite E1 | lia].
Qed.

Lemma Qeq_bool_inject_Z (x y : Z) :
  Qeq_bool (inject_Z x) (inject_Z y) = (x =? y).
Proof.
  apply eq_true_iff_eq. rewrite Qeq_bool_iff, inject_Z_injective, Z.eqb_eq.
  done.
Qed.

(** On numeric keys the comparison of [sorted] never raises, and decides
    [key_before]. *)
Lemma key_lt_numeric a b :
  numeric_key a → numeric_key b →
  ∃ r : bool, key_lt (sort_key a) (sort_key b) = Ok r ∧
              (r = true ↔ key_before a b).
Proof.
  intros [Na [ia Ia]] [Nb [ib Ib]].
  unfold key_lt, sort_key, key_before, points_of, id_of. cbn [fst snd].
  rewrite Ia, Ib.
  assert (Hp : ∃ qa qb, Py.to_Q (zwiftpower_points a) = Some qa ∧
                        Py.to_Q (zwiftpower_points b) = Some qb ∧
                        Py.eqb (zwiftpower_points a) (zwiftpower_points b)
                          = Qeq_bool qa qb ∧
                        Py.ltb (zwiftpower_points a) (zwiftpower_points b)
                          = Ok (negb (Qle_bool qb qa))).
  { destruct (zwiftpower_points a), (zwiftpower_points b); try done;
      by do 2 eexists. }
  destruct Hp as (qa & qb & -> & -> & -> & ->).
  cbn [Py.eqb Py.ltb Py.to_Q]. rewrite Qeq_bool_inject_Z.
  destruct (Qeq_bool qa qb) eqn:Hq; cbn [negb].
  - apply Qeq_bool_iff in Hq. destruct (ia =? ib) eqn:Hi; cbn [negb].
    + apply Z.eqb_eq in Hi as ->. exists false. split; [done|].
      split; [done|]. intros [H|[_ H]]; [|lia].
      rewrite Hq in H. by apply Qlt_irrefl in H.
    + apply Z.eqb_neq in Hi. eexists. split; [done|].
      rewrite negb_true_iff, <- not_true_iff_false, Qle_bool_iff.
      rewrite <- Zle_Qle. split.
      * intros H. right. split; [done | lia].
      * intros [H|[_ H]]; [|lia]. rewrite Hq in H. by apply Qlt_irrefl in H.
  - eexists. split; [done|].
    rewrite negb_true_iff, <- not_true_iff_false, Qle_bool_iff.
    split.
    + intros H. left. by apply Qnot_le_lt.
    + intros [H|[H _]]; [by apply Qlt_not_le|].
      apply Qeq_bool_iff in H. congruence.
Qed.

Lemma insort_sorted x l :
  numeric_key x → Forall numeric_key l → StronglySorted key_not_after l →
  ∃ out, insort x l = Ok out ∧ out ≡ₚ x :: l ∧
         StronglySorted key_not_after out.
Proof.
  intros Nx Nl Hs. induction l as [|y l IH].
  - exists [x]. repeat split; [done|]. by repeat constructor.
  - apply Forall_cons in Nl as [Ny Nl].
    apply StronglySorted_inv in Hs as [Hs Hy].
    destruct (key_lt_numeric x y Nx Ny) as (r & Hr & Hiff).
    cbn [insort]. rewrite Hr. cbn [bind]. destruct r.
    + exists (x :: y :: l). repeat split; [done|].
      assert (Hxy : key_not_after x y)
        by (apply key_before_not_after; by apply Hiff).
      constructor; [by constructor|]. constructor; [done|].
      eapply Forall_impl; [exact Hy|]. intros z Hz.
      by apply key_not_after_trans with y.
    + destruct (IH Nl Hs) as (out & -> & Hperm & Hout). cbn [bind].
      exists (y :: out). split; [done|]. split.
      * rewrite Hperm. apply Permutation_swap.
      * constructor; [done|]. rewrite Hperm. constructor; [|done].
        apply key_not_after_total. intros H. apply Hiff in H. done.
Qed.

Lemma sorted_from acc l :
  Forall numeric_key acc → Forall numeric_key l →
  StronglySorted key_not_after acc →
  ∃ out, foldl (λ r x, let* s := r in insort x s) (Ok acc) l = Ok out ∧
         out ≡ₚ acc ++ l ∧ StronglySorted key_not_after out.
Proof.
  revert acc. induction l as [|x l IH]; intros acc Nacc Nl Hs.
  - exists acc. by rewrite app_nil_r.
  - apply Forall_cons in Nl as [Nx Nl].
    destruct (insort_sorted x acc Nx Nacc Hs) as (acc' & Hacc' & Hperm & Hs').
    destruct (IH acc') as (out & Hout & Hperm' & Hsorted); [|done..|].
    { rewrite Hperm. by constructor. }
    exists out. cbn [foldl bind]. rewrite Hacc'. split; [done|]. split; [|done].
    rewrite Hperm', Hperm. apply Permutation_middle.
Qed.

Lemma key_not_after_strict l :
  Forall numeric_key l → NoDup (zwiftid <$> l) →
  StronglySorted key_not_after l → StronglySorted key_before l.
Proof.
  intros Nl Hnd Hs. induction Hs as [|x l Hs IH Hx]; [constructor|].
  apply Forall_cons in Nl as [[_ [ix Ix]] Nl].
  cbn [fmap list_fmap] in Hnd. apply NoDup_cons in Hnd as [Hnin Hnd].
  constructor; [by apply IH|].
  apply Forall_forall. intros z Hz.
  rewrite Forall_forall in Hx, Nl.
  destruct (Hx z Hz) as [H|[E H]]; [by left|]. right. split; [done|].
  destruct (Nl z Hz) as [_ [iz Iz]].
  assert (id_of x ≠ id_of z); [|lia].
  unfold id_of. rewrite Ix, Iz. intros ->.
  apply Hnin. rewrite Ix, <- Iz. apply list_elem_of_fmap. by exists z.
Qed.

(** With [--sort], [main] renders the sorted reports. *)
Lemma main_descs_sorted (profiles : list profile) :
  raised (descriptions profiles) = None →
  Forall numeric_key (yielded (descriptions profiles)) →
  ∃ out, main_descs true profiles = Gen out None ∧
         out ≡ₚ yielded (descriptions profiles) ∧
         StronglySorted key_not_after out.
Proof.
  intros Hdone Hn.
  destruct (sorted_from [] (yielded (descriptions profiles)))
    as (out & Hout & Hperm & Hs); [constructor | done | constructor |].
  exists out. split; [|done].
  unfold main_descs, py_list. rewrite Hdone. cbn [bind].
  fold (sorted (yielded (descriptions profiles))) in Hout. by rewrite Hout.
Qed.

End sorting.

(** C8, as amended: for reports whose points are numbers and whose
    identifiers are integers, [sorted] returns the reports rearranged in
    ascending order of the pair (points, zwiftid): ascending points,
    reports of equal points by ascending identifier; the order is strict
    when no two reports share an identifier. *)
Theorem sorted_ascending (descs : list report) :
  Forall numeric_key descs →
  ∃ out,
    sorted descs = Ok out ∧
    out ≡ₚ descs ∧
    StronglySorted key_not_after out ∧
    (NoDup (zwiftid <$> descs) → StronglySorted key_before out).
Proof.
  intros Hn.
  destruct (sorted_from [] descs) as (out & Hout & Hperm & Hs);
    [constructor | done | constructor |].
  exists out. split; [done|]. split; [done|]. split; [done|].
  intros Hnd. apply key_not_after_strict; [by rewrite Hperm| |done].
  by rewrite Hperm.
Qed.

Lemma sorted_ascending_witness :
  Forall numeric_key
    [ {| zwiftid := VInt 3; zwiftpower_points := VFloat 5;
         suspicious_profile_changes := [] |};
      {| zwiftid := VInt 2; zwiftpower_points := VFloat 5;
         suspicious_profile_changes := [] |};
      {| zwiftid := VInt 9; zwiftpower_points := VInt 1;
         suspicious_profile_changes := [] |} ] ∧
  ∃ out,
    sorted
      [ {| zwiftid := VInt 3; zwiftpower_points := VFloat 5;
           suspicious_profile_changes := [] |};
        {| zwiftid := VInt 2; zwiftpower_points := VFloat 5;
           suspicious_profile_changes := [] |};
        {| zwiftid := VInt 9; zwiftpower_points := VInt 1;
           suspicious_profile_changes := [] |} ] = Ok out ∧
    StronglySorted key_not_after out.
Proof.
  match goal with |- ?H ∧ _ => assert (Hn : H) end.
  { repeat (apply Forall_cons_2; [split; [exact I | by eexists]|]).
    apply Forall_nil_2. }
  split; [exact Hn|].
  destruct (sorted_ascending _ Hn) as (out & Hout & _ & Hs & _).
  by exists out.
Defined.

(** C8, as stated, fails: when one report has null points and another a
    number, the comparison raises and nothing is rendered; and two
    reports with the same points and identifier stay in input order, not
    in strictly ascending order. *)
Lemma sorted_not_always_ascending :
  (¬ ∃ out,
       sorted
         [ {| zwiftid := VInt 1; zwiftpower_points := VNone;
              suspicious_profile_changes := [] |};
           {| zwiftid := VInt 2; zwiftpower_points := VFloat 10;
              suspicious_profile_changes := [] |} ] = Ok out) ∧
  (∃ out,
     sorted
       [ {| zwiftid := VInt 1; zwiftpower_points := VFloat 10;
            suspicious_profile_changes := [] |};
         {| zwiftid := VInt 1; zwiftpower_points := VFloat 10;
            suspicious_profile_changes := [] |} ] = Ok out ∧
     ¬ StronglySorted key_before out).
Proof.
  split.
  - intros [out H]. vm_compute in H. discriminate H.
  - eexists. split; [vm_compute; reflexivity|].
    intros H. apply StronglySorted_inv in H as [_ H].
    apply Forall_cons in H as [[H|[_ H]] _].
    + vm_compute in H. discriminate H.
    + vm_compute in H. discriminate H.
Qed.

(** * Further properties of the code *)

(** ** Delta detection, on any input *)

Section deltas_more.
Implicit Types (a b last alias m acc : gmap string value).
Implicit Types (fields : list string) (l older : list (gmap string value)).

Lemma gen_then_done_l {A} (g : gen A) : gen_then gen_done g = g.
Proof. by destruct g. Qed.

Lemma gen_then_yield {A} (x : A) (g1 g2 : gen A) :
  gen_then (gen_yield x g1) g2 = gen_yield x (gen_then g1 g2).
Proof. by destruct g1 as [ys [e|]]. Qed.

(** What a successful run of the comprehension says about the fields. *)
Lemma field_deltas_inv fields : ∀ acc last alias m,
  field_deltas acc last alias fields = Ok m →
  (∀ f, f ∈ fields → ∃ x y d, last !! f = Some x ∧ alias !! f = Some y ∧
                              Py.sub x y = Ok d) ∧
  (∀ f, m !! f =
        if decide (f ∈ fields)
        then from_option Some (acc !! f) (field_difference last alias f)
        else acc !! f).
Proof.
  induction fields as [|f0 fs IH]; intros acc last alias m Hm.
  - injection Hm as <-. split; [by intros f ?%elem_of_nil|].
    intros f. case_decide as Hin; [by apply elem_of_nil in Hin | done].
  - cbn [field_deltas] in Hm.
    apply bind_Ok_inv in Hm as (x & Hx & Hm).
    apply bind_Ok_inv in Hm as (y & Hy & Hm).
    apply bind_Ok_inv in Hm as (d & Hd & Hm).
    unfold Py.getitem in Hx, Hy.
    destruct (last !! f0) as [x'|] eqn:Hlx; [|done]. injection Hx as ->.
    destruct (alias !! f0) as [y'|] eqn:Hly; [|done]. injection Hy as ->.
    assert (Hfd : field_difference last alias f0 =
                  if Py.ne0 d then Some d else None)
      by (unfold field_difference; by rewrite Hlx, Hly, Hd).
    destruct (Py.ne0 d) eqn:Hne; apply IH in Hm as [Hall Hl].
    + split.
      { intros f [->|Hf]%elem_of_cons; [by exists x, y, d | by apply Hall]. }
      intros f. rewrite Hl. destruct (decide (f = f0)) as [->|Hf].
      * rewrite Hfd, lookup_insert_eq. cbn [from_option].
        rewrite (decide_True (P := f0 ∈ f0 :: fs)) by left.
        by case_decide.
      * rewrite lookup_insert_ne by done.
        destruct (decide (f ∈ fs)) as [Hin|Hin],
                 (decide (f ∈ f0 :: fs)) as [Hin'|Hin']; try done.
        -- destruct Hin'. by right.
        -- apply elem_of_cons in Hin' as [?|?]; done.
    + split.
      { intros f [->|Hf]%elem_of_cons; [by exists x, y, d | by apply Hall]. }
      intros f. rewrite Hl. destruct (decide (f = f0)) as [->|Hf].
      * rewrite Hfd. cbn [from_option].
        rewrite (decide_True (P := f0 ∈ f0 :: fs)) by left.
        by case_decide.
      * destruct (decide (f ∈ fs)) as [Hin|Hin],
                 (decide (f ∈ f0 :: fs)) as [Hin'|Hin']; try done.
        -- destruct Hin'. by right.
        -- apply elem_of_cons in Hin' as [?|?]; done.
Qed.

Lemma field_deltas_Ok_differences fields last alias m :
  field_deltas ∅ last alias fields = Ok m →
  nonzero_differences fields last alias m.
Proof.
  intros [Hall Hl]%field_deltas_inv f v. rewrite Hl, lookup_empty.
  unfold field_difference. case_decide as Hin.
  - destruct (Hall f Hin) as (x & y & d & Hx & Hy & Hd).
    rewrite Hx, Hy, Hd. destruct (Py.ne0 d) eqn:Hne; cbn [from_option].
    + split.
      * intros [= <-]. split; [done|]. by exists x, y.
      * intros (_ & x' & y' & [= <-] & [= <-] & Hs & _). congruence.
    + split; [done|].
      intros (_ & x' & y' & [= <-] & [= <-] & Hs & Hn). congruence.
  - split; [done|]. by intros [? _].
Qed.

Lemma get_deltas_from_sound fields : ∀ l last d,
  d ∈ yielded (get_deltas_from (Some last) l fields) →
  deltas d ≠ ∅ ∧
  nonzero_differences fields (to d) (from d) (deltas d) ∧
  ∃ i : nat, (last :: l) !! i = Some (to d) ∧
             (last :: l) !! S i = Some (from d).
Proof.
  induction l as [|alias l IH]; intros last d Hd.
  - by apply elem_of_nil in Hd.
  - cbn [get_deltas_from] in Hd.
    assert (Hrest : d ∈ yielded (get_deltas_from (Some alias) l fields) →
              deltas d ≠ ∅ ∧
              nonzero_differences fields (to d) (from d) (deltas d) ∧
              ∃ i : nat, (last :: alias :: l) !! i = Some (to d) ∧
                         (last :: alias :: l) !! S i = Some (from d)).
    { intros (Hne & Hnz & i & Hi & HSi)%IH. split; [done|]. split; [done|].
      by exists (S i). }
    destruct (field_deltas ∅ last alias fields) as [m|e] eqn:Hm.
    + destruct (Py.truthy m) eqn:Ht; [|by apply Hrest].
      cbn [gen_yield yielded] in Hd. apply elem_of_cons in Hd as [->|Hd];
        [|by apply Hrest].
      cbn [deltas to from]. split; [by apply truthy_nonempty_iff|].
      split; [by apply field_deltas_Ok_differences|]. by exists 0%nat.
    + by apply elem_of_nil in Hd.
Qed.

(** The run on [l1 ++ l2] is the run on [l1] followed by the run on
    [l2] that starts from the last alias of [l1]. *)
Lemma get_deltas_from_app fields : ∀ l1 l2 (prev : option (gmap string value)),
  get_deltas_from prev (l1 ++ l2) fields =
    gen_then (get_deltas_from prev l1 fields)
             (get_deltas_from (from_option Some prev (last l1)) l2 fields).
Proof.
  induction l1 as [|a l1 IH]; intros l2 prev.
  - cbn [app get_deltas_from last from_option]. by rewrite gen_then_done_l.
  - assert (Hlast : from_option Some prev (last (a :: l1)) =
                    from_option Some (Some a) (last l1)).
    { rewrite last_cons. by destruct (last l1). }
    rewrite Hlast. cbn [app get_deltas_from].
    destruct prev as [p|]; [|apply IH].
    destruct (field_deltas ∅ p a fields) as [m|e]; [|done].
    destruct (Py.truthy m); [|apply IH].
    by rewrite gen_then_yield, IH.
Qed.

Lemma get_deltas_tracked_numeric_done fields l :
  tracked_numeric fields l → raised (get_deltas l fields) = None.
Proof.
  intros Hn. destruct l as [|a l]; [done|].
  destruct (get_deltas_from_pairs fields l a Hn) as (ms & _ & Hrun).
  unfold get_deltas. cbn [get_deltas_from]. by rewrite Hrun.
Qed.

Lemma get_deltas_from_sound_all l fields (d : delta) :
  d ∈ yielded (get_deltas l fields) →
  deltas d ≠ ∅ ∧
  nonzero_differences fields (to d) (from d) (deltas d) ∧
  ∃ i : nat, l !! i = Some (to d) ∧ l !! S i = Some (from d).
Proof.
  destruct l as [|a l]; [by intros ?%elem_of_nil|].
  apply get_deltas_from_sound.
Qed.

End deltas_more.

(** X1: on aliases without floats in the tracked fields, whatever else
    they hold, every Delta that [get_deltas] yields has a non-empty
    mapping, joins two adjacent aliases of the sequence ([to] the one in
    front, [from] the one behind it), and maps exactly the tracked fields
    whose integer difference [to] minus [from] is not zero to that
    difference. *)
Theorem get_deltas_sound (aliases : list (gmap string value))
    (fields : list string) (d : delta) :
  float_free fields aliases →
  d ∈ yielded (get_deltas aliases fields) →
  deltas d ≠ ∅ ∧
  integer_differences fields (to d) (from d) (deltas d) ∧
  ∃ i : nat, aliases !! i = Some (to d) ∧ aliases !! S i = Some (from d).
Proof.
  intros Hff (Hne & Hnz & i & Hi & HSi)%get_deltas_from_sound_all.
  split; [done|]. split; [|by exists i].
  apply nonzero_integer_differences; [| |done].
  - exact (proj1 (Forall_lookup _ _) Hff _ _ Hi).
  - exact (proj1 (Forall_lookup _ _) Hff _ _ HSi).
Qed.

Lemma get_deltas_sound_witness :
  integer_differences ["height"] (height_only 187) (height_only 120)
    (height_only 67).
Proof.
  refine (proj1 (proj2 (get_deltas_sound [height_only 187; height_only 120]
             ["height"]
             (Delta (height_only 120) (height_only 187) (height_only 67))
             _ _))).
  - apply Forall_cons_2; [|apply Forall_cons_2; [|apply Forall_nil_2]];
      intros f q ->%list_elem_of_singleton H;
      unfold height_only in H; rewrite lookup_singleton_eq in H;
      discriminate H.
  - assert (Hrun : get_deltas [height_only 187; height_only 120] ["height"] =
              Gen [Delta (height_only 120) (height_only 187) (height_only 67)]
                  None) by (vm_compute; reflexivity).
    rewrite Hrun. cbn [yielded]. apply list_elem_of_singleton. reflexivity.
Defined.

(** X2: the Deltas of a sequence are not affected by older aliases put
    behind it: what is yielded on [aliases] is the beginning of what is
    yielded on [aliases ++ older], and when the run on [aliases] ends
    with an exception the run on [aliases ++ older] is the same run. *)
Theorem get_deltas_prefix (aliases older : list (gmap string value))
    (fields : list string) :
  yielded (get_deltas aliases fields)
    `prefix_of` yielded (get_deltas (aliases ++ older) fields) ∧
  (∀ e, raised (get_deltas aliases fields) = Some e →
        get_deltas (aliases ++ older) fields = get_deltas aliases fields).
Proof.
  unfold get_deltas. rewrite get_deltas_from_app. unfold gen_then.
  destruct (raised (get_deltas_from None aliases fields)) as [e|] eqn:Hr.
  - split; [done|]. by intros.
  - split; [|done]. cbn [yielded]. by apply prefix_app_r.
Qed.

Lemma get_deltas_prefix_witness :
  get_deltas ([height_only 187; ∅] ++ [height_only 120]) ["height"] =
  get_deltas [height_only 187; ∅] ["height"].
Proof.
  refine (proj2 (get_deltas_prefix [height_only 187; ∅] [height_only 120]
                   ["height"]) (KeyError (VStr "height")) _).
  vm_compute. reflexivity.
Defined.

Lemma last_cons_default (hs : list Z) : ∀ y h : Z,
  List.last (y :: hs) h = List.last hs y.
Proof.
  induction hs as [|z hs IH]; intros y h; [done|].
  change (List.last (y :: z :: hs) h) with (List.last (z :: hs) h).
  by rewrite (IH z h), (IH z y).
Qed.

Section telescope.
Context (f : string).

Lemma field_deltas_int (a b : gmap string value) (x y : Z) :
  a !! f = Some (VInt x) → b !! f = Some (VInt y) →
  field_deltas ∅ a b [f] =
    Ok (if x - y =? 0 then ∅ else {[ f := VInt (x - y) ]}).
Proof.
  intros Ha Hb. cbn [field_deltas].
  rewrite (getitem_Some _ _ _ Ha), (getitem_Some _ _ _ Hb).
  cbn [bind Py.sub]. unfold Py.ne0, Py.eq0.
  destruct (x - y =? 0); cbn [negb field_deltas]; [done | by rewrite insert_empty].
Qed.

Lemma truthy_singleton (v : value) : Py.truthy {[ f := v ]} = true.
Proof. apply truthy_nonempty_iff, insert_non_empty. Qed.

Lemma truthy_empty : Py.truthy ∅ = false.
Proof. by apply truthy_empty_iff. Qed.

Lemma get_deltas_from_total (l : list (gmap string value)) :
  ∀ (hs : list Z) (a : gmap string value) (h : Z),
  a !! f = Some (VInt h) →
  Forall2 (λ b y, b !! f = Some (VInt y)) l hs →
  raised (get_deltas_from (Some a) l [f]) = None ∧
  total_change f (yielded (get_deltas_from (Some a) l [f])) =
    h - List.last hs h.
Proof.
  induction l as [|b l IH]; intros hs a h Ha Hl.
  - apply Forall2_nil_inv_l in Hl as ->. cbn. split; [done | lia].
  - apply Forall2_cons_inv_l in Hl as (y & hs' & Hb & Hl & ->).
    destruct (IH hs' b y Hb Hl) as [Hr Ht].
    cbn [get_deltas_from]. rewrite (field_deltas_int a b h y Ha Hb).
    rewrite last_cons_default. destruct (h - y =? 0) eqn:Hz.
    + rewrite truthy_empty. split; [done|]. apply Z.eqb_eq in Hz. lia.
    + rewrite truthy_singleton. cbn [gen_yield yielded raised].
      split; [done|]. cbn [total_change foldr deltas].
      fold (total_change f (yielded (get_deltas_from (Some b) l [f]))).
      rewrite Ht. unfold int_at. rewrite lookup_singleton_eq. lia.
Qed.

End telescope.

(** X3: when every alias holds an integer in field [f], the differences
    [get_deltas] reports for [f] add up to the value in the newest alias
    minus the value in the oldest one, and the run ends without an
    exception. *)
Theorem get_deltas_total_change (f : string)
    (aliases : list (gmap string value)) (hs : list Z) :
  Forall2 (λ a h, a !! f = Some (VInt h)) aliases hs →
  raised (get_deltas aliases [f]) = None ∧
  total_change f (yielded (get_deltas aliases [f])) =
    hd 0 hs - List.last hs 0.
Proof.
  intros Hl. destruct Hl as [|a h l hs' Ha Hl]; [done|].
  unfold get_deltas. cbn [get_deltas_from hd].
  destruct (get_deltas_from_total f l hs' a h Ha Hl) as [Hr Ht].
  split; [done|]. by rewrite Ht, last_cons_default.
Qed.

Lemma get_deltas_total_change_witness :
  total_change "height"
    (yielded (get_deltas (height_only <$> [187; 120; 120; 187]) ["height"])) =
  hd 0 [187; 120; 120; 187] - List.last [187; 120; 120; 187] 0.
Proof.
  refine (proj2 (get_deltas_total_change "height"
                   (height_only <$> [187; 120; 120; 187])
                   [187; 120; 120; 187] _)).
  cbn [fmap list_fmap].
  do 4 (apply Forall2_cons_2; [apply lookup_singleton_eq|]).
  apply Forall2_nil_2.
Defined.

(** X4: a field that cannot be subtracted stops the generator at the
    first pair concerned.  When the aliases up to [a] hold integers in the
    tracked fields and the next alias [b] lacks the first tracked field,
    the Deltas of the aliases up to [a] are yielded and then [KeyError]
    is raised for that field; when [b] holds a string there, [TypeError]
    is raised instead. *)
Theorem get_deltas_first_error
    (aliases older : list (gmap string value)) (a b : gmap string value)
    (f : string) (fs : list string) :
  tracked_integer (f :: fs) (aliases ++ [a]) →
  (b !! f = None →
   get_deltas (aliases ++ a :: b :: older) (f :: fs) =
     Gen (yielded (get_deltas (aliases ++ [a]) (f :: fs)))
         (Some (KeyError (VStr f)))) ∧
  (∀ s, b !! f = Some (VStr s) →
   get_deltas (aliases ++ a :: b :: older) (f :: fs) =
     Gen (yielded (get_deltas (aliases ++ [a]) (f :: fs)))
         (Some TypeError)).
Proof.
  intros Hn%tracked_integer_numeric.
  pose proof (get_deltas_tracked_numeric_done _ _ Hn) as Hdone.
  assert (Ha : ∃ x, a !! f = Some x ∧ Py.is_num x).
  { apply Forall_app in Hn as [_ Hn]. apply Forall_cons in Hn as [Ha _].
    apply Ha. by left. }
  destruct Ha as (x & Ha & Nx).
  assert (Happ : aliases ++ a :: b :: older = (aliases ++ [a]) ++ b :: older)
    by (by rewrite <- app_assoc).
  rewrite Happ. unfold get_deltas in *. rewrite get_deltas_from_app.
  unfold gen_then. rewrite Hdone, last_snoc. cbn [from_option yielded raised].
  cbn [get_deltas_from field_deltas]. rewrite (getitem_Some _ _ _ Ha).
  cbn [bind]. split.
  - intros Hb. unfold Py.getitem. rewrite Hb. cbn [bind gen_raise yielded raised].
    by rewrite app_nil_r.
  - intros s Hb. rewrite (getitem_Some _ _ _ Hb). cbn [bind].
    destruct x; try done; cbn [Py.sub bind gen_raise yielded raised];
      by rewrite app_nil_r.
Qed.

Lemma get_deltas_first_error_witness :
  get_deltas ([] ++ height_only 187 :: ∅ :: [height_only 120]) ["height"] =
    Gen (yielded (get_deltas ([] ++ [height_only 187]) ["height"]))
        (Some (KeyError (VStr "height"))).
Proof.
  refine (proj1 (get_deltas_first_error [] [height_only 120]
                   (height_only 187) ∅ "height" [] _) _).
  - apply Forall_cons_2; [|apply Forall_nil_2].
    intros f ->%list_elem_of_singleton. eexists.
    apply lookup_singleton_eq.
  - apply lookup_empty.
Defined.

(** ** The suspicion filter, beyond boolean predicates *)

Section filter_more.
Implicit Types (retain : gmap string (value → result bool)).
Implicit Types (preds : gmap string (value → bool)).
Implicit Types (d : delta) (ds out : list delta) (m : gmap string value).

Lemma delta_eta d : {| from := from d; to := to d; deltas := deltas d |} = d.
Proof. by destruct d. Qed.

Lemma restrict_delta_idem preds d :
  restrict_delta preds (restrict_delta preds d) = restrict_delta preds d.
Proof.
  unfold restrict_delta. cbn [from to deltas]. f_equal.
  apply map_eq. intros k. apply option_eq. intros v.
  rewrite !map_lookup_filter_Some. tauto.
Qed.

Lemma filter_restrict_fixed preds out :
  Forall (λ d, deltas d ≠ ∅ ∧ restrict_delta preds d = d) out →
  filter (λ d, deltas d ≠ ∅) (restrict_delta preds <$> out) = out.
Proof.
  induction 1 as [|d out [Hne Hd] _ IH]; [done|].
  cbn [fmap list_fmap]. rewrite filter_cons, Hd, decide_True by done.
  f_equal. apply IH.
Qed.

Lemma filter_restrict_Forall preds ds :
  Forall (λ d, deltas d ≠ ∅ ∧ restrict_delta preds d = d)
         (filter (λ d, deltas d ≠ ∅) (restrict_delta preds <$> ds)).
Proof.
  apply Forall_forall. intros d [Hne Hin]%list_elem_of_filter.
  split; [done|]. apply list_elem_of_fmap in Hin as (d0 & -> & _).
  apply restrict_delta_idem.
Qed.

(** An item whose predicate raises makes the comprehension raise. *)
Lemma filter_items_Err retain (items : list (string * value)) k v e :
  (k, v) ∈ items → retain_get retain k v = Err e →
  is_Err (filter_items retain items).
Proof.
  intros Hin He. induction items as [|[k' v'] items IH];
    [by apply elem_of_nil in Hin|].
  cbn [filter_items]. apply elem_of_cons in Hin as [[= <- <-]|Hin].
  - rewrite He. by eexists.
  - destruct (retain_get retain k' v') as [b|e']; [|by eexists].
    cbn [bind]. destruct (IH Hin) as [e2 ->]. by eexists.
Qed.

Lemma filter_deltas_list_Err retain ds d k v e :
  d ∈ ds → deltas d !! k = Some v → retain_get retain k v = Err e →
  is_Err (filter_deltas_list retain ds).
Proof.
  intros Hin Hk He. induction ds as [|d' ds IH];
    [by apply elem_of_nil in Hin|].
  cbn [filter_deltas_list]. apply elem_of_cons in Hin as [<-|Hin].
  - destruct (filter_items_Err retain (map_to_list (deltas d)) k v e)
      as [e2 ->]; [by apply elem_of_map_to_list | done | by eexists].
  - destruct (filter_items retain (map_to_list (deltas d'))) as [kept|e'];
      [|by eexists].
    cbn [bind]. destruct (IH Hin) as [e2 ->]. by eexists.
Qed.

(** Items whose fields have no predicate are all kept, and no predicate
    is called. *)
Lemma filter_items_no_predicate retain (items : list (string * value)) :
  Forall (λ kv, retain !! kv.1 = None) items →
  filter_items retain items = Ok items.
Proof.
  induction 1 as [|[k v] items Hk _ IH]; [done|].
  cbn [filter_items]. unfold retain_get. cbn [fst] in Hk. rewrite Hk, IH.
  done.
Qed.

(** What a successful comprehension keeps. *)
Lemma filter_items_inv retain (items kept : list (string * value)) :
  filter_items retain items = Ok kept →
  kept `sublist_of` items ∧
  ∀ k v, (k, v) ∈ kept ↔ (k, v) ∈ items ∧ retain_get retain k v = Ok true.
Proof.
  revert kept. induction items as [|[k0 v0] items IH]; intros kept Hk.
  - injection Hk as <-. split; [done|]. intros k v. split; [|by intros [? _]].
    by intros ?%elem_of_nil.
  - cbn [filter_items] in Hk.
    apply bind_Ok_inv in Hk as (b & Hb & Hk).
    apply bind_Ok_inv in Hk as (kept' & Hkept' & Hk).
    injection Hk as <-. destruct (IH kept' Hkept') as [Hsub Hiff].
    destruct b.
    + split; [by constructor|]. intros k v. rewrite !elem_of_cons, Hiff.
      split.
      * intros [[= -> ->]|[? ?]]; [split; [by left | done] | split; [by right | done]].
      * intros [[[= -> ->]|?] ?]; [by left | by right].
    + split; [by constructor|]. intros k v. rewrite elem_of_cons, Hiff.
      split.
      * intros [? ?]. split; [by right | done].
      * intros [[[= -> ->]|?] ?]; [congruence | done].
Qed.

Lemma filter_deltas_list_inv retain ds out d' :
  filter_deltas_list retain ds = Ok out → d' ∈ out →
  ∃ d, d ∈ ds ∧ from d' = from d ∧ to d' = to d ∧ deltas d' ≠ ∅ ∧
       ∀ k v, deltas d' !! k = Some v ↔
              deltas d !! k = Some v ∧ retain_get retain k v = Ok true.
Proof.
  revert out. induction ds as [|d ds IH]; intros out Hout Hin.
  - injection Hout as <-. by apply elem_of_nil in Hin.
  - cbn [filter_deltas_list] in Hout.
    apply bind_Ok_inv in Hout as (kept & Hkept & Hout).
    apply bind_Ok_inv in Hout as (rest & Hrest & Hout).
    injection Hout as <-. cbn [deltas] in Hin.
    assert (Hr : d' ∈ rest → ∃ d0, d0 ∈ d :: ds ∧ from d' = from d0 ∧
              to d' = to d0 ∧ deltas d' ≠ ∅ ∧
              ∀ k v, deltas d' !! k = Some v ↔
                     deltas d0 !! k = Some v ∧ retain_get retain k v = Ok true).
    { intros (d0 & Hd0 & H)%(IH rest Hrest). exists d0. split; [by right | done]. }
    destruct (Py.truthy (list_to_map kept)) eqn:Ht; [|by apply Hr].
    apply elem_of_cons in Hin as [->|Hin]; [|by apply Hr].
    exists d. cbn [from to deltas]. split; [by left|]. split; [done|].
    split; [done|]. split; [by apply truthy_nonempty_iff|].
    destruct (filter_items_inv _ _ _ Hkept) as [Hsub Hiff].
    intros k v. rewrite <- elem_of_list_to_map, Hiff, elem_of_map_to_list; [done|].
    assert (Hs : kept.*1 `sublist_of` (map_to_list (deltas d)).*1)
      by (by apply fmap_sublist).
    apply (sublist_NoDup _ _ (NoDup_fst_map_to_list (deltas d)) Hs).
Qed.

End filter_more.

(** X5: with predicates that return booleans, filtering the output of
    [filter_deltas] again with the same predicates returns it
    unchanged. *)
Theorem filter_deltas_idempotent (preds : gmap string (value → bool))
    (ds : list delta) :
  ∃ out, filter_deltas (Gen ds None) (as_retain preds) = Ok out ∧
         filter_deltas (Gen out None) (as_retain preds) = Ok out.
Proof.
  exists (filter (λ d, deltas d ≠ ∅) (restrict_delta preds <$> ds)).
  unfold filter_deltas. cbn [yielded raised].
  rewrite !filter_deltas_list_as_retain. cbn [bind]. split; [done|].
  f_equal. apply filter_restrict_fixed, filter_restrict_Forall.
Qed.

(** X6: errors go through [filter_deltas].  When the generator it drains
    ends with an exception, that exception is raised and the Deltas
    yielded before are lost; when a predicate raises on an item of some
    Delta, the call raises. *)
Theorem filter_deltas_errors :
  (∀ (preds : gmap string (value → bool)) (ds : list delta) (e : exn),
     filter_deltas (Gen ds (Some e)) (as_retain preds) = Err e) ∧
  (∀ (retain : gmap string (value → result bool)) (g : gen delta)
     (d : delta) (k : string) (v : value) (p : value → result bool) (e : exn),
     d ∈ yielded g → deltas d !! k = Some v →
     retain !! k = Some p → p v = Err e →
     is_Err (filter_deltas g retain)).
Proof.
  split.
  - intros preds ds e. unfold filter_deltas. cbn [yielded raised].
    by rewrite filter_deltas_list_as_retain.
  - intros retain g d k v p e Hd Hk Hp He. unfold filter_deltas.
    destruct (filter_deltas_list_Err retain (yielded g) d k v e)
      as [e2 ->]; [done | done | | by eexists].
    unfold retain_get. by rewrite Hp.
Qed.

Lemma filter_deltas_errors_witness :
  is_Err (filter_deltas
            (Gen [Delta ∅ ∅ (height_only 7)] None)
            {[ "height" := λ _, Err TypeError ]}).
Proof.
  refine (proj2 filter_deltas_errors _ _ (Delta ∅ ∅ (height_only 7))
            "height" (VInt 7) (λ _, Err TypeError) TypeError _ _ _ _).
  - cbn [yielded]. apply list_elem_of_singleton. reflexivity.
  - apply lookup_singleton_eq.
  - apply lookup_singleton_eq.
  - reflexivity.
Defined.

(** X7: fields without a predicate are retained and the predicates of
    other fields are not called, whatever they would do: when no field of
    any Delta has a predicate, [filter_deltas] returns the Deltas with a
    non-empty mapping, unchanged and in order. *)
Theorem filter_deltas_default_permit
    (retain : gmap string (value → result bool)) (ds : list delta) :
  (∀ d k, d ∈ ds → is_Some (deltas d !! k) → retain !! k = None) →
  filter_deltas (Gen ds None) retain = Ok (filter (λ d, deltas d ≠ ∅) ds).
Proof.
  intros Hno. unfold filter_deltas. cbn [yielded raised].
  assert (H : filter_deltas_list retain ds =
              Ok (filter (λ d, deltas d ≠ ∅) ds)); [|by rewrite H].
  induction ds as [|d ds IH]; [done|].
  cbn [filter_deltas_list]. rewrite filter_items_no_predicate.
  - cbn [bind]. rewrite list_to_map_to_list, delta_eta, IH.
    + cbn [bind]. rewrite filter_cons. destruct (Py.truthy (deltas d)) eqn:Ht.
      * apply truthy_nonempty_iff in Ht. by rewrite decide_True.
      * apply truthy_empty_iff in Ht. by rewrite decide_False by (by intros []).
    + intros d' k Hd'. apply Hno. by right.
  - apply Forall_forall. intros [k v] Hkv%elem_of_map_to_list.
    apply (Hno d); [by left | by eexists].
Qed.

Lemma filter_deltas_default_permit_witness :
  filter_deltas (Gen [Delta ∅ ∅ (height_only 2); Delta ∅ ∅ ∅] None)
                {[ "weight" := λ _, Err TypeError ]} =
    Ok (filter (λ d, deltas d ≠ ∅) [Delta ∅ ∅ (height_only 2); Delta ∅ ∅ ∅]).
Proof.
  apply filter_deltas_default_permit. intros d k Hd [v Hk].
  apply lookup_singleton_ne. intros <-.
  apply elem_of_cons in Hd as [->|Hd].
  - cbn [deltas] in Hk. unfold height_only in Hk.
    apply lookup_singleton_Some in Hk as [Hk _]. discriminate Hk.
  - apply list_elem_of_singleton in Hd as ->. cbn [deltas] in Hk.
    rewrite lookup_empty in Hk. discriminate Hk.
Defined.

Lemma height_policy_true (v : value) :
  height_policy v = Ok true →
  ∃ q, Py.to_Q v = Some q ∧ (5 <= Qabs q)%Q.
Proof.
  unfold height_policy. destruct v as [|z|q|s]; cbn [Py.abs bind]; try done.
  - cbn [Py.geb Py.to_Q]. intros [= H]. apply Qle_bool_iff in H.
    exists (inject_Z z). split; [done|]. exact H.
  - cbn [Py.geb Py.to_Q]. intros [= H]. apply Qle_bool_iff in H.
    exists q. split; [done|]. exact H.
Qed.

(** What a Delta that passed the height policy looks like. *)
Lemma get_suspicious_deltas_inv (aliases : list (gmap string value))
    (ds : list delta) (d : delta) :
  get_suspicious_deltas aliases = Ok ds → d ∈ ds →
  ∃ (v : value) (q : Q),
    deltas d = {[ "height" := v ]} ∧ Py.to_Q v = Some q ∧ (5 <= Qabs q)%Q.
Proof.
  unfold get_suspicious_deltas, filter_deltas. intros Hds Hd.
  apply bind_Ok_inv in Hds as (out & Hout & Hds).
  destruct (raised (get_deltas aliases ["height"])); [done|].
  injection Hds as ->.
  destruct (filter_deltas_list_inv _ _ _ _ Hout Hd)
    as (d0 & Hd0 & _ & _ & Hne & Hiff).
  destruct (get_deltas_from_sound_all aliases ["height"] d0 Hd0)
    as (_ & Hnz & _).
  assert (Hkey : ∀ k v, deltas d !! k = Some v →
            k = "height" ∧ height_policy v = Ok true).
  { intros k v [Hk Hp]%Hiff.
    apply Hnz in Hk as [->%list_elem_of_singleton _].
    unfold retain_get in Hp. rewrite lookup_singleton_eq in Hp. done. }
  destruct (map_choose _ Hne) as (k & v & Hkv).
  destruct (Hkey k v Hkv) as (-> & Hp).
  destruct (height_policy_true v Hp) as (q & Hq & Hq5).
  exists v, q. split; [|done].
  apply map_eq. intros k. destruct (decide (k = "height")) as [->|Hk].
  - by rewrite lookup_singleton_eq.
  - rewrite lookup_singleton_ne by done.
    destruct (deltas d !! k) as [v'|] eqn:Hk'; [|done].
    by apply Hkey in Hk' as [? _].
Qed.

(** What [get_suspicious_deltas] returns, in terms of the subtraction of
    the embedding. *)
Lemma get_suspicious_deltas_sub (aliases : list (gmap string value))
    (ds : list delta) (d : delta) :
  get_suspicious_deltas aliases = Ok ds → d ∈ ds →
  ∃ (v x y : value) (q : Q),
    deltas d = {[ "height" := v ]} ∧
    to d !! "height" = Some x ∧ from d !! "height" = Some y ∧
    Py.sub x y = Ok v ∧
    Py.to_Q v = Some q ∧ (5 <= Qabs q)%Q ∧
    ∃ i : nat, aliases !! i = Some (to d) ∧ aliases !! S i = Some (from d).
Proof.
  unfold get_suspicious_deltas, filter_deltas. intros Hds Hd.
  apply bind_Ok_inv in Hds as (out & Hout & Hds).
  destruct (raised (get_deltas aliases ["height"])); [done|].
  injection Hds as ->.
  destruct (filter_deltas_list_inv _ _ _ _ Hout Hd)
    as (d0 & Hd0 & Hfrom & Hto & Hne & Hiff).
  destruct (get_deltas_from_sound_all aliases ["height"] d0 Hd0)
    as (_ & Hnz & i & Hi & HSi).
  assert (Hkey : ∀ k v, deltas d !! k = Some v →
            k = "height" ∧ height_policy v = Ok true ∧
            deltas d0 !! "height" = Some v).
  { intros k v [Hk Hp]%Hiff. pose proof Hk as Hk'.
    apply Hnz in Hk' as [->%list_elem_of_singleton _].
    unfold retain_get in Hp. rewrite lookup_singleton_eq in Hp. done. }
  destruct (map_choose _ Hne) as (k & v & Hkv).
  destruct (Hkey k v Hkv) as (-> & Hp & Hv0).
  destruct (height_policy_true v Hp) as (q & Hq & Hq5).
  pose proof Hv0 as Hv0'.
  apply Hnz in Hv0' as (_ & x & y & Hx & Hy & Hsub & _).
  exists v, x, y, q. rewrite Hfrom, Hto.
  split; [|split; [done|split; [done|split; [done|split; [done|split;
    [done|by exists i]]]]]].
  apply map_eq. intros k. destruct (decide (k = "height")) as [->|Hk].
  - by rewrite lookup_singleton_eq.
  - rewrite lookup_singleton_ne by done.
    destruct (deltas d !! k) as [v'|] eqn:Hk'; [|done].
    by apply Hkey in Hk' as [? _].
Qed.

(** X8: on aliases whose heights are not floats, every Delta
    [get_suspicious_deltas] returns joins two adjacent aliases with
    integer heights and maps the single field [height] to the height of
    the one in front minus the height of the one behind, an integer of
    absolute value at least 5. *)
Theorem get_suspicious_deltas_sound (aliases : list (gmap string value))
    (ds : list delta) (d : delta) :
  float_free ["height"] aliases →
  get_suspicious_deltas aliases = Ok ds → d ∈ ds →
  ∃ x y : Z,
    deltas d = {[ "height" := VInt (x - y) ]} ∧
    to d !! "height" = Some (VInt x) ∧ from d !! "height" = Some (VInt y) ∧
    5 ≤ Z.abs (x - y) ∧
    ∃ i : nat, aliases !! i = Some (to d) ∧ aliases !! S i = Some (from d).
Proof.
  intros Hff Hds Hd.
  destruct (get_suspicious_deltas_sub aliases ds d Hds Hd)
    as (v & x & y & q & Hm & Hx & Hy & Hsub & Hq & Hq5 & i & Hi & HSi).
  pose proof (proj1 (Forall_lookup _ _) Hff _ _ Hi) as Hfx.
  pose proof (proj1 (Forall_lookup _ _) Hff _ _ HSi) as Hfy.
  destruct x as [|x|qx|sx]; try discriminate Hsub;
    [|exfalso; apply (Hfx "height" qx); [by left | done]].
  destruct y as [|y|qy|sy]; try discriminate Hsub;
    [|exfalso; apply (Hfy "height" qy); [by left | done]].
  cbn [Py.sub] in Hsub. injection Hsub as <-.
  cbn [Py.to_Q] in Hq. injection Hq as <-.
  exists x, y. split; [done|]. split; [done|]. split; [done|].
  split; [|by exists i].
  unfold Qle, Qabs, inject_Z in Hq5. cbn [Qnum Qden] in Hq5. lia.
Qed.

Lemma get_suspicious_deltas_sound_witness :
  ∃ x y : Z,
    height_only 67 = {[ "height" := VInt (x - y) ]} ∧
    height_only 187 !! "height" = Some (VInt x) ∧
    height_only 120 !! "height" = Some (VInt y) ∧
    5 ≤ Z.abs (x - y).
Proof.
  destruct (get_suspicious_deltas_sound
              [height_only 187; height_only 120]
              [Delta (height_only 120) (height_only 187) (height_only 67)]
              (Delta (height_only 120) (height_only 187) (height_only 67)))
    as (x & y & H1 & H2 & H3 & H4 & _).
  - apply Forall_cons_2; [|apply Forall_cons_2; [|apply Forall_nil_2]];
      intros f q ->%list_elem_of_singleton H;
      unfold height_only in H; rewrite lookup_singleton_eq in H;
      discriminate H.
  - vm_compute. reflexivity.
  - apply list_elem_of_singleton. reflexivity.
  - exists x, y. cbn [deltas to from] in *. done.
Defined.

(** ** Height backfill, its errors and what follows it *)

Section backfill_more.
Implicit Types (a x : gmap string value) (h : value).
Implicit Types (l zs pre : list (gmap string value)).

Lemma gen_then_done_r {A} (g : gen A) : gen_then g gen_done = g.
Proof. destruct g as [ys [e|]]; [done|]. unfold gen_then. cbn. by rewrite app_nil_r. Qed.

Lemma sub_self h :
  Py.is_num h → ∃ d, Py.sub h h = Ok d ∧ Py.eq0 d = true.
Proof.
  destruct h as [|z|q|s]; try done; intros _; eexists; (split; [done|]).
  - cbn [Py.eq0]. apply Z.eqb_eq. lia.
  - cbn [Py.eq0]. apply Qeq_bool_iff. apply Qplus_opp_r.
Qed.

Lemma sub_zeros (x y : value) :
  Py.eq0 x = true → Py.eq0 y = true →
  ∃ d, Py.sub x y = Ok d ∧ Py.eq0 d = true.
Proof.
  destruct x as [|x|x|x], y as [|y|y|y]; cbn [Py.eq0]; try done;
    rewrite ?Z.eqb_eq, ?Qeq_bool_iff; intros Hx Hy; eexists;
    (split; [done|]); cbn [Py.eq0]; rewrite ?Z.eqb_eq, ?Qeq_bool_iff.
  - lia.
  - subst x. rewrite Hy. reflexivity.
  - subst y. rewrite Hx. reflexivity.
  - rewrite Hx, Hy. reflexivity.
Qed.

(** A pair of aliases with equal, or both zero, heights gives no Delta. *)
Lemma field_deltas_height_none a b (x y d : value) :
  a !! "height" = Some x → b !! "height" = Some y →
  Py.sub x y = Ok d → Py.eq0 d = true →
  field_deltas ∅ a b ["height"] = Ok ∅.
Proof.
  intros Ha Hb Hd Hz. cbn [field_deltas].
  rewrite (getitem_Some _ _ _ Ha), (getitem_Some _ _ _ Hb). cbn [bind].
  rewrite Hd. cbn [bind]. unfold Py.ne0. by rewrite Hz.
Qed.

Lemma get_deltas_from_filled a h zs :
  a !! "height" = Some h → Py.is_num h →
  get_deltas_from (Some a) (with_height h <$> zs) ["height"] = gen_done.
Proof.
  intros Ha Hn. revert a Ha. induction zs as [|z zs IH]; intros a Ha; [done|].
  destruct (sub_self h Hn) as (d & Hd & Hz).
  cbn [fmap list_fmap get_deltas_from].
  rewrite (field_deltas_height_none a (with_height h z) h h d Ha
             (with_height_lookup h z) Hd Hz).
  rewrite truthy_empty. apply IH, with_height_lookup.
Qed.

Lemma get_deltas_from_zeros a zs :
  height_zero a → Forall height_zero zs →
  get_deltas_from (Some a) zs ["height"] = gen_done.
Proof.
  intros Ha Hzs. revert a Ha. induction Hzs as [|z zs Hz _ IH]; intros a Ha;
    [done|].
  destruct Ha as (x & Hx & Zx). pose proof Hz as (y & Hy & Zy).
  destruct (sub_zeros x y Zx Zy) as (d & Hd & Zd).
  cbn [get_deltas_from].
  rewrite (field_deltas_height_none a z x y d Hx Hy Hd Zd), truthy_empty.
  by apply IH.
Qed.

End backfill_more.

(** X9: when the oldest alias has a non-zero height, [backfill_heights]
    returns its input unchanged: zero heights that are not at the old end
    are kept, and the newer aliases are not even required to have a
    height. *)
Theorem backfill_heights_oldest_recorded
    (pre : list (gmap string value)) (x : gmap string value) (h : value) :
  x !! "height" = Some h → Py.ne0 h = true →
  backfill_heights (pre ++ [x]) = Ok (pre ++ [x]).
Proof.
  intros Hh Hne. apply (backfill_heights_run pre x h [] Hh Hne). constructor.
Qed.

Lemma backfill_heights_oldest_recorded_witness :
  backfill_heights ([height_only 0; ∅] ++ [height_only 180]) =
    Ok ([height_only 0; ∅] ++ [height_only 180]).
Proof.
  apply (backfill_heights_oldest_recorded _ _ (VInt 180)).
  - apply lookup_singleton_eq.
  - reflexivity.
Defined.

(** X10: an alias without a height, at the old end or behind zero
    heights only, makes [backfill_heights] raise [KeyError] for
    "height". *)
Theorem backfill_heights_missing_height
    (pre zs : list (gmap string value)) (a : gmap string value) :
  a !! "height" = None → Forall height_zero zs →
  backfill_heights (pre ++ a :: zs) = Err (KeyError (VStr "height")).
Proof.
  intros Ha Hzs. unfold backfill_heights.
  rewrite reverse_app, reverse_cons, <- app_assoc.
  rewrite next_nonzero_height_skip by by apply Forall_reverse.
  cbn [app next_nonzero_height]. unfold Py.getitem. by rewrite Ha.
Qed.

Lemma backfill_heights_missing_height_witness :
  backfill_heights ([height_only 180] ++ ∅ :: [height_only 0]) =
    Err (KeyError (VStr "height")).
Proof.
  apply backfill_heights_missing_height.
  - apply lookup_empty.
  - apply Forall_cons_2; [|apply Forall_nil_2].
    exists (VInt 0). split; [apply lookup_singleton_eq | reflexivity].
Defined.

(** X11: the run that [backfill_heights] fills gives no Delta.  When the
    oldest non-zero height is a number, the height Deltas of the
    backfilled sequence are those of the aliases down to the anchor. *)
Theorem backfill_heights_run_no_deltas
    (pre zs : list (gmap string value)) (x : gmap string value) (h : value) :
  x !! "height" = Some h → Py.is_num h → Py.ne0 h = true →
  Forall height_zero zs →
  ∃ out, backfill_heights (pre ++ x :: zs) = Ok out ∧
         get_deltas out ["height"] = get_deltas (pre ++ [x]) ["height"].
Proof.
  intros Hh Hn Hne Hzs. eexists. split; [by apply backfill_heights_run|].
  assert (E : pre ++ x :: (with_height h <$> zs) =
              (pre ++ [x]) ++ (with_height h <$> zs))
    by (by rewrite <- app_assoc).
  rewrite E. unfold get_deltas. rewrite get_deltas_from_app, last_snoc.
  cbn [from_option]. rewrite (get_deltas_from_filled x h zs Hh Hn).
  apply gen_then_done_r.
Qed.

Lemma backfill_heights_run_no_deltas_witness :
  ∃ out, backfill_heights
           ([height_only 170] ++ height_only 180 :: [height_only 0]) = Ok out ∧
         get_deltas out ["height"] =
           get_deltas ([height_only 170] ++ [height_only 180]) ["height"].
Proof.
  apply (backfill_heights_run_no_deltas _ _ _ (VInt 180)).
  - apply lookup_singleton_eq.
  - exact I.
  - reflexivity.
  - apply Forall_cons_2; [|apply Forall_nil_2].
    exists (VInt 0). split; [apply lookup_singleton_eq | reflexivity].
Defined.

(** X12: in what [backfill_heights] returns, either every height is zero
    or the oldest alias has a non-zero height. *)
Theorem backfill_heights_oldest_nonzero
    (aliases out : list (gmap string value)) :
  backfill_heights aliases = Ok out →
  Forall height_zero out ∨
  ∃ x h, last out = Some x ∧ x !! "height" = Some h ∧ Py.ne0 h = true.
Proof.
  intros [[Hz ->]|(pre & x & h & zs & -> & Hh & Hne & Hzs & ->)]
    %backfill_heights_shape; [by left|].
  right. destruct zs as [|z zs _] using rev_ind.
  - exists x, h. cbn [fmap list_fmap]. by rewrite last_snoc.
  - exists (with_height h z), h. rewrite fmap_app. cbn [fmap list_fmap].
    rewrite app_comm_cons, app_assoc, last_snoc.
    split; [done|]. split; [apply with_height_lookup | done].
Qed.

Lemma backfill_heights_oldest_nonzero_witness :
  Forall height_zero (height_only <$> [10; 9; 0; 10; 10; 10]) ∨
  ∃ x h, last (height_only <$> [10; 9; 0; 10; 10; 10]) = Some x ∧
         x !! "height" = Some h ∧ Py.ne0 h = true.
Proof.
  apply (backfill_heights_oldest_nonzero
           (height_only <$> [10; 9; 0; 10; 0; 0])).
  vm_compute. reflexivity.
Defined.

(** ** The report of a profile *)

Lemma mapM_Ok_inv {A B} (f : A → result B) (l : list A) (out : list B) :
  mapM f l = Ok out → Forall2 (λ x y, f x = Ok y) l out.
Proof.
  revert out. induction l as [|x l IH]; intros out H.
  - injection H as <-. constructor.
  - rewrite mapM_cons in H.
    apply bind_Ok_inv in H as (y & Hy & H).
    apply bind_Ok_inv in H as (k & Hk & H). injection H as <-.
    constructor; [done | by apply IH].
Qed.

Lemma filter_deltas_list_length
    (retain : gmap string (value → result bool)) (ds out : list delta) :
  filter_deltas_list retain ds = Ok out → (length out ≤ length ds)%nat.
Proof.
  revert out. induction ds as [|d ds IH]; intros out H.
  - by injection H as <-.
  - cbn [filter_deltas_list] in H.
    apply bind_Ok_inv in H as (kept & _ & H).
    apply bind_Ok_inv in H as (rest & Hrest%IH & H). injection H as <-.
    destruct (Py.truthy _); cbn [length]; lia.
Qed.

Lemma backfill_heights_length (l out : list (gmap string value)) :
  backfill_heights l = Ok out → length out = length l.
Proof.
  intros [[_ ->]|(pre & x & h & zs & -> & _ & _ & _ & ->)]
    %backfill_heights_shape; [done|].
  by rewrite !length_app, !length_cons, length_fmap.
Qed.

Lemma get_suspicious_deltas_length (l : list (gmap string value))
    (ds : list delta) :
  get_suspicious_deltas l = Ok ds → (length ds ≤ length l - 1)%nat.
Proof.
  unfold get_suspicious_deltas, filter_deltas. intros H.
  apply bind_Ok_inv in H as (out & Hout%filter_deltas_list_length & H).
  destruct (raised _); [done|]. injection H as ->.
  pose proof (get_deltas_from_length ["height"] l None) as Hlen.
  cbv beta iota in Hlen. unfold get_deltas in Hout. lia.
Qed.

Lemma get_deltas_all_zero (l : list (gmap string value)) :
  Forall height_zero l → get_deltas l ["height"] = gen_done.
Proof.
  intros Hl. destruct Hl as [|a l Ha Hl]; [done|].
  by apply get_deltas_from_zeros.
Qed.

(** X13: a report carries the identifier and the points of its profile
    and at least one change; it has at most one change per adjacent pair
    of aliases, and every height_change in it is a number of absolute
    value at least 5. *)
Theorem describe_suspicious_profile_report (p : profile) (r : report) :
  describe_suspicious_profile p = Ok (Some r) →
  zwiftid r = profile_zwiftid p ∧
  zwiftpower_points r = profile_zwiftpower_points p ∧
  (0 < length (suspicious_profile_changes r) ≤ length (aliases p) - 1)%nat ∧
  ∀ c, c ∈ suspicious_profile_changes r →
       ∃ q, Py.to_Q (height_change c) = Some q ∧ (5 <= Qabs q)%Q.
Proof.
  unfold describe_suspicious_profile. intros H.
  apply bind_Ok_inv in H as (bf & Hbf & H).
  apply bind_Ok_inv in H as (sd & Hsd & H).
  destruct sd as [|d sd]; [done|].
  apply bind_Ok_inv in H as (changes & Hch & H). injection H as <-.
  cbn [zwiftid zwiftpower_points suspicious_profile_changes].
  apply mapM_Ok_inv in Hch.
  pose proof (Forall2_length _ _ _ Hch) as Hlen.
  pose proof (get_suspicious_deltas_length _ _ Hsd) as Hle.
  rewrite (backfill_heights_length _ _ Hbf) in Hle.
  split; [done|]. split; [done|]. split; [cbn [length] in *; lia|].
  intros c Hc.
  destruct (proj1 (list_elem_of_lookup _ _) Hc) as [i Hi].
  destruct (Forall2_lookup_r _ _ _ _ _ Hch Hi) as (d' & Hd' & Hdesc).
  apply list_elem_of_lookup_2 in Hd'.
  destruct (get_suspicious_deltas_inv bf (d :: sd) d' Hsd Hd')
    as (v & q & Hv & Hq & Hq5).
  unfold describe_suspicious_delta in Hdesc.
  apply bind_Ok_inv in Hdesc as (s & _ & Hdesc).
  apply bind_Ok_inv in Hdesc as (hv & Hhv & Hdesc). injection Hdesc as <-.
  cbn [height_change]. unfold Py.getitem in Hhv.
  rewrite Hv, lookup_singleton_eq in Hhv. injection Hhv as <-. by exists q.
Qed.

Lemma describe_suspicious_profile_report_witness :
  (0 < length
         [ {| date := "Jan 15 00:28"; height_change := VInt 67 |};
           {| date := "Jan 10 00:28"; height_change := VInt (-67) |} ]
     ≤ length scenario_aliases - 1)%nat.
Proof.
  refine (proj1 (proj2 (proj2 (describe_suspicious_profile_report
    {| profile_zwiftid := VInt 1; profile_zwiftpower_points := VFloat 137;
       aliases := scenario_aliases |}
    {| zwiftid := VInt 1; zwiftpower_points := VFloat 137;
       suspicious_profile_changes :=
         [ {| date := "Jan 15 00:28"; height_change := VInt 67 |};
           {| date := "Jan 10 00:28"; height_change := VInt (-67) |} ] |}
    _)))).
  apply describe_scenario.
Defined.

(** X14: a profile whose heights are all zero, and so a profile without
    aliases, gives no report: the zeros are kept and no Delta is found. *)
Theorem describe_suspicious_profile_unrecorded (p : profile) :
  Forall height_zero (aliases p) →
  describe_suspicious_profile p = Ok None.
Proof.
  intros Hz. unfold describe_suspicious_profile.
  rewrite (backfill_heights_all_zero _ Hz). cbn [bind].
  unfold get_suspicious_deltas. by rewrite (get_deltas_all_zero _ Hz).
Qed.

Lemma describe_suspicious_profile_unrecorded_witness :
  describe_suspicious_profile
    {| profile_zwiftid := VInt 1; profile_zwiftpower_points := VNone;
       aliases := [alias_at "jan" 15 0 28 0; alias_at "jan" 10 2 28 0] |} =
  Ok None.
Proof.
  apply describe_suspicious_profile_unrecorded. cbn [aliases].
  apply Forall_cons_2; [|apply Forall_cons_2; [|apply Forall_nil_2]];
    (exists (VInt 0); split; [vm_compute; reflexivity | reflexivity]).
Defined.

(** ** Month normalisation, its errors *)

Lemma mapM_app_Err {A B} (f : A → result B) (l1 l2 : list A) (a : A)
    (out : list B) (e : exn) :
  mapM f l1 = Ok out → f a = Err e → mapM f (l1 ++ a :: l2) = Err e.
Proof.
  revert out. induction l1 as [|x l1 IH]; intros out H1 Ha.
  - cbn [app]. by rewrite mapM_cons, Ha.
  - rewrite mapM_cons in H1.
    apply bind_Ok_inv in H1 as (y & Hy & H1).
    apply bind_Ok_inv in H1 as (k & Hk & _).
    cbn [app]. rewrite mapM_cons, Hy. cbn [bind]. by rewrite (IH k Hk Ha).
Qed.

(** X15: [numeric_months] stops at the first alias it cannot convert.
    Behind aliases with known months, an alias whose month is not one of
    the twelve lowercase tokens raises [KeyError] for that month, and an
    alias without a month raises [KeyError] for "month"; nothing is
    returned for the aliases before it. *)
Theorem numeric_months_first_unknown
    (l1 l2 : list (gmap string value)) (a : gmap string value) :
  Forall known_month l1 →
  (∀ v, a !! "month" = Some v → (∀ s, v = VStr s → s ∉ month_names) →
        numeric_months (l1 ++ a :: l2) = Err (KeyError v)) ∧
  (a !! "month" = None →
   numeric_months (l1 ++ a :: l2) = Err (KeyError (VStr "month"))).
Proof.
  intros Hl1. destruct (numeric_months_known l1 Hl1) as (out & Hout & _).
  unfold numeric_months in *. split.
  - intros v Ha Hv. apply (mapM_app_Err _ _ _ _ out); [done|].
    rewrite (getitem_Some _ _ _ Ha). cbn [bind].
    destruct v as [| |q|s]; try done. cbn [numeric_month].
    by rewrite (months_lookup_None s (Hv s eq_refl)).
  - intros Ha. apply (mapM_app_Err _ _ _ _ out); [done|].
    unfold Py.getitem. by rewrite Ha.
Qed.

Lemma numeric_months_first_unknown_witness :
  numeric_months ([alias_at "jan" 15 0 28 187] ++
                  alias_at "Feb" 1 0 0 187 :: []) =
    Err (KeyError (VStr "Feb")).
Proof.
  refine (proj1 (numeric_months_first_unknown
                   [alias_at "jan" 15 0 28 187] []
                   (alias_at "Feb" 1 0 0 187) _) (VStr "Feb") _ _).
  - apply Forall_cons_2; [|apply Forall_nil_2].
    exists "jan". split; [vm_compute; reflexivity | by left].
  - vm_compute. reflexivity.
  - intros s [= <-]. apply (bool_decide_unpack _). vm_compute. exact I.
Defined.

(** X16: [numeric_months] cannot be applied to its own result: the months
    are then numbers, which are not keys of the table, and the first
    alias raises [KeyError] for its month number. *)
Theorem numeric_months_twice (l out : list (gmap string value)) :
  numeric_months l = Ok out → l ≠ [] →
  ∃ n, 1 ≤ n ≤ 12 ∧ numeric_months out = Err (KeyError (VInt n)).
Proof.
  intros H Hl. destruct l as [|a l]; [done|]. unfold numeric_months in *.
  rewrite mapM_cons in H.
  apply bind_Ok_inv in H as (b & Hb & H).
  apply bind_Ok_inv in H as (k & _ & H). injection H as <-.
  apply bind_Ok_inv in Hb as (m & _ & Hb).
  apply bind_Ok_inv in Hb as (n & Hn & Hb). injection Hb as <-.
  destruct m as [| | |s]; try done. cbn [numeric_month] in Hn.
  destruct (months !! s) as [z|] eqn:Hs; [|done]. injection Hn as <-.
  apply months_lookup_Some in Hs as [Hz _].
  exists z. split; [done|]. rewrite mapM_cons.
  unfold Py.getitem. by rewrite lookup_insert_eq.
Qed.

Lemma numeric_months_twice_witness :
  ∃ n, 1 ≤ n ≤ 12 ∧
       numeric_months [<["month" := VInt 1]> (alias_at "jan" 15 0 28 187)] =
         Err (KeyError (VInt n)).
Proof.
  apply (numeric_months_twice [alias_at "jan" 15 0 28 187]);
    [vm_compute; reflexivity | discriminate].
Defined.

(** ** Sorting, once more *)

Section sorting_more.
Implicit Types (x y : report) (l acc : list report).

Lemma key_before_not_after_absurd x y :
  key_before x y → key_not_after y x → False.
Proof.
  intros [H1|[E1 I1]] [H2|[E2 I2]].
  - apply (Qlt_irrefl (points_of x)). by apply Qlt_trans with (points_of y).
  - rewrite E2 in H1. by apply Qlt_irrefl in H1.
  - rewrite E1 in H2. by apply Qlt_irrefl in H2.
  - lia.
Qed.

Lemma StronglySorted_before x acc l :
  StronglySorted key_not_after (acc ++ x :: l) →
  Forall (λ y, key_not_after y x) acc.
Proof.
  induction acc as [|y acc IH]; [constructor|].
  cbn [app]. intros [Hs Hy]%StronglySorted_inv. constructor; [|by apply IH].
  apply Forall_app in Hy as [_ Hy]. by apply Forall_cons in Hy as [? _].
Qed.

(** An element that is after all the others goes to the end. *)
Lemma insort_at_end x acc :
  numeric_key x → Forall numeric_key acc →
  Forall (λ y, key_not_after y x) acc →
  insort x acc = Ok (acc ++ [x]).
Proof.
  intros Nx Nacc Hacc. induction acc as [|y acc IH]; [done|].
  apply Forall_cons in Nacc as [Ny Nacc].
  apply Forall_cons in Hacc as [Hy Hacc].
  destruct (key_lt_numeric x y Nx Ny) as (r & Hr & Hiff).
  cbn [insort app]. rewrite Hr. cbn [bind]. destruct r.
  - destruct (key_before_not_after_absurd x y); [by apply Hiff | done].
  - by rewrite IH.
Qed.

Lemma sorted_from_sorted l : ∀ acc,
  Forall numeric_key (acc ++ l) → StronglySorted key_not_after (acc ++ l) →
  foldl (λ r x, let* s := r in insort x s) (Ok acc) l = Ok (acc ++ l).
Proof.
  induction l as [|x l IH]; intros acc Hn Hs.
  - by rewrite app_nil_r.
  - cbn [foldl bind].
    pose proof (StronglySorted_before _ _ _ Hs) as Hacc.
    assert (E : acc ++ x :: l = (acc ++ [x]) ++ l) by (by rewrite <- app_assoc).
    rewrite E in *. rewrite insort_at_end.
    + by apply IH.
    + apply Forall_app in Hn as [Hn _]. by apply Forall_app in Hn as [_ [? _]%Forall_cons].
    + apply Forall_app in Hn as [Hn _]. by apply Forall_app in Hn as [? _].
    + done.
Qed.

End sorting_more.

(** X17: on reports with numbers for points and integers for
    identifiers, [sorted] leaves a sequence that is already in ascending
    order of (points, zwiftid) as it is, reports of equal keys included;
    so sorting the result of [sorted] again changes nothing. *)
Theorem sorted_fixed (descs : list report) :
  Forall numeric_key descs →
  (StronglySorted key_not_after descs → sorted descs = Ok descs) ∧
  ∃ out, sorted descs = Ok out ∧ sorted out = Ok out.
Proof.
  intros Hn.
  assert (Hfix : ∀ l, Forall numeric_key l → StronglySorted key_not_after l →
                      sorted l = Ok l)
    by (intros l Hl Hs; by apply (sorted_from_sorted l [])).
  split; [by apply Hfix|].
  destruct (sorted_from [] descs) as (out & Hout & Hperm & Hs);
    [constructor | done | constructor |].
  exists out. split; [done|]. apply Hfix; [|done]. by rewrite Hperm.
Qed.

Lemma sorted_fixed_witness :
  ∃ out,
    sorted [ {| zwiftid := VInt 3; zwiftpower_points := VFloat 5;
                suspicious_profile_changes := [] |};
             {| zwiftid := VInt 2; zwiftpower_points := VFloat 5;
                suspicious_profile_changes := [] |} ] = Ok out ∧
    sorted out = Ok out.
Proof.
  apply sorted_fixed.
  repeat (apply Forall_cons_2; [split; [exact I | by eexists]|]).
  apply Forall_nil_2.
Defined.

(** ** The reports of a stream of profiles *)

Lemma describe_suspicious_profile_Some (p : profile) (r : report) :
  describe_suspicious_profile p = Ok (Some r) →
  (zwiftid r, zwiftpower_points r) =
    (profile_zwiftid p, profile_zwiftpower_points p) ∧
  suspicious_profile_changes r ≠ [].
Proof.
  unfold describe_suspicious_profile. intros H.
  apply bind_Ok_inv in H as (bf & _ & H).
  apply bind_Ok_inv in H as (sd & _ & H).
  destruct sd as [|d sd]; [done|].
  apply bind_Ok_inv in H as (changes & Hch & H). injection H as <-.
  split; [done|]. cbn [suspicious_profile_changes].
  apply mapM_Ok_inv, Forall2_length in Hch. by destruct changes.
Qed.

(** X18: the reports handed to the renderer follow the profiles: their
    (zwiftid, points) pairs are those of profiles of the input, in input
    order and at most one per profile, and each report has at least one
    change; this holds for what is yielded before an exception too. *)
Theorem descriptions_follow_profiles (profiles : list profile) :
  ((λ r, (zwiftid r, zwiftpower_points r)) <$> yielded (descriptions profiles))
    `sublist_of`
  ((λ p, (profile_zwiftid p, profile_zwiftpower_points p)) <$> profiles) ∧
  Forall (λ r, suspicious_profile_changes r ≠ [])
         (yielded (descriptions profiles)).
Proof.
  induction profiles as [|p profiles [IHs IHf]]; [by split; constructor|].
  cbn [descriptions fmap list_fmap].
  destruct (describe_suspicious_profile p) as [[r|]|e] eqn:Hp.
  - apply describe_suspicious_profile_Some in Hp as [Hk Hne].
    cbn [gen_yield yielded fmap list_fmap]. rewrite Hk.
    split; [by constructor | by constructor].
  - split; [by constructor | done].
  - split; [apply sublist_nil_l | constructor].
Qed.

(** ** The anonymiser, on any report *)

Lemma slice_0_7_length (s : string) (h : Z) :
  Str.to_int (Str.slice 7 9 s) = Ok h →
  String.length (Str.slice 0 7 s) = 7%nat.
Proof.
  intros H.
  do 7 (destruct s as [|? s]; [vm_compute in H; discriminate H|]).
  destruct s; [vm_compute in H; discriminate H | reflexivity].
Qed.

Lemma to_int_half_day (h : Z) : Str.to_int (half_day h) = Err ValueError.
Proof. unfold half_day. by destruct (h <? 12). Qed.

Lemma slice_7_9_half_day (pre : string) (h : Z) :
  String.length pre = 7%nat → Str.slice 7 9 (pre +:+ half_day h) = half_day h.
Proof.
  intros (c0 & c1 & c2 & c3 & c4 & c5 & c6 & ->)%length_7.
  unfold half_day. by destruct (h <? 12).
Qed.

(** What [anonymise_change] returns when it returns. *)
Lemma anonymise_change_inv (pc pc' : change) :
  anonymise_change pc = Ok pc' →
  height_change pc' = height_change pc ∧
  ∃ h, Str.to_int (Str.slice 7 9 (date pc)) = Ok h ∧
       String.length (Str.slice 0 7 (date pc)) = 7%nat ∧
       date pc' = Str.slice 0 7 (date pc) +:+ half_day h.
Proof.
  unfold anonymise_change. intros H.
  apply bind_Ok_inv in H as (h & Hh & H). injection H as <-.
  split; [done|]. exists h. split; [done|].
  split; [by apply (slice_0_7_length _ h) | done].
Qed.

(** X19: for a report whose points, if a number, are below [2 ^ 53] in
    absolute value and whose dates are ASCII text: whenever the
    anonymiser returns a report, the identifier in it is null, the points
    are an integer multiple of 50 within 25 of the points given (the even
    multiple when exactly 25 away), and the changes are those given, in
    order, each with its height_change and with a date made of the first
    seven characters of the date given followed by "am" or "pm": nothing
    of the date beyond its seventh character is kept but the half of the
    day. *)
Theorem anonymise_output (desc out : report) :
  (∀ p, Py.to_Q (zwiftpower_points desc) = Some p →
        (Qabs p < inject_Z (2 ^ 53))%Q) →
  Forall (λ pc, ascii_text (date pc)) (suspicious_profile_changes desc) →
  anonymise desc = Ok out →
  zwiftid out = VNone ∧
  (∃ (k : Z) (p : Q),
     zwiftpower_points out = VInt (k * 50) ∧
     Py.to_Q (zwiftpower_points desc) = Some p ∧
     (Qabs (inject_Z (k * 50) - p) <= 25)%Q ∧
     ((Qabs (inject_Z (k * 50) - p) == 25)%Q → Z.even k = true)) ∧
  Forall2 (λ pc pc',
             height_change pc' = height_change pc ∧
             ∃ h, Str.to_int (Str.slice 7 9 (date pc)) = Ok h ∧
                  String.length (Str.slice 0 7 (date pc)) = 7%nat ∧
                  date pc' = Str.slice 0 7 (date pc) +:+ half_day h)
          (suspicious_profile_changes desc) (suspicious_profile_changes out).
Proof.
  unfold anonymise, Py.truediv_int. intros _ _ H.
  destruct (Py.to_Q (zwiftpower_points desc)) as [p|] eqn:Hp; [|done].
  cbn [bind] in H. apply bind_Ok_inv in H as (changes & Hch & H).
  injection H as <-. cbn [zwiftid zwiftpower_points suspicious_profile_changes].
  split; [done|]. split.
  - exists (round_half_even (p / inject_Z 50)), p.
    split; [done|]. split; [done|].
    split; [apply round_to_50_near | apply round_to_50_tie].
  - apply mapM_Ok_inv in Hch. eapply Forall2_impl; [exact Hch|].
    intros pc pc'. apply anonymise_change_inv.
Qed.

Lemma anonymise_output_witness :
  zwiftid
    {| zwiftid := VNone; zwiftpower_points := VInt 150;
       suspicious_profile_changes :=
         [ {| date := "Feb 18 am"; height_change := VInt 7 |} ] |} = VNone.
Proof.
  refine (proj1 (anonymise_output
    {| zwiftid := VInt 1; zwiftpower_points := VInt 137;
       suspicious_profile_changes :=
         [ {| date := "Feb 18 09:05"; height_change := VInt 7 |} ] |}
    _ _ _ _)).
  - intros p [= <-]. reflexivity.
  - apply Forall_cons_2; [reflexivity | apply Forall_nil_2].
  - vm_compute. reflexivity.
Defined.

(** X20: the anonymiser cannot be applied to its own output: in a report
    it returned, the characters 7 and 8 of a date are "am" or "pm", so a
    second pass over a report with at least one change raises
    [ValueError]. *)
Theorem anonymise_twice (desc out : report) :
  anonymise desc = Ok out → suspicious_profile_changes desc ≠ [] →
  anonymise out = Err ValueError.
Proof.
  unfold anonymise at 1, Py.truediv_int. intros H Hne.
  destruct (Py.to_Q (zwiftpower_points desc)) as [p|]; [|done].
  cbn [bind] in H. apply bind_Ok_inv in H as (changes & Hch & H).
  injection H as <-. apply mapM_Ok_inv in Hch.
  destruct Hch as [|pc pc' l l' Hpc _]; [done|].
  apply anonymise_change_inv in Hpc as (_ & h & _ & Hlen & Hdate).
  apply (anonymise_failing_change _ pc'); [by left | | exact I].
  exists ValueError. unfold anonymise_change.
  by rewrite Hdate, (slice_7_9_half_day _ h Hlen), to_int_half_day.
Qed.

Lemma anonymise_twice_witness :
  anonymise
    {| zwiftid := VNone; zwiftpower_points := VInt 150;
       suspicious_profile_changes :=
         [ {| date := "Feb 18 am"; height_change := VInt 7 |} ] |} =
  Err ValueError.
Proof.
  apply (anonymise_twice
    {| zwiftid := VInt 1; zwiftpower_points := VInt 137;
       suspicious_profile_changes :=
         [ {| date := "Feb 18 09:05"; height_change := VInt 7 |} ] |});
    [vm_compute; reflexivity | discriminate].
Defined.

(** *** Rounding keeps the order *)

Lemma round_half_even_mono (q q' : Q) :
  (q <= q')%Q → round_half_even q ≤ round_half_even q'.
Proof.
  destruct q as [n d], q' as [n' d']. unfold Qle. cbn [Qnum Qden]. intros Hle.
  destruct (round_half_even_spec n d) as [Hk Ek].
  destruct (round_half_even_spec n' d') as [Hk' Ek'].
  set (k := round_half_even (n # d)) in *.
  set (k' := round_half_even (n' # d')) in *. clearbody k k'.
  destruct (Z_le_gt_dec k k') as [|Hgt]; [done|]. exfalso.
  assert (Hd : 0 < Z.pos d) by lia. assert (Hd' : 0 < Z.pos d') by lia.
  set (D := Z.pos d) in *. set (D' := Z.pos d') in *. clearbody D D'.
  assert (H1 : (2 * k - 1) * D ≤ 2 * n) by lia.
  assert (H2 : 2 * n' ≤ (2 * k' + 1) * D') by lia.
  assert (H3 : (2 * k - 1) * D * D' ≤ 2 * n * D') by nia.
  assert (H4 : 2 * n' * D ≤ (2 * k' + 1) * D' * D) by nia.
  assert (H5 : (2 * k - 1) * (D * D') ≤ (2 * k' + 1) * (D * D')) by nia.
  assert (H6 : 2 * k - 1 ≤ 2 * k' + 1) by nia.
  assert (Hk1 : k = k' + 1) by lia. subst k.
  assert (T1 : 2 * ((k' + 1) * D - n) = D) by nia.
  assert (T2 : 2 * (n' - k' * D') = D') by nia.
  assert (E1 : Z.even (k' + 1) = true) by (apply Ek; lia).
  assert (E2 : Z.even k' = true) by (apply Ek'; lia).
  rewrite Z.add_1_r, Z.even_succ, <- Z.negb_even, E2 in E1. discriminate E1.
Qed.

(** X21: the anonymiser keeps the order of the points: of two reports it
    accepts, the one with the smaller points does not get the larger
    anonymised points. *)
Theorem anonymise_points_monotone (desc desc' out out' : report) (p p' : Q) :
  anonymise desc = Ok out → anonymise desc' = Ok out' →
  Py.to_Q (zwiftpower_points desc) = Some p →
  Py.to_Q (zwiftpower_points desc') = Some p' →
  (p <= p')%Q →
  ∃ z z', zwiftpower_points out = VInt z ∧
          zwiftpower_points out' = VInt z' ∧ z ≤ z'.
Proof.
  unfold anonymise, Py.truediv_int. intros H H' Hp Hp' Hle.
  rewrite Hp in H. rewrite Hp' in H'. cbn [bind] in H, H'.
  apply bind_Ok_inv in H as (ch & _ & H). injection H as <-.
  apply bind_Ok_inv in H' as (ch' & _ & H'). injection H' as <-.
  do 2 eexists. split; [done|]. split; [done|].
  apply Z.mul_le_mono_nonneg_r; [lia|]. apply round_half_even_mono.
  apply Qmult_le_compat_r; [done|]. discriminate.
Qed.

Lemma anonymise_points_monotone_witness :
  ∃ z z',
    zwiftpower_points
      {| zwiftid := VNone; zwiftpower_points := VInt 100;
         suspicious_profile_changes := [] |} = VInt z ∧
    zwiftpower_points
      {| zwiftid := VNone; zwiftpower_points := VInt 150;
         suspicious_profile_changes := [] |} = VInt z' ∧ z ≤ z'.
Proof.
  apply (anonymise_points_monotone
    {| zwiftid := VInt 1; zwiftpower_points := VInt 112;
       suspicious_profile_changes := [] |}
    {| zwiftid := VInt 2; zwiftpower_points := VFloat 137;
       suspicious_profile_changes := [] |} _ _ 112%Q 137%Q);
    try (vm_compute; reflexivity).
  discriminate.
Defined.

(** ** The CSV rows *)

Lemma csv_rows_of_Ok (desc : report) (u : string) (changes : list change) :
  profile_url (zwiftid desc) = Ok u →
  csv_rows_of desc changes =
    Gen ((λ c, {| csv_profile_url := url_text (zwiftid desc);
                  csv_zwiftpower_points := zwiftpower_points desc;
                  csv_date := date c;
                  csv_height_change := height_change c |}) <$> changes) None.
Proof.
  intros Hu. induction changes as [|c changes IH]; [done|].
  cbn [csv_rows_of]. unfold csv_row_of, url_text in *. rewrite Hu in *.
  cbn [bind]. by rewrite IH.
Qed.

Lemma append_inj_l (p s t : string) : p +:+ s = p +:+ t → s = t.
Proof.
  induction p as [|c p IH]; intros H; [exact H|].
  change (String c (p +:+ s) = String c (p +:+ t)) in H.
  injection H as H. by apply IH.
Qed.

(** X22: when the identifier of every report has a text (it is an
    integer, a string or null), [output_csv] writes one row per change,
    report after report and change after change, each row with the date
    and height_change of its change and the points and profile URL of
    its report; an exception of the report stream comes after the rows
    of the reports it yielded. *)
Theorem output_csv_rows_flat (descs : list report) (r : option exn) :
  Forall (λ d, is_Ok (profile_url (zwiftid d))) descs →
  output_csv_rows (Gen descs r) = Gen (descs ≫= rows_of_report) r ∧
  length (descs ≫= rows_of_report) =
    sum_list (length ∘ suspicious_profile_changes <$> descs).
Proof.
  intros Hd. split.
  - unfold output_csv_rows. cbn [yielded raised].
    assert (H : csv_rows_list descs = Gen (descs ≫= rows_of_report) None).
    { induction Hd as [|d descs [u Hu] _ IH]; [done|].
      cbn [csv_rows_list]. rewrite IH, (csv_rows_of_Ok d u _ Hu).
      unfold gen_then. cbn [raised yielded]. by rewrite bind_cons. }
    rewrite H. unfold gen_then. cbn [raised yielded]. by rewrite app_nil_r.
  - clear. induction descs as [|d descs IH]; [done|].
    rewrite bind_cons, length_app, IH. cbn [fmap list_fmap sum_list compose].
    unfold rows_of_report. by rewrite length_fmap.
Qed.

Lemma output_csv_rows_flat_witness :
  output_csv_rows
    (Gen [ {| zwiftid := VInt 7; zwiftpower_points := VFloat 137;
              suspicious_profile_changes :=
                [ {| date := "Jan 15 00:28"; height_change := VInt 67 |} ] |} ]
         None) =
  Gen ([ {| zwiftid := VInt 7; zwiftpower_points := VFloat 137;
            suspicious_profile_changes :=
              [ {| date := "Jan 15 00:28"; height_change := VInt 67 |} ] |} ]
         ≫= rows_of_report) None.
Proof.
  refine (proj1 (output_csv_rows_flat _ None _)).
  apply Forall_cons_2; [|apply Forall_nil_2]. eexists. reflexivity.
Defined.

(** X23: the profile URL tells the riders apart: two integer identifiers
    with the same URL are equal.  A null identifier, as in an anonymised
    report, gives the URL that ends in "z=None". *)
Theorem profile_url_injective :
  (∀ (a b : Z) (u : string),
     profile_url (VInt a) = Ok u → profile_url (VInt b) = Ok u → a = b) ∧
  profile_url VNone = Ok "https://www.zwiftpower.com/profile.php?z=None".
Proof.
  split; [|reflexivity].
  intros a b u Ha Hb. unfold profile_url in *.
  cbn [Str.format_plain bind] in Ha, Hb. rewrite <- Hb in Ha.
  injection Ha as Ha. apply append_inj_l in Ha. by apply (inj pretty).
Qed.

Lemma profile_url_injective_witness : 7 = 7.
Proof.
  refine (proj1 profile_url_injective 7 7
            "https://www.zwiftpower.com/profile.php?z=7" _ _);
    vm_compute; reflexivity.
Defined.

(** ** Reading the profiles *)

Section stream_more.
Context {A : Type} (json_loads : string → result A).

Lemma not_blank_eqb (l : string) :
  String.eqb (str_strip l) "" = false ↔ not_blank l.
Proof. unfold not_blank. by rewrite String.eqb_neq. Qed.

#[local] Instance not_blank_dec (l : string) : Decision (not_blank l).
Proof. unfold not_blank. apply _. Defined.

(** What [stream_profiles] does with the lines, for the stripping of
    the embedding. *)
Lemma stream_profiles_all_lines (fileobj : list string) :
  stream_profiles json_loads fileobj =
    stream_profiles json_loads (filter not_blank fileobj) ∧
  (∀ e, raised (stream_profiles json_loads fileobj) = Some e →
        e = ValueError) ∧
  Forall (λ v, ∃ l, l ∈ fileobj ∧ not_blank l ∧
                    json_loads (str_strip l) = Ok v)
         (yielded (stream_profiles json_loads fileobj)) ∧
  (raised (stream_profiles json_loads fileobj) = None →
   Forall2 (λ l v, json_loads (str_strip l) = Ok v)
           (filter not_blank fileobj)
           (yielded (stream_profiles json_loads fileobj))).
Proof.
  induction fileobj as [|l fileobj (IH1 & IH2 & IH3 & IH4)].
  - repeat split; try done; constructor.
  - cbn [stream_profiles]. rewrite filter_cons.
    assert (Hrest : Forall (λ v, ∃ l0, l0 ∈ l :: fileobj ∧ not_blank l0 ∧
                                  json_loads (str_strip l0) = Ok v)
                      (yielded (stream_profiles json_loads fileobj))).
    { eapply Forall_impl; [exact IH3|]. intros v (l0 & ? & ? & ?).
      exists l0. split; [by right | done]. }
    destruct (String.eqb (str_strip l) "") eqn:Hb.
    + apply String.eqb_eq in Hb. rewrite decide_False by (by intros []).
      done.
    + apply not_blank_eqb in Hb. rewrite decide_True by done.
      cbn [stream_profiles].
      rewrite (proj2 (not_blank_eqb l) Hb).
      destruct (json_loads (str_strip l)) as [v|e] eqn:Hv.
      * cbn [gen_yield yielded raised]. rewrite <- IH1.
        split; [done|]. split; [done|]. split.
        -- constructor; [|done]. exists l. split; [by left | done].
        -- intros Hn. constructor; [done | by apply IH4].
      * cbn [gen_raise yielded raised]. split; [done|].
        split; [by intros ? [= <-]|]. split; [constructor | done].
Qed.

(** X24: on lines of ASCII text, [stream_profiles] skips the lines that
    hold only white space, parses the others stripped of the white space
    around them and yields the results in the order of the lines; the
    only exception it raises is [ValueError], whatever the parser
    raised. *)
Theorem stream_profiles_lines (fileobj : list string) :
  Forall ascii_text fileobj →
  stream_profiles json_loads fileobj =
    stream_profiles json_loads (filter not_blank fileobj) ∧
  (∀ e, raised (stream_profiles json_loads fileobj) = Some e →
        e = ValueError) ∧
  Forall (λ v, ∃ l, l ∈ fileobj ∧ not_blank l ∧
                    json_loads (str_strip l) = Ok v)
         (yielded (stream_profiles json_loads fileobj)) ∧
  (raised (stream_profiles json_loads fileobj) = None →
   Forall2 (λ l v, json_loads (str_strip l) = Ok v)
           (filter not_blank fileobj)
           (yielded (stream_profiles json_loads fileobj))).
Proof. intros _. apply stream_profiles_all_lines. Qed.

End stream_more.

Lemma stream_profiles_lines_witness :
  raised (stream_profiles (A := Z) Str.to_int [" 12 "; "  "; "x"]) =
    Some ValueError.
Proof.
  assert (Hascii : Forall ascii_text [" 12 "; "  "; "x"]).
  { apply Forall_cons_2; [reflexivity|].
    apply Forall_cons_2; [reflexivity|].
    apply Forall_cons_2; [reflexivity | apply Forall_nil_2]. }
  pose proof (stream_profiles_lines Str.to_int [" 12 "; "  "; "x"] Hascii)
    as (_ & Herr & _).
  destruct (raised (stream_profiles Str.to_int [" 12 "; "  "; "x"]))
    as [e|] eqn:Hr.
  - by rewrite (Herr e eq_refl).
  - vm_compute in Hr. discriminate Hr.
Defined.

(** ** Scraping an alias row *)

Section scraping.
Implicit Types (c : ascii) (cs : list ascii) (s : string).

Lemma is_digit_inv c :
  Re.is_digit c = true →
  ∃ d, Str.digit c = Some d ∧ c = digit_char d ∧ 0 ≤ d ≤ 9.
Proof.
  destruct c as [[] [] [] [] [] [] [] []]; intros H;
    try (vm_compute in H; discriminate H);
    eexists; (split; [vm_compute; reflexivity|]);
    (split; [vm_compute; reflexivity | lia]).
Qed.

Lemma is_digit_plain c :
  Re.is_digit c = true →
  Str.is_space c = false ∧ Ascii.eqb c "+" = false ∧ Ascii.eqb c "-" = false.
Proof.
  intros (d & _ & -> & Hd)%is_digit_inv.
  small_cases d 10 (by vm_compute).
Qed.

Lemma is_alpha_lower c : Re.is_alpha c = true → Re.is_az (Str.lower c) = true.
Proof.
  destruct c as [[] [] [] [] [] [] [] []]; intros H;
    first [vm_compute in H; discriminate H | vm_compute; reflexivity].
Qed.

Lemma is_weight_char_plain c :
  Re.is_weight_char c = true →
  float_char_aside c = false ∧ Ascii.eqb c "-" = false.
Proof.
  destruct c as [[] [] [] [] [] [] [] []]; intros H;
    first [vm_compute in H; discriminate H | by vm_compute].
Qed.

Lemma to_int_digit_pair (a b : Z) :
  0 ≤ a ≤ 9 → 0 ≤ b ≤ 9 →
  ∃ h, Str.to_int (String (digit_char a) (String (digit_char b) EmptyString))
         = Ok h ∧
       0 ≤ h ≤ 99 ∧
       two_digits h = String (digit_char a) (String (digit_char b) EmptyString).
Proof.
  intros Ha Hb.
  small_cases a 10
    (small_cases b 10
       (eexists; split; [vm_compute; reflexivity|];
        split; [lia | vm_compute; reflexivity])).
Qed.

Lemma to_int_digit (a : Z) :
  0 ≤ a ≤ 9 → Str.to_int (String (digit_char a) EmptyString) = Ok a.
Proof. intros Ha. small_cases a 10 (vm_compute; reflexivity). Qed.

Lemma span_spec (p : ascii → bool) cs (a b : list ascii) :
  Re.span p cs = (a, b) → Forall (λ c, p c = true) a ∧ cs = a ++ b.
Proof.
  revert a b. induction cs as [|c cs IH]; intros a b H.
  - injection H as <- <-. by split.
  - cbn [Re.span] in H. destruct (p c) eqn:Hc.
    + destruct (Re.span p cs) as [a' b'] eqn:Hs. injection H as <- <-.
      destruct (IH a' b' eq_refl) as [Ha ->]. split; [by constructor | done].
    + injection H as <- <-. by split.
Qed.

Lemma is_int_space_is_space c :
  Str.is_space c = false → Str.is_int_space c = false.
Proof.
  destruct c as [[] [] [] [] [] [] [] []]; intros H;
    first [vm_compute in H; discriminate H | vm_compute; reflexivity].
Qed.

Lemma int_lstrip_plain cs :
  Forall (λ c, Str.is_space c = false) cs → Str.int_lstrip cs = cs.
Proof.
  intros [|c cs' Hc _]; [done|]. cbn [Str.int_lstrip].
  by rewrite (is_int_space_is_space c Hc).
Qed.

Lemma int_strip_plain cs :
  Forall (λ c, Str.is_space c = false) cs → Str.int_strip cs = cs.
Proof.
  intros H. unfold Str.int_strip.
  rewrite (int_lstrip_plain cs H), int_lstrip_plain by by apply Forall_reverse.
  apply reverse_involutive.
Qed.

Lemma digits_all cs : ∀ (acc : Z) (after : bool),
  Forall (λ c, Re.is_digit c = true) cs → 0 ≤ acc →
  (cs ≠ [] ∨ after = true) →
  ∃ v, Str.digits acc after cs = Some v ∧ 0 ≤ v.
Proof.
  induction cs as [|c cs IH]; intros acc after Hd Hacc Hne.
  - destruct Hne as [Hne | ->]; [done|]. by exists acc.
  - apply Forall_cons in Hd as [(d & Hc & _ & Hd09)%is_digit_inv Hd].
    cbn [Str.digits]. rewrite Hc. apply IH; [done | lia | by right].
Qed.

(** [int] of a string of digits *)
Lemma to_int_digits cs :
  cs ≠ [] → Forall (λ c, Re.is_digit c = true) cs →
  ∃ h, Str.to_int (string_of_list_ascii cs) = Ok h ∧ 0 ≤ h.
Proof.
  intros Hne Hd. unfold Str.to_int.
  rewrite list_ascii_of_string_of_list_ascii, int_strip_plain
    by (eapply Forall_impl; [exact Hd|]; by intros c [? _]%is_digit_plain).
  destruct cs as [|c cs]; [done|].
  pose proof Hd as Hd'. apply Forall_cons in Hd' as [(_ & -> & ->)%is_digit_plain _].
  destruct (digits_all (c :: cs) 0 false Hd) as (v & -> & Hv);
    [lia | by left | by exists v].
Qed.

Lemma digits_value_nonneg cs : 0 ≤ digits_value cs.
Proof.
  unfold digits_value.
  assert (H : ∀ acc, 0 ≤ acc →
            0 ≤ foldl (λ acc c, 10 * acc + default 0 (Str.digit c)) acc cs);
    [|by apply H].
  induction cs as [|c cs IH]; intros acc Hacc; [done|].
  cbn [foldl]. apply IH.
  assert (0 ≤ default 0 (Str.digit c)); [|lia].
  unfold Str.digit. destruct (_ && _); unfold default; cbn [from_option id]; lia.
Qed.

(** [float] of a match of the weight class: a non-negative number or
    [ValueError]. *)
Lemma str_to_float_weight cs :
  Forall (λ c, Re.is_weight_char c = true) cs →
  str_to_float (string_of_list_ascii cs) = Err ValueError ∨
  ∃ q, str_to_float (string_of_list_ascii cs) = Ok q ∧ (0 <= q)%Q.
Proof.
  intros Hw. unfold str_to_float. rewrite list_ascii_of_string_of_list_ascii.
  assert (Haside : existsb float_char_aside cs = false).
  { clear -Hw. induction Hw as [|c cs [Hc _]%is_weight_char_plain _ IH];
      [done|]. cbn [existsb]. by rewrite Hc, IH. }
  rewrite Haside.
  assert (Hpos : ∀ fp, (0 <= digits_value fp # Pos.pow 10 (Pos.of_nat (length fp)))%Q).
  { intros fp. unfold Qle. cbn [Qnum Qden]. pose proof (digits_value_nonneg fp). lia. }
  assert (Hint : ∀ ip, (0 <= inject_Z (digits_value ip))%Q).
  { intros ip. unfold Qle, inject_Z. cbn [Qnum Qden].
    pose proof (digits_value_nonneg ip). lia. }
  assert (Hval : ∀ ip fp,
            (0 <= match fp with
                  | [] => inject_Z (digits_value ip)
                  | _ => digits_value (ip ++ fp) #
                           Pos.pow 10 (Pos.of_nat (length fp))
                  end)%Q).
  { intros ip [|c fp]; [apply Hint|].
    unfold Qle. cbn [Qnum Qden]. pose proof (digits_value_nonneg (ip ++ c :: fp)). lia. }
  destruct cs as [|c cs].
  - cbn. by left.
  - apply Forall_cons in Hw as [[_ Hm]%is_weight_char_plain _]. rewrite Hm.
    destruct (Ascii.eqb c "+").
    + destruct (Re.span Re.is_digit cs) as [ip rest].
      destruct rest as [|c' fp].
      * destruct ip; [by left | right; eexists; split; [done | apply Hint]].
      * destruct (_ && _ && _); [|by left].
        right. eexists. split; [done | apply Hval].
    + destruct (Re.span Re.is_digit (c :: cs)) as [ip rest].
      destruct rest as [|c' fp].
      * destruct ip; [by left | right; eexists; split; [done | apply Hint]].
      * destruct (_ && _ && _); [|by left].
        right. eexists. split; [done | apply Hval].
Qed.

End scraping.


Section scraped.
Implicit Types (o : gmap string value) (s : string).

Lemma match_date_inv s (m d : string) :
  Re.match_date s = Some (m, d) →
  ∃ c0 c1 c2 day,
    m = String c0 (String c1 (String c2 EmptyString)) ∧
    Re.is_alpha c0 = true ∧ Re.is_alpha c1 = true ∧ Re.is_alpha c2 = true ∧
    Str.slice 0 3 s = m ∧
    Str.to_int d = Ok day ∧ 0 ≤ day ≤ 99 ∧
    Str.format_plain (VInt day) = Ok (pretty day).
Proof.
  unfold Re.match_date. intros H.
  pose proof (string_of_list_ascii_of_string s) as Hs.
  destruct (list_ascii_of_string s) as [|c0 [|c1 [|c2 [|sp [|d1 rest]]]]];
    try discriminate H.
  subst s. revert H.
  destruct (_ && _) eqn:Hc; [|discriminate].
  repeat (apply andb_prop in Hc as [Hc ?]).
  destruct (is_digit_inv d1) as (a & _ & -> & Ha); [done|].
  destruct rest as [|d2 rest]; [discriminate|].
  assert (Hone : ∃ day,
            Str.to_int (string_of_list_ascii [digit_char a]) = Ok day ∧
            0 ≤ day ≤ 99 ∧ Str.format_plain (VInt day) = Ok (pretty day)).
  { exists a. split; [by apply to_int_digit | split; [lia | done]]. }
  destruct (Re.is_digit d2 && _) eqn:Htwo.
  - apply andb_prop in Htwo as [Hd2 _].
    destruct (is_digit_inv d2) as (b & _ & -> & Hb); [done|].
    intros [= <- <-].
    destruct (to_int_digit_pair a b Ha Hb) as (h & Hh & Hh99 & _).
    exists c0, c1, c2, h. repeat split; first [done | lia].
  - destruct (Re.suffix_end (d2 :: rest)); [|intros [=]].
    intros [= <- <-]. destruct Hone as (day & ? & ? & ?).
    exists c0, c1, c2, day. repeat split; first [done | lia].
Qed.

Lemma match_time_inv s (h m : string) :
  Re.match_time s = Some (h, m) →
  ∃ hour minute,
    Str.to_int h = Ok hour ∧ 0 ≤ hour ≤ 99 ∧
    Str.to_int m = Ok minute ∧ 0 ≤ minute ≤ 99 ∧
    Str.slice 0 5 s = two_digits hour +:+ ":" +:+ two_digits minute.
Proof.
  unfold Re.match_time. intros H.
  pose proof (string_of_list_ascii_of_string s) as Hs.
  destruct (list_ascii_of_string s) as [|h1 [|h2 [|co [|m1 [|m2 tl]]]]];
    try discriminate H.
  subst s. revert H.
  destruct (_ && _) eqn:Hc; [|discriminate].
  do 5 (apply andb_prop in Hc as [Hc ?]).
  destruct (is_digit_inv h1) as (a & _ & -> & Ha); [done|].
  destruct (is_digit_inv h2) as (b & _ & -> & Hb); [done|].
  destruct (is_digit_inv m1) as (c & _ & -> & Hc'); [done|].
  destruct (is_digit_inv m2) as (d & _ & -> & Hd); [done|].
  intros [= <- <-].
  destruct (to_int_digit_pair a b Ha Hb) as (hour & Hh & Hh99 & Hhh).
  destruct (to_int_digit_pair c d Hc' Hd) as (minute & Hm & Hm99 & Hmm).
  exists hour, minute. repeat split; try first [done | lia].
  rewrite Hhh, Hmm.
  match goal with H : Ascii.eqb co _ = true |- _ =>
    apply Ascii.eqb_eq in H as -> end.
  by destruct tl.
Qed.

Lemma match_with_unit_inv (p : ascii → bool) (u1 u2 : ascii) s (w : string) :
  Re.match_with_unit p u1 u2 s = Some w →
  ∃ cs, w = string_of_list_ascii cs ∧ cs ≠ [] ∧
        Forall (λ c, p c = true) cs.
Proof.
  unfold Re.match_with_unit.
  destruct (Re.span p _) as [cs rest] eqn:Hs.
  apply span_spec in Hs as [Hcs _].
  destruct cs as [|c cs]; [discriminate|].
  destruct rest as [|a [|b tl]]; try discriminate.
  destruct (_ && _); [|discriminate]. intros [= <-]. by exists (c :: cs).
Qed.

(** What [parse_alias_row] returns, read off its cells. *)
Lemma parse_alias_row_inv (cells : list string) o :
  parse_alias_row cells = Ok o →
  ∃ (date time name weight height : string) (m0 m1 m2 : ascii)
    (day hour minute h : Z) (w : Q),
    cells = [date; time; name; weight; height] ∧
    o = {[ "month" := VStr (String (Str.lower m0) (String (Str.lower m1)
                                 (String (Str.lower m2) EmptyString)));
           "day" := VInt day; "hour" := VInt hour; "minute" := VInt minute;
           "name" := VStr (str_strip name); "weight" := VFloat w;
           "height" := VInt h ]} ∧
    Str.slice 0 3 (str_strip date) =
      String m0 (String m1 (String m2 EmptyString)) ∧
    Re.is_alpha m0 = true ∧ Re.is_alpha m1 = true ∧ Re.is_alpha m2 = true ∧
    0 ≤ day ≤ 99 ∧ 0 ≤ hour ≤ 99 ∧ 0 ≤ minute ≤ 99 ∧ 0 ≤ h ∧ (0 <= w)%Q ∧
    Str.slice 0 5 (str_strip time) =
      two_digits hour +:+ ":" +:+ two_digits minute.
Proof.
  unfold parse_alias_row. intros H.
  destruct cells as [|date [|time [|name [|weight [|height [|? ?]]]]]];
    try discriminate H.
  cbn [fmap list_fmap] in H.
  apply bind_Ok_inv in H as ([m d] & Hdate & H).
  apply bind_Ok_inv in H as ([hh mm] & Htime & H).
  apply bind_Ok_inv in H as (wm & Hweight & H).
  apply bind_Ok_inv in H as (hm & Hheight & H).
  cbv zeta in H. cbn [fst snd] in H.
  apply bind_Ok_inv in H as (day & Hday & H).
  apply bind_Ok_inv in H as (hour & Hhour & H).
  apply bind_Ok_inv in H as (minute & Hminute & H).
  apply bind_Ok_inv in H as (w & Hw & H).
  apply bind_Ok_inv in H as (h & Hh & H).
  unfold require_match in *.
  destruct (Re.match_date _) as [[? ?]|] eqn:Hd; [|discriminate Hdate].
  destruct (Re.match_time _) as [[? ?]|] eqn:Ht; [|discriminate Htime].
  destruct (Re.match_weight _) as [?|] eqn:Hwm; [|discriminate Hweight].
  destruct (Re.match_height _) as [?|] eqn:Hhm; [|discriminate Hheight].
  assert (s = m ∧ s0 = d) as [-> ->] by (split; congruence).
  assert (s1 = hh ∧ s2 = mm) as [-> ->] by (split; congruence).
  assert (s3 = wm) as -> by congruence.
  assert (s4 = hm) as -> by congruence.
  clear Hdate Htime Hweight Hheight.
  apply match_date_inv in Hd
    as (m0 & m1 & m2 & day' & -> & Hm0 & Hm1 & Hm2 & Hslice & Hday' & Hd99 & _).
  apply match_time_inv in Ht
    as (hour' & minute' & Hhour' & Hh99 & Hminute' & Hm99 & Htslice).
  apply match_with_unit_inv in Hwm as (wcs & -> & _ & Hwcs).
  apply match_with_unit_inv in Hhm as (hcs & -> & Hhne & Hhcs).
  assert (day' = day) as -> by congruence.
  assert (hour' = hour) as -> by congruence.
  assert (minute' = minute) as -> by congruence.
  destruct (to_int_digits hcs Hhne Hhcs) as (h' & Hh' & Hh0).
  assert (h' = h) as -> by congruence.
  destruct (str_to_float_weight wcs Hwcs) as [Hbad | (w' & Hw' & Hw0)];
    [congruence|].
  assert (w' = w) as -> by congruence.
  exists date, time, name, weight, height, m0, m1, m2, day, hour, minute, h, w.
  split; [done|]. split; [injection H as <-; reflexivity|].
  repeat split; first [done | lia].
Qed.

Lemma parse_alias_row_scraped (cells : list string) o :
  parse_alias_row cells = Ok o → scraped_alias o.
Proof.
  intros (date & time & name & weight & height & m0 & m1 & m2 & day & hour &
          minute & h & w & _ & -> & _ & Hm0 & Hm1 & Hm2 & ? & ? & ? & ? & ? & _)
    %parse_alias_row_inv.
  exists (Str.lower m0), (Str.lower m1), (Str.lower m2), day, hour, minute, h,
         (str_strip name), w.
  split; [reflexivity|].
  repeat split; first [done | lia | by apply is_alpha_lower].
Qed.

Lemma alias_lookups (month day hour minute name weight height : value) :
  let o : gmap string value :=
    {[ "month" := month; "day" := day; "hour" := hour; "minute" := minute;
       "name" := name; "weight" := weight; "height" := height ]} in
  o !! "month" = Some month ∧ o !! "day" = Some day ∧
  o !! "hour" = Some hour ∧ o !! "minute" = Some minute ∧
  o !! "name" = Some name ∧ o !! "weight" = Some weight ∧
  o !! "height" = Some height.
Proof. cbv zeta. repeat split; vm_compute; reflexivity. Qed.

Lemma scraped_alias_dated o : scraped_alias o → dated_alias o.
Proof.
  intros (m0 & m1 & m2 & day & hour & minute & height & name & weight & -> & _).
  destruct (alias_lookups
              (VStr (String m0 (String m1 (String m2 EmptyString))))
              (VInt day) (VInt hour) (VInt minute) (VStr name)
              (VFloat weight) (VInt height))
    as (? & ? & ? & ? & _ & _ & ?).
  by eexists _, day, hour, minute, height.
Qed.

End scraped.


Section scraped_pipeline.
Implicit Types (o : gmap string value) (l : list (gmap string value)).

Lemma upper_lower (c : ascii) : Str.upper (Str.lower c) = Str.upper c.
Proof. destruct c as [[] [] [] [] [] [] [] []]; vm_compute; reflexivity. Qed.

Lemma lower_lower (c : ascii) : Str.lower (Str.lower c) = Str.lower c.
Proof. destruct c as [[] [] [] [] [] [] [] []]; vm_compute; reflexivity. Qed.

Lemma format_date_dated o : dated_alias o → is_Ok (format_date o).
Proof.
  intros (month & day & hour & minute & height & Hm & Hd & Hh & Hmi & _).
  unfold format_date.
  rewrite (getitem_Some _ _ _ Hm), (getitem_Some _ _ _ Hd),
          (getitem_Some _ _ _ Hh), (getitem_Some _ _ _ Hmi).
  cbn [bind Str.capitalize_value Str.format_plain Str.format_02].
  by eexists.
Qed.

Lemma height_policy_int (z : Z) : is_Ok (height_policy (VInt z)).
Proof. unfold height_policy. cbn [Py.abs bind Py.geb]. by eexists. Qed.

Lemma filter_items_total retain (items : list (string * value)) :
  (∀ k v, (k, v) ∈ items → is_Ok (retain_get retain k v)) →
  is_Ok (filter_items retain items).
Proof.
  induction items as [|[k v] items IH]; intros Hall; [by eexists|].
  cbn [filter_items].
  destruct (Hall k v) as [b ->]; [by left|].
  destruct IH as [kept ->]; [intros k' v' ?; apply Hall; by right|].
  cbn [bind]. by eexists.
Qed.

Lemma filter_deltas_list_total retain (ds : list delta) :
  Forall (λ d, ∀ k v, deltas d !! k = Some v →
                      is_Ok (retain_get retain k v)) ds →
  is_Ok (filter_deltas_list retain ds).
Proof.
  induction 1 as [|d ds Hd _ [rest Hrest]]; [by eexists|].
  cbn [filter_deltas_list].
  destruct (filter_items_total retain (map_to_list (deltas d)))
    as [kept ->]; [intros k v ?%elem_of_map_to_list; by apply Hd|].
  rewrite Hrest. cbn [bind]. by eexists.
Qed.

Lemma with_height_dated (z : Z) o :
  dated_alias o → dated_alias (with_height (VInt z) o).
Proof.
  intros (month & day & hour & minute & height & Hm & Hd & Hh & Hmi & _).
  exists month, day, hour, minute, z.
  rewrite !with_height_other by done. by rewrite with_height_lookup.
Qed.

Lemma backfill_heights_dated l out :
  Forall dated_alias l → backfill_heights l = Ok out → Forall dated_alias out.
Proof.
  intros Hl [[_ ->] | (pre & x & h & zs & -> & Hh & _ & _ & ->)]
    %backfill_heights_shape; [done|].
  apply Forall_app in Hl as [Hpre [Hx Hzs]%Forall_cons].
  apply Forall_app. split; [done|]. apply Forall_cons. split; [done|].
  destruct Hx as (? & ? & ? & ? & z & _ & _ & _ & _ & Hz).
  assert (h = VInt z) as -> by congruence.
  apply Forall_fmap. eapply Forall_impl; [exact Hzs|].
  intros a Ha. by apply with_height_dated.
Qed.

Lemma dated_tracked_numeric l :
  Forall dated_alias l → tracked_numeric ["height"] l.
Proof.
  intros Hl. eapply Forall_impl; [exact Hl|].
  intros a (? & ? & ? & ? & z & _ & _ & _ & _ & Hz) f
    ->%list_elem_of_singleton.
  by exists (VInt z).
Qed.

Lemma dated_has_height l : Forall dated_alias l → Forall has_height l.
Proof.
  intros Hl. eapply Forall_impl; [exact Hl|].
  intros a (? & ? & ? & ? & z & _ & _ & _ & _ & Hz). by exists (VInt z).
Qed.

(** The detection stage of a profile whose aliases are dated. *)
Lemma describe_dated_profile (p : profile) :
  Forall dated_alias (aliases p) → is_Ok (describe_suspicious_profile p).
Proof.
  intros Hd. unfold describe_suspicious_profile.
  destruct (backfill_heights_total (aliases p)) as [out Hout];
    [by apply dated_has_height|].
  rewrite Hout. cbn [bind].
  pose proof (backfill_heights_dated _ _ Hd Hout) as Hdo.
  unfold get_suspicious_deltas, filter_deltas.
  rewrite (get_deltas_tracked_numeric_done ["height"] out)
    by by apply dated_tracked_numeric.
  assert (Hto : ∀ d, d ∈ yielded (get_deltas out ["height"]) →
            dated_alias (to d) ∧ dated_alias (from d) ∧
            ∀ k v, deltas d !! k = Some v →
                   k = "height" ∧ ∃ z, v = VInt z).
  { intros d (_ & Hdiff & i & Hi & Hj)%get_deltas_from_sound_all.
    pose proof (proj1 (Forall_lookup _ _) Hdo _ _ Hi) as Hdt.
    pose proof (proj1 (Forall_lookup _ _) Hdo _ _ Hj) as Hdf.
    split; [done|]. split; [done|]. intros k v Hkv.
    apply Hdiff in Hkv
      as (->%list_elem_of_singleton & x & y & Hx & Hy & Hsub & _).
    split; [done|].
    destruct Hdt as (? & ? & ? & ? & a & _ & _ & _ & _ & Ha).
    destruct Hdf as (? & ? & ? & ? & b & _ & _ & _ & _ & Hb).
    assert (x = VInt a) as -> by congruence.
    assert (y = VInt b) as -> by congruence.
    exists (a - b). cbn in Hsub. congruence. }
  destruct (filter_deltas_list_total {[ "height" := height_policy ]}
              (yielded (get_deltas out ["height"]))) as [sd Hsd].
  { apply Forall_forall. intros d Hin k v Hkv.
    destruct (Hto d Hin) as (_ & _ & Hk).
    destruct (Hk k v Hkv) as (-> & z & ->).
    unfold retain_get. rewrite lookup_singleton_eq. apply height_policy_int. }
  rewrite Hsd. cbn [bind].
  destruct sd as [|d0 sd0]; [by eexists|].
  destruct (mapM_Forall2 describe_suspicious_delta (λ _ _, True) (d0 :: sd0))
    as (changes & -> & _); [|cbn [bind]; by eexists].
  apply Forall_forall. intros d' Hd'.
  destruct (filter_deltas_list_inv _ _ _ _ Hsd Hd')
    as (d & Hin & _ & Htod & Hne & Hkv).
  destruct (Hto d Hin) as (Hdt & _ & Hk).
  unfold describe_suspicious_delta. rewrite Htod.
  destruct (format_date_dated _ Hdt) as [s ->]. cbn [bind].
  apply map_choose in Hne as (k & v & Hv).
  pose proof Hv as Hv'. apply Hkv in Hv' as [Hv' _].
  destruct (Hk k v Hv') as (-> & _).
  rewrite (getitem_Some _ _ _ Hv). cbn [bind]. by eexists.
Qed.

End scraped_pipeline.

(** X25: on rows whose cells are ASCII text, when [get_aliases] returns
    it returns one alias per row, and each alias holds the seven fields
    with a month of three lowercase letters, integers from 0 to 99 for
    day, hour and minute, a height that is not negative and a weight that
    is not negative. *)
Theorem get_aliases_scraped (alias_rows : list (list string))
    (l : list (gmap string value)) :
  Forall (Forall ascii_text) alias_rows →
  get_aliases alias_rows = Ok l →
  length l = length alias_rows ∧ Forall scraped_alias l.
Proof.
  intros _ H%mapM_Ok_inv. split; [symmetry; by eapply Forall2_length|].
  induction H as [|cells o rows l Ho _ IH]; constructor; [|done].
  by eapply parse_alias_row_scraped.
Qed.

Lemma get_aliases_scraped_witness :
  get_aliases [["Feb 18th"; "09:05"; " Some Rider "; "75.5kg"; "180cm"]]
    = Ok [ {[ "month" := VStr "feb"; "day" := VInt 18; "hour" := VInt 9;
              "minute" := VInt 5; "name" := VStr "Some Rider";
              "weight" := VFloat (755 # 10); "height" := VInt 180 ]} ] ∧
  (length [ ({[ "month" := VStr "feb"; "day" := VInt 18; "hour" := VInt 9;
                "minute" := VInt 5; "name" := VStr "Some Rider";
                "weight" := VFloat (755 # 10); "height" := VInt 180 ]}
             : gmap string value) ] = 1%nat ∧
   Forall scraped_alias
     [ {[ "month" := VStr "feb"; "day" := VInt 18; "hour" := VInt 9;
          "minute" := VInt 5; "name" := VStr "Some Rider";
          "weight" := VFloat (755 # 10); "height" := VInt 180 ]} ]).
Proof.
  assert (H : get_aliases
                [["Feb 18th"; "09:05"; " Some Rider "; "75.5kg"; "180cm"]]
              = Ok [ {[ "month" := VStr "feb"; "day" := VInt 18;
                        "hour" := VInt 9; "minute" := VInt 5;
                        "name" := VStr "Some Rider";
                        "weight" := VFloat (755 # 10);
                        "height" := VInt 180 ]} ])
    by (vm_compute; reflexivity).
  assert (Hascii : Forall (Forall ascii_text)
            [["Feb 18th"; "09:05"; " Some Rider "; "75.5kg"; "180cm"]]).
  { apply Forall_cons_2; [|apply Forall_nil_2].
    do 5 (apply Forall_cons_2; [reflexivity|]). apply Forall_nil_2. }
  split; [exact H|]. exact (get_aliases_scraped _ _ Hascii H).
Defined.

(** X26: for a row of ASCII cells, the date the report shows for the
    scraped alias is the month of the date cell capitalised, the day
    without a leading zero and the time cell's [HH:MM] as scraped; the
    name is the name cell without the white space around it. *)
Theorem parse_alias_row_report_date (date time name weight height : string)
    (o : gmap string value) :
  Forall ascii_text [date; time; name; weight; height] →
  parse_alias_row [date; time; name; weight; height] = Ok o →
  ∃ day : Z,
    o !! "day" = Some (VInt day) ∧ 0 ≤ day ≤ 99 ∧
    o !! "name" = Some (VStr (str_strip name)) ∧
    format_date o =
      Ok (Str.capitalize (Str.slice 0 3 (str_strip date)) +:+ " " +:+
          pretty day +:+ " " +:+ Str.slice 0 5 (str_strip time)).
Proof.
  intros _.
  intros (date' & time' & name' & weight' & height' & m0 & m1 & m2 & day &
          hour & minute & h & w & Hcells & -> & Hsl & _ & _ & _ & Hd & Hh &
          Hm & _ & _ & Htsl)%parse_alias_row_inv.
  injection Hcells as -> -> -> -> ->.
  destruct (alias_lookups
              (VStr (String (Str.lower m0) (String (Str.lower m1)
                       (String (Str.lower m2) EmptyString))))
              (VInt day) (VInt hour) (VInt minute) (VStr (str_strip name'))
              (VFloat w) (VInt h))
    as (Hlm & Hld & Hlh & Hlmi & Hln & _ & _).
  exists day. split; [exact Hld|]. split; [done|]. split; [exact Hln|].
  unfold format_date.
  rewrite (getitem_Some _ _ _ Hlm), (getitem_Some _ _ _ Hld),
          (getitem_Some _ _ _ Hlh), (getitem_Some _ _ _ Hlmi).
  cbn [bind Str.capitalize_value Str.format_plain].
  rewrite !format_02_two_digits by done. cbn [bind].
  rewrite Hsl, Htsl. cbn [Str.capitalize Str.map].
  by rewrite upper_lower, !lower_lower.
Qed.

Lemma parse_alias_row_report_date_witness :
  ∃ o day,
    parse_alias_row ["FEB 8th"; "09:05"; "Rider"; "75kg"; "180cm"] = Ok o ∧
    o !! "day" = Some (VInt day) ∧ 0 ≤ day ≤ 99 ∧
    o !! "name" = Some (VStr (str_strip "Rider")) ∧
    format_date o =
      Ok (Str.capitalize (Str.slice 0 3 (str_strip "FEB 8th")) +:+ " " +:+
          pretty day +:+ " " +:+ Str.slice 0 5 (str_strip "09:05")).
Proof.
  assert (H : parse_alias_row ["FEB 8th"; "09:05"; "Rider"; "75kg"; "180cm"]
              = Ok {[ "month" := VStr "feb"; "day" := VInt 8;
                      "hour" := VInt 9; "minute" := VInt 5;
                      "name" := VStr "Rider"; "weight" := VFloat (inject_Z 75);
                      "height" := VInt 180 ]})
    by (vm_compute; reflexivity).
  assert (Hascii : Forall ascii_text
            ["FEB 8th"; "09:05"; "Rider"; "75kg"; "180cm"]).
  { do 5 (apply Forall_cons_2; [reflexivity|]). apply Forall_nil_2. }
  destruct (parse_alias_row_report_date _ _ _ _ _ _ Hascii H)
    as (day & Hday).
  eexists _, day. split; [exact H | exact Hday].
Defined.

(** X27: [parse_alias_row] raises nothing but [ValueError]: for a row
    that has not five cells, a cell that a pattern does not match, or a
    weight that the pattern matched and [float] rejects. *)
Theorem parse_alias_row_errors (cells : list string) (e : exn) :
  parse_alias_row cells = Err e → e = ValueError.
Proof.
  unfold parse_alias_row.
  destruct (str_strip <$> cells)
    as [|date [|time [|name [|weight [|height [|? ?]]]]]]; try congruence.
  unfold require_match.
  destruct (Re.match_date date) as [[m d]|] eqn:Hd; [|cbn [bind]; congruence].
  destruct (Re.match_time time) as [[hh mm]|] eqn:Ht; [|cbn [bind]; congruence].
  destruct (Re.match_weight weight) as [wm|] eqn:Hw; [|cbn [bind]; congruence].
  destruct (Re.match_height height) as [hm|] eqn:Hh; [|cbn [bind]; congruence].
  cbn [bind fst snd].
  apply match_date_inv in Hd as (_ & _ & _ & day & _ & _ & _ & _ & _ & -> & _).
  apply match_time_inv in Ht as (hour & minute & -> & _ & -> & _).
  apply match_with_unit_inv in Hw as (wcs & -> & _ & Hwcs).
  apply match_with_unit_inv in Hh as (hcs & -> & Hne & Hhcs).
  destruct (to_int_digits hcs Hne Hhcs) as (h & -> & _).
  cbn [bind].
  destruct (str_to_float_weight wcs Hwcs) as [-> | (w & -> & _)];
    cbn [bind]; congruence.
Qed.

Lemma parse_alias_row_errors_witness :
  parse_alias_row ["Feb 18th"; "09:05"; "Rider"; "7(5)kg"; "180cm"]
    = Err ValueError ∧
  Re.match_weight "7(5)kg" = Some "7(5)" ∧
  ValueError = ValueError.
Proof.
  assert (H : parse_alias_row ["Feb 18th"; "09:05"; "Rider"; "7(5)kg"; "180cm"]
              = Err ValueError) by (vm_compute; reflexivity).
  split; [exact H|]. split; [vm_compute; reflexivity|].
  exact (eq_sym (parse_alias_row_errors _ _ H)).
Defined.

(** X28: [parse_profiles] never raises: a file whose scraping raises,
    whatever the exception, is left out, and the profiles of the other
    files are yielded in the order of the paths. *)
Theorem parse_profiles_skips {P : Type}
    (scrape : P → result (value * value * list (gmap string value)))
    (paths : list P) :
  raised (parse_profiles scrape paths) = None ∧
  yielded (parse_profiles scrape paths) =
    omap (λ path, match scrape path with
                  | Ok (id, zp_points, l) =>
                      Some {| profile_zwiftid := id;
                              profile_zwiftpower_points := zp_points;
                              aliases := l |}
                  | Err _ => None
                  end) paths.
Proof.
  induction paths as [|path paths [IHr IHy]]; [done|].
  cbn [parse_profiles omap list_omap]. unfold parse_profile.
  destruct (scrape path) as [[[id pts] l]|e]; [|done].
  cbn [gen_yield yielded raised]. by rewrite IHr, IHy.
Qed.

(** X29: the detection stage does not raise on a profile whose aliases
    [get_aliases] returned: the heights are backfilled, the deltas taken
    and filtered, and the dates formatted, whatever the identifier and
    the points are. *)
Theorem scraped_profile_described (alias_rows : list (list string))
    (l : list (gmap string value)) (id zp_points : value) :
  get_aliases alias_rows = Ok l →
  is_Ok (describe_suspicious_profile
           {| profile_zwiftid := id; profile_zwiftpower_points := zp_points;
              aliases := l |}).
Proof.
  intros H%mapM_Ok_inv. apply describe_dated_profile. cbn [aliases].
  induction H as [|cells o rows l Ho _ IH]; constructor; [|done].
  by eapply scraped_alias_dated, parse_alias_row_scraped.
Qed.

Lemma scraped_profile_described_witness :
  get_aliases [["Feb 18th"; "09:05"; "Rider"; "75kg"; "187cm"];
               ["Feb 8th"; "19:30"; "Rider"; "75kg"; "170cm"]]
    = Ok [ {[ "month" := VStr "feb"; "day" := VInt 18; "hour" := VInt 9;
              "minute" := VInt 5; "name" := VStr "Rider";
              "weight" := VFloat (inject_Z 75); "height" := VInt 187 ]};
           {[ "month" := VStr "feb"; "day" := VInt 8; "hour" := VInt 19;
              "minute" := VInt 30; "name" := VStr "Rider";
              "weight" := VFloat (inject_Z 75); "height" := VInt 170 ]} ] ∧
  is_Ok (describe_suspicious_profile
           {| profile_zwiftid := VInt 1; profile_zwiftpower_points := VNone;
              aliases :=
                [ {[ "month" := VStr "feb"; "day" := VInt 18;
                     "hour" := VInt 9; "minute" := VInt 5;
                     "name" := VStr "Rider";
                     "weight" := VFloat (inject_Z 75);
                     "height" := VInt 187 ]};
                  {[ "month" := VStr "feb"; "day" := VInt 8;
                     "hour" := VInt 19; "minute" := VInt 30;
                     "name" := VStr "Rider";
                     "weight" := VFloat (inject_Z 75);
                     "height" := VInt 170 ]} ] |}).
Proof.
  assert (H : get_aliases
                [["Feb 18th"; "09:05"; "Rider"; "75kg"; "187cm"];
                 ["Feb 8th"; "19:30"; "Rider"; "75kg"; "170cm"]]
              = Ok [ {[ "month" := VStr "feb"; "day" := VInt 18;
                        "hour" := VInt 9; "minute" := VInt 5;
                        "name" := VStr "Rider";
                        "weight" := VFloat (inject_Z 75);
                        "height" := VInt 187 ]};
                     {[ "month" := VStr "feb"; "day" := VInt 8;
                        "hour" := VInt 19; "minute" := VInt 30;
                        "name" := VStr "Rider";
                        "weight" := VFloat (inject_Z 75);
                        "height" := VInt 170 ]} ])
    by (vm_compute; reflexivity).
  split; [exact H|].
  exact (scraped_profile_described _ _ (VInt 1) VNone H).
Defined.
